(** * The syllabus-to-schedule derivation of the parse-syllabus edge function

    A shallow embedding of the two pure stages of the request handler in
    [PARSE_SYLLABUS_FUNCTION_CODE.ts]:

    - lines 214-311: the class-meeting blocks generated from the weekly
      schedule ([classMeetingBlocks]);
    - lines 361-386: the assembly of [allStudyBlocks] from the class-meeting
      blocks and the planner's assignment study blocks.

    The JavaScript built-ins the handler calls ([Number], [isNaN],
    [String.prototype.split], [trim], [substring], [Date]) are given the
    meaning ECMA-262 gives them, on the fragment of values described next to
    each definition.  A string is a sequence of code units below 256; a number
    is an integer small enough for double arithmetic on it to be exact; the
    local time zone of the runtime is UTC, as it is for a deployed edge
    function. *)

From Stdlib Require Import ZArith List String Ascii Bool Lia Sorted.
From Stdlib Require Import DecimalString DecimalZ.
Import ListNotations.

Open Scope Z_scope.
Open Scope string_scope.

(** ** JavaScript values *)

Module Js.

(** The primitive values that flow through the handler.  Numbers are the
    integers; [JUndefined] is also what reading a missing property gives. *)
Inductive Value : Type :=
| JUndefined
| JNull
| JBool (b : bool)
| JNumber (z : Z)
| JString (s : string).

(** ToBoolean. *)
Definition truthy (v : Value) : bool :=
  match v with
  | JUndefined | JNull => false
  | JBool b => b
  | JNumber z => negb (z =? 0)%Z
  | JString s => negb (s =? "")%string
  end.

(** [a || b] on values. *)
Definition or_else (a b : Value) : Value := if truthy a then a else b.

(** A number as the handler's time arithmetic sees it. *)
Inductive Num : Type :=
| NaN
| Int (z : Z).

(** *** Characters *)

Definition code (c : ascii) : N := N_of_ascii c.

(** WhiteSpace and LineTerminator code units below 256: TAB, LF, VT, FF, CR,
    SP and NBSP.  [trim] and the string-to-number conversion strip them. *)
Definition isWhiteSpace (c : ascii) : bool :=
  let n := code c in
  ((9 <=? n) && (n <=? 13) || (n =? 32) || (n =? 160))%N.

Definition isDigit (c : ascii) : bool :=
  let n := code c in ((48 <=? n) && (n <=? 57))%N.

Definition digitValue (c : ascii) : Z := Z.of_N (code c) - 48.

(** *** String.prototype.trim *)

Fixpoint trimStart (s : string) : string :=
  match s with
  | String c r => if isWhiteSpace c then trimStart r else s
  | EmptyString => EmptyString
  end.

(** Drops the trailing white space: a character is kept when it is not white
    space or when something is kept after it. *)
Fixpoint trimEnd (s : string) : string :=
  match s with
  | EmptyString => EmptyString
  | String c r =>
      match trimEnd r with
      | EmptyString => if isWhiteSpace c then EmptyString else String c EmptyString
      | r' => String c r'
      end
  end.

Definition trim (s : string) : string := trimEnd (trimStart s).

(** *** String.prototype.substring(0, n) *)

Fixpoint substring0 (n : nat) (s : string) : string :=
  match n, s with
  | S n', String c r => String c (substring0 n' r)
  | _, _ => EmptyString
  end.

(** *** String.prototype.split with a one-character separator

    [splitAcc sep s cur] reads [s] with [cur] the reversed piece being read;
    the result always has at least one piece. *)
Fixpoint rev_string (acc s : string) : string :=
  match s with
  | EmptyString => acc
  | String c r => rev_string (String c acc) r
  end.

Fixpoint splitAcc (sep : ascii) (s cur : string) : list string :=
  match s with
  | EmptyString => [rev_string "" cur]
  | String c r =>
      if Ascii.eqb c sep then rev_string "" cur :: splitAcc sep r ""
      else splitAcc sep r (String c cur)
  end.

Definition split (sep : ascii) (s : string) : list string := splitAcc sep s "".

(** *** Number(string)

    StringToNumber strips white space on both sides; the empty rest is 0, an
    optionally signed run of decimal digits is that integer.  A rest is NaN
    when it has a character no StrNumericLiteral contains, or when what
    follows the optional sign does not start like one (with a digit, a dot or
    the [I] of [Infinity]).  Everything else (a fraction, an exponent, a
    radix prefix, [Infinity], an integer too large for exact arithmetic) is
    outside the embedding: [None]. *)

Fixpoint allChars (p : ascii -> bool) (s : string) : bool :=
  match s with
  | EmptyString => true
  | String c r => p c && allChars p r
  end.

Fixpoint digitsValue (acc : Z) (s : string) : Z :=
  match s with
  | EmptyString => acc
  | String c r => digitsValue (10 * acc + digitValue c) r
  end.

(** Integers up to here keep every intermediate of the duration arithmetic
    below 2^53. *)
Definition exactBound : Z := 10 ^ 12.

Definition unsignedInt (s : string) : option Z :=
  match s with
  | EmptyString => None
  | _ =>
      if allChars isDigit s then
        let v := digitsValue 0 s in
        if (v <=? exactBound)%Z then Some v else None
      else None
  end.

(** The characters of StrNumericLiteral: digits, sign, dot, the letters of
    [Infinity], of the exponent, of the radix prefixes and of the hexadecimal
    digits. *)
Definition isNumericChar (c : ascii) : bool :=
  isDigit c ||
  existsb (Ascii.eqb c)
    (list_ascii_of_string "+-.InfinityeExXoObBabcdfACDF").

Definition isSign (c : ascii) : bool := Ascii.eqb c "+" || Ascii.eqb c "-".

Definition startsNumeric (body : string) : bool :=
  match body with
  | EmptyString => false
  | String d _ => isDigit d || Ascii.eqb d "." || Ascii.eqb d "I"
  end.

Definition Number (s : string) : option Num :=
  match trim s with
  | EmptyString => Some (Int 0)
  | String c r as t =>
      let body := if isSign c then r else t in
      if negb (allChars isNumericChar t) || negb (startsNumeric body)
      then Some NaN
      else
        match unsignedInt body with
        | Some v => Some (Int (if Ascii.eqb c "-" then - v else v))
        | None => None
        end
  end.

End Js.

(** ** Dates

    A [Date] object holds a time value; every date the handler builds is a
    midnight in UTC, so the time value is kept as its day number
    [Day(t) = t / msPerDay].  The functions are those of ECMA-262, section
    "Time Values and Time Range", read on day numbers.  With UTC as the local
    time zone, [getDay], [getDate] and [setDate] read and move the same day
    number that [toISOString] prints. *)

Module EsDate.

Import Js.

Definition DayFromYear (y : Z) : Z :=
  365 * (y - 1970) + (y - 1969) / 4 - (y - 1901) / 100 + (y - 1601) / 400.

Definition InLeapYear (y : Z) : bool :=
  (y mod 4 =? 0)%Z && (negb (y mod 100 =? 0)%Z || (y mod 400 =? 0)%Z).

Definition DaysInYear (y : Z) : Z := if InLeapYear y then 366 else 365.

(** The largest [y] with [DayFromYear y <= d]: the quotient by the mean
    length of a year is off by one at most, and is adjusted. *)
Definition YearFromDay (d : Z) : Z :=
  let y := 1970 + (400 * d) / 146097 in
  if (d <? DayFromYear y)%Z then y - 1
  else if (DayFromYear (y + 1) <=? d)%Z then y + 1
  else y.

Definition DayWithinYear (d : Z) : Z := d - DayFromYear (YearFromDay d).

(** The day within the year on which month [m] (0 = January) begins; at 12,
    the length of the year. *)
Definition monthStart (leap : bool) (m : Z) : Z :=
  let l := if leap then 1 else 0 in
  if (m <=? 0)%Z then 0
  else if (m =? 1)%Z then 31
  else if (m =? 2)%Z then 59 + l
  else if (m =? 3)%Z then 90 + l
  else if (m =? 4)%Z then 120 + l
  else if (m =? 5)%Z then 151 + l
  else if (m =? 6)%Z then 181 + l
  else if (m =? 7)%Z then 212 + l
  else if (m =? 8)%Z then 243 + l
  else if (m =? 9)%Z then 273 + l
  else if (m =? 10)%Z then 304 + l
  else if (m =? 11)%Z then 334 + l
  else 365 + l.

Definition MonthFromDay (d : Z) : Z :=
  let leap := InLeapYear (YearFromDay d) in
  let w := DayWithinYear d in
  if (w <? monthStart leap 1)%Z then 0
  else if (w <? monthStart leap 2)%Z then 1
  else if (w <? monthStart leap 3)%Z then 2
  else if (w <? monthStart leap 4)%Z then 3
  else if (w <? monthStart leap 5)%Z then 4
  else if (w <? monthStart leap 6)%Z then 5
  else if (w <? monthStart leap 7)%Z then 6
  else if (w <? monthStart leap 8)%Z then 7
  else if (w <? monthStart leap 9)%Z then 8
  else if (w <? monthStart leap 10)%Z then 9
  else if (w <? monthStart leap 11)%Z then 10
  else 11.

Definition DateFromDay (d : Z) : Z :=
  DayWithinYear d - monthStart (InLeapYear (YearFromDay d)) (MonthFromDay d) + 1.

(** 0 = Sunday ... 6 = Saturday; day 0 (1 January 1970) is a Thursday. *)
Definition WeekDay (d : Z) : Z := (d + 4) mod 7.

Definition DaysInMonth (y m : Z) : Z :=
  monthStart (InLeapYear y) (m + 1) - monthStart (InLeapYear y) m.

(** MakeDay for a month in 0..11. *)
Definition MakeDay (y m dt : Z) : Z :=
  DayFromYear y + monthStart (InLeapYear y) m + dt - 1.

Inductive Date : Type :=
| Invalid
| Time (day : Z).

(** TimeClip: a time value is at most 8.64e15 ms, 10^8 days, from the epoch. *)
Definition TimeClip (day : Z) : Date :=
  if (Z.abs day <=? 10 ^ 8)%Z then Time day else Invalid.

(** [new Date(year, month, date)] with UTC as the local time zone; a year in
    0..99 stands for 1900 + year. *)
Definition ofFields (year month date : Z) : Date :=
  let yr := if (0 <=? year)%Z && (year <=? 99)%Z then 1900 + year else year in
  TimeClip (MakeDay yr month date).

(** *** new Date(string)

    The date-only form [YYYY-MM-DD] of the date time string format, with a
    month in 01..12 and a day that exists in it, is that midnight in UTC.  A
    string with no digit at all is no date in any parser: Invalid Date.  For
    every other string the result is left to the implementation: [None]. *)

Definition hasDigit (s : string) : bool := negb (allChars (fun c => negb (isDigit c)) s).

Definition isoFields (s : string) : option (Z * Z * Z) :=
  match list_ascii_of_string s with
  | [y1; y2; y3; y4; h1; m1; m2; h2; d1; d2] =>
      if forallb isDigit [y1; y2; y3; y4; m1; m2; d1; d2]
         && Ascii.eqb h1 "-" && Ascii.eqb h2 "-"
      then Some (1000 * digitValue y1 + 100 * digitValue y2
                 + 10 * digitValue y3 + digitValue y4,
                 10 * digitValue m1 + digitValue m2,
                 10 * digitValue d1 + digitValue d2)
      else None
  | _ => None
  end.

Definition ofString (s : string) : option Date :=
  match isoFields s with
  | Some (y, m, d) =>
      if (1 <=? m)%Z && (m <=? 12)%Z && (1 <=? d)%Z && (d <=? DaysInMonth y (m - 1))%Z
      then Some (Time (MakeDay y (m - 1) d))
      else None
  | None => if hasDigit s then None else Some Invalid
  end.

(** *** toISOString().split('T')[0] *)

Definition digitChar (k : Z) : ascii := ascii_of_N (48 + Z.to_N k).

(** The last [w] decimal digits of [n], in front of [acc]. *)
Fixpoint padAcc (w : nat) (n : Z) (acc : string) : string :=
  match w with
  | O => acc
  | S w' => padAcc w' (n / 10) (String (digitChar (n mod 10)) acc)
  end.

Definition pad (w : nat) (n : Z) : string := padAcc w n "".

(** Four digits for the years 0..9999, a sign and six digits otherwise. *)
Definition yearString (y : Z) : string :=
  if (0 <=? y)%Z && (y <=? 9999)%Z then pad 4 y
  else (if (y <? 0)%Z then "-" else "+") ++ pad 6 (Z.abs y).

Definition isoDate (d : Z) : string :=
  yearString (YearFromDay d) ++ "-" ++ pad 2 (MonthFromDay d + 1)
    ++ "-" ++ pad 2 (DateFromDay d).

(** [a <= b] on dates compares the time values; it is false when one of them
    is NaN. *)
Definition le (a b : Date) : bool :=
  match a, b with
  | Time x, Time y => (x <=? y)%Z
  | _, _ => false
  end.

End EsDate.

(** ** The records of the handler *)

(** The [schedule] of the parsed syllabus; [None] is a property that is
    missing or null. *)
Module Schedule.
Record t : Type := {
  days : option (list string);
  startTime : option string;
  endTime : option string;
  startDate : option string;
  endDate : option string
}.
End Schedule.

(** What the recurrence loop pushes on [classMeetingBlocks]. *)
Module ClassMeeting.
Record t : Type := {
  blockDate : string;
  startTime : string;
  durationMinutes : Z;
  isClassMeeting : bool
}.
End ClassMeeting.

(** An element of the planner's array [assignmentStudyBlocks]: an object
    whose four properties hold any value, [JUndefined] when missing. *)
Module Planned.
Record t : Type := {
  blockDate : Js.Value;
  startTime : Js.Value;
  durationMinutes : Js.Value;
  assignmentIndex : Js.Value
}.
End Planned.

(** A row of [insertedAssignments]; only its [id] is read. *)
Module Assignment.
Record t : Type := { id : Js.Value }.
End Assignment.

(** A row of [allStudyBlocks], as inserted in [study_blocks]. *)
Module StudyBlock.
Record t : Type := {
  user_id : Js.Value;
  class_id : Js.Value;
  assignment_id : Js.Value;
  block_date : Js.Value;
  start_time : Js.Value;
  duration_minutes : Js.Value
}.
End StudyBlock.

(** ** The handler *)

Module ParseSyllabus.

Import Js EsDate.

(** *** dayMap (lines 219-240) *)

Definition dayMapEntries : list (string * Z) :=
  [ ("Monday", 1); ("Tuesday", 2); ("Wednesday", 3); ("Thursday", 4);
    ("Friday", 5); ("Saturday", 6); ("Sunday", 0);
    ("Mon", 1); ("Tue", 2); ("Wed", 3); ("Thu", 4);
    ("Fri", 5); ("Sat", 6); ("Sun", 0);
    ("M", 1); ("T", 2); ("W", 3); ("R", 4); ("F", 5); ("S", 6) ].

(** [dayMap] is an object literal: a key it does not own is looked up in
    Object.prototype, where ECMA-262 (Annex B included) binds these names to
    functions and objects. *)
Definition objectPrototypeKeys : list string :=
  [ "constructor"; "hasOwnProperty"; "isPrototypeOf"; "propertyIsEnumerable";
    "toLocaleString"; "toString"; "valueOf"; "__proto__";
    "__defineGetter__"; "__defineSetter__"; "__lookupGetter__";
    "__lookupSetter__" ].

(** The value of [dayMap[key]], and of an element of [scheduleDays]. *)
Inductive DayValue : Type :=
| DayNumber (n : Z)      (* an own property: a weekday number *)
| Inherited              (* a property of Object.prototype: not a number *)
| Nullish.               (* undefined, or the null it is replaced with *)

Fixpoint assoc (key : string) (l : list (string * Z)) : option Z :=
  match l with
  | [] => None
  | (k, v) :: r => if (k =? key)%string then Some v else assoc key r
  end.

Definition dayMap (key : string) : DayValue :=
  match assoc key dayMapEntries with
  | Some n => DayNumber n
  | None =>
      if existsb (String.eqb key) objectPrototypeKeys then Inherited else Nullish
  end.

(** [a ?? b] *)
Definition coalesce (a b : DayValue) : DayValue :=
  match a with
  | Nullish => b
  | _ => a
  end.

(** The callback of [schedule.days.map] (lines 285-288). *)
Definition resolveDay (day : string) : DayValue :=
  let dayName := trim day in
  coalesce (coalesce (dayMap dayName) (dayMap (substring0 3 dayName))) Nullish.

Definition notNull (d : DayValue) : bool :=
  match d with
  | Nullish => false
  | _ => true
  end.

Definition scheduleDays (days : list string) : list DayValue :=
  filter notNull (map resolveDay days).

(** [scheduleDays.includes(dayOfWeek)]: only a number equals a number. *)
Definition includes (l : list DayValue) (dayOfWeek : Z) : bool :=
  existsb (fun d => match d with
                    | DayNumber n => (n =? dayOfWeek)%Z
                    | _ => false
                    end) l.

(** *** Duration (lines 261-282) *)

Definition MIN_DURATION : Z := 15.
Definition MAX_DURATION : Z := 4 * 60.

Definition durationMinutes (startHour startMin endHour endMin : Z) : Z :=
  let d0 := (endHour * 60 + endMin) - (startHour * 60 + startMin) in
  let d1 := if (d0 <? 0)%Z then d0 + 24 * 60 else d0 in
  let d2 := if (d1 <? MIN_DURATION)%Z then MIN_DURATION else d1 in
  if (d2 >? MAX_DURATION)%Z then MAX_DURATION else d2.

(** *** Time strings (lines 253-257) *)

(** The [i]-th element of [time.split(':').map(Number)], as the destructuring
    binds it: a missing element is [undefined], which [isNaN] converts to
    NaN. *)
Definition timePart (time : string) (i : nat) : option Num :=
  match nth_error (split ":" time) i with
  | Some piece => Number piece
  | None => Some NaN
  end.

Definition knownNaN (c : option Num) : bool :=
  match c with
  | Some NaN => true
  | _ => false
  end.

(** *** The recurrence loop (lines 294-306)

    [fuel] bounds the number of iterations; the loop is run with one unit per
    day of the range. *)
Fixpoint walk (fuel : nat) (sd : list DayValue) (startTime : string)
    (duration : Z) (currentDate endDate : Z) : list ClassMeeting.t :=
  match fuel with
  | O => []
  | S fuel' =>
      if (currentDate <=? endDate)%Z then
        let rest := walk fuel' sd startTime duration (currentDate + 1) endDate in
        if includes sd (WeekDay currentDate)
        then {| ClassMeeting.blockDate := isoDate currentDate;
                ClassMeeting.startTime := startTime;
                ClassMeeting.durationMinutes := duration;
                ClassMeeting.isClassMeeting := true |} :: rest
        else rest
      else []
  end.

Definition occurrences (sd : list DayValue) (startTime : string)
    (duration : Z) (startDate endDate : Date) : list ClassMeeting.t :=
  match startDate, endDate with
  | Time s, Time e => walk (Z.to_nat (e - s + 1)) sd startTime duration s e
  | _, _ => []
  end.

(** *** Start and end of the range (lines 243-250) *)

Definition nonEmpty (o : option string) : option string :=
  match o with
  | Some s => if (s =? "")%string then None else Some s
  | None => None
  end.

Definition rangeStart (currentYear : Z) (sch : Schedule.t) : option Date :=
  match nonEmpty (Schedule.startDate sch) with
  | Some s => ofString s
  | None => Some (ofFields currentYear 0 15)
  end.

Definition rangeEnd (currentYear : Z) (sch : Schedule.t) : option Date :=
  match nonEmpty (Schedule.endDate sch) with
  | Some s => ofString s
  | None => Some (ofFields currentYear 4 15)
  end.

(** *** classMeetingBlocks (lines 214-311)

    [currentYear] is [new Date().getFullYear()].  The result is [None] when
    the outcome depends on a number or a date outside the embedding.  The
    test of line 257 is a disjunction: it holds as soon as one component is
    known to be NaN, whatever the others are.  A date is only read by the
    loop, and [new Date] does not throw on a string, so a date outside the
    embedding matters only there. *)
Definition classMeetingBlocks (currentYear : Z) (schedule : option Schedule.t)
    : option (list ClassMeeting.t) :=
  match schedule with
  | None => Some []
  | Some sch =>
      match Schedule.days sch,
            nonEmpty (Schedule.startTime sch),
            nonEmpty (Schedule.endTime sch) with
      | Some days, Some startTime, Some endTime =>
          let startHour := timePart startTime 0 in
          let startMin := timePart startTime 1 in
          let endHour := timePart endTime 0 in
          let endMin := timePart endTime 1 in
          if existsb knownNaN [startHour; startMin; endHour; endMin]
          then Some []
          else
            match startHour, startMin, endHour, endMin with
            | Some (Int sh), Some (Int sm), Some (Int eh), Some (Int em) =>
                let duration := durationMinutes sh sm eh em in
                let sd := scheduleDays days in
                if (List.length sd =? 0)%nat then Some []
                else
                  match rangeStart currentYear sch, rangeEnd currentYear sch with
                  | Some startDate, Some endDate =>
                      Some (occurrences sd startTime duration startDate endDate)
                  | _, _ => None
                  end
            | _, _, _, _ => None
            end
      | _, _, _ => Some []
      end
  end.

(** *** allStudyBlocks (lines 361-386) *)

Definition classMeetingRow (userId classId : Value) (block : ClassMeeting.t)
    : StudyBlock.t :=
  {| StudyBlock.user_id := userId;
     StudyBlock.class_id := classId;
     StudyBlock.assignment_id := JNull;
     StudyBlock.block_date := JString (ClassMeeting.blockDate block);
     StudyBlock.start_time := JString (ClassMeeting.startTime block);
     StudyBlock.duration_minutes := JNumber (ClassMeeting.durationMinutes block) |}.

(** The array index a property key denotes: a non-negative integer, or the
    string that is its canonical decimal form. *)
Definition arrayIndex (key : Value) : option nat :=
  match key with
  | JNumber z => if (0 <=? z)%Z then Some (Z.to_nat z) else None
  | JString s =>
      match s with
      | EmptyString => None
      | String c r =>
          if allChars isDigit s
             && (negb (Ascii.eqb c "0") || (r =? "")%string)
          then Some (Z.to_nat (digitsValue 0 s))
          else None
      end
  | _ => None
  end.

(** [insertedAssignments[key]?.id]: every key that is not an index of the
    array names [length] or a property of Array.prototype, none of which has
    an [id]. *)
Definition assignmentIdAt (insertedAssignments : list Assignment.t)
    (key : Value) : Value :=
  match arrayIndex key with
  | Some i =>
      match nth_error insertedAssignments i with
      | Some a => Assignment.id a
      | None => JUndefined
      end
  | None => JUndefined
  end.

Definition assignmentRow (userId classId : Value)
    (insertedAssignments : list Assignment.t) (block : Planned.t)
    : StudyBlock.t :=
  {| StudyBlock.user_id := userId;
     StudyBlock.class_id := classId;
     StudyBlock.assignment_id :=
       or_else (assignmentIdAt insertedAssignments (Planned.assignmentIndex block))
               JNull;
     StudyBlock.block_date := Planned.blockDate block;
     StudyBlock.start_time := Planned.startTime block;
     StudyBlock.duration_minutes := Planned.durationMinutes block |}.

Definition allStudyBlocks (userId classId : Value)
    (classMeetingBlocks : list ClassMeeting.t)
    (assignmentStudyBlocks : list Planned.t)
    (insertedAssignments : list Assignment.t) : list StudyBlock.t :=
  let all0 : list StudyBlock.t := [] in
  let all1 :=
    if (0 <? List.length classMeetingBlocks)%nat
    then (all0 ++ map (classMeetingRow userId classId) classMeetingBlocks)%list
    else all0 in
  if (0 <? List.length assignmentStudyBlocks)%nat
     && (0 <? List.length insertedAssignments)%nat
  then (all1 ++ map (assignmentRow userId classId insertedAssignments)
                    assignmentStudyBlocks)%list
  else all1.

(** The two stages in sequence, as the handler runs them. *)
Definition studyBlocksOf (currentYear : Z) (userId classId : Value)
    (schedule : option Schedule.t) (assignmentStudyBlocks : list Planned.t)
    (insertedAssignments : list Assignment.t) : option (list StudyBlock.t) :=
  match classMeetingBlocks currentYear schedule with
  | Some blocks =>
      Some (allStudyBlocks userId classId blocks assignmentStudyBlocks
              insertedAssignments)
  | None => None
  end.

End ParseSyllabus.

(** ** What the specification says, in its own words *)

Module Spec.

Import Js EsDate ParseSyllabus.

(** "Clamp to the closed interval [15, 240] minutes: values below 15 are
    raised to 15; values above 240 are capped at 240." *)
Definition clamp (x : Z) : Z := Z.min 240 (Z.max 15 x).

(** "duration = (endHour*60+endMin) - (startHour*60+startMin).  If negative,
    assume the meeting spans midnight and add 1440 minutes." *)
Definition duration (startHour startMin endHour endMin : Z) : Z :=
  let d := (endHour * 60 + endMin) - (startHour * 60 + startMin) in
  clamp (if (d <? 0)%Z then d + 1440 else d).

(** The [n] consecutive days from [s] on: the dates the generator walks. *)
Fixpoint daysFrom (n : nat) (s : Z) : list Z :=
  match n with
  | O => []
  | S n' => s :: daysFrom n' (s + 1)
  end.

(** The days of the inclusive range from [startDate] to [endDate] whose day
    of the week is one of the resolved days, in the order of the calendar. *)
Definition matchingDays (days : list string) (startDate endDate : Date)
    : list Z :=
  match startDate, endDate with
  | Time s, Time e =>
      filter (fun d => includes (scheduleDays days) (WeekDay d))
             (daysFrom (Z.to_nat (e - s + 1)) s)
  | _, _ => []
  end.

(** The class meeting of day [d]. *)
Definition meetingOn (startTime : string) (duration : Z) (d : Z)
    : ClassMeeting.t :=
  {| ClassMeeting.blockDate := isoDate d;
     ClassMeeting.startTime := startTime;
     ClassMeeting.durationMinutes := duration;
     ClassMeeting.isClassMeeting := true |}.

(** The three-letter abbreviations and the single letters of the mapping. *)
Definition abbreviations : list (string * Z) :=
  [ ("Mon", 1); ("Tue", 2); ("Wed", 3); ("Thu", 4);
    ("Fri", 5); ("Sat", 6); ("Sun", 0) ].

Definition fullNames : list (string * Z) :=
  [ ("Monday", 1); ("Tuesday", 2); ("Wednesday", 3); ("Thursday", 4);
    ("Friday", 5); ("Saturday", 6); ("Sunday", 0) ].

Definition singleLetters : list (string * Z) :=
  [ ("M", 1); ("T", 2); ("W", 3); ("R", 4); ("F", 5); ("S", 6) ].

(** The forms of a day token the specification lists. *)
Definition listedForms : list (string * Z) :=
  (fullNames ++ abbreviations ++ singleLetters)%list.

(** A schedule the generator answers with no block, in the year
    [currentYear]. *)
Inductive Unusable (currentYear : Z) : option Schedule.t -> Prop :=
| Absent : Unusable currentYear None
| NoDays sch :
    Schedule.days sch = None -> Unusable currentYear (Some sch)
| NoStartTime sch :
    nonEmpty (Schedule.startTime sch) = None -> Unusable currentYear (Some sch)
| NoEndTime sch :
    nonEmpty (Schedule.endTime sch) = None -> Unusable currentYear (Some sch)
| NotANumber sch startTime endTime :
    nonEmpty (Schedule.startTime sch) = Some startTime ->
    nonEmpty (Schedule.endTime sch) = Some endTime ->
    In (Some NaN) [timePart startTime 0; timePart startTime 1;
                   timePart endTime 0; timePart endTime 1] ->
    Unusable currentYear (Some sch)
| NoValidDay sch days startTime endTime sh sm eh em :
    Schedule.days sch = Some days ->
    nonEmpty (Schedule.startTime sch) = Some startTime ->
    nonEmpty (Schedule.endTime sch) = Some endTime ->
    timePart startTime 0 = Some (Int sh) ->
    timePart startTime 1 = Some (Int sm) ->
    timePart endTime 0 = Some (Int eh) ->
    timePart endTime 1 = Some (Int em) ->
    (forall token, In token days -> resolveDay token = Nullish) ->
    Unusable currentYear (Some sch)
| NoWeekDay sch days startTime endTime sh sm eh em startDate endDate :
    Schedule.days sch = Some days ->
    nonEmpty (Schedule.startTime sch) = Some startTime ->
    nonEmpty (Schedule.endTime sch) = Some endTime ->
    timePart startTime 0 = Some (Int sh) ->
    timePart startTime 1 = Some (Int sm) ->
    timePart endTime 0 = Some (Int eh) ->
    timePart endTime 1 = Some (Int em) ->
    rangeStart currentYear sch = Some startDate ->
    rangeEnd currentYear sch = Some endDate ->
    (forall token n, In token days -> resolveDay token <> DayNumber n) ->
    Unusable currentYear (Some sch).

End Spec.

(** ** Concrete inputs *)

Module Examples.

Import Js EsDate ParseSyllabus.

Definition user : Value := JString "user-1".
Definition class : Value := JString "class-1".

(** The scenario of the specification: Mondays and Wednesdays, 10:00-11:00,
    13 to 24 January 2025. *)
Definition mondayWednesday : Schedule.t :=
  {| Schedule.days := Some ["Monday"; "Wednesday"];
     Schedule.startTime := Some "10:00";
     Schedule.endTime := Some "11:00";
     Schedule.startDate := Some "2025-01-13";
     Schedule.endDate := Some "2025-01-24" |}.

(** A meeting across midnight on one Monday. *)
Definition lateMonday : Schedule.t :=
  {| Schedule.days := Some ["Monday"];
     Schedule.startTime := Some "23:30";
     Schedule.endTime := Some "00:30";
     Schedule.startDate := Some "2025-01-13";
     Schedule.endDate := Some "2025-01-13" |}.

(** A start time whose hour is a negative integer. *)
Definition negativeHour : Schedule.t :=
  {| Schedule.days := Some ["Monday"];
     Schedule.startTime := Some "-1:00";
     Schedule.endTime := Some "10:00";
     Schedule.startDate := Some "2025-01-13";
     Schedule.endDate := Some "2025-01-13" |}.

(** A schedule whose only day token is unknown. *)
Definition funday : Schedule.t :=
  {| Schedule.days := Some ["Funday"];
     Schedule.startTime := Some "10:00";
     Schedule.endTime := Some "11:00";
     Schedule.startDate := Some "2025-01-13";
     Schedule.endDate := Some "2025-01-24" |}.

Definition assignment1 : Assignment.t := {| Assignment.id := JString "a-1" |}.

(** The planner's own example, for the first assignment. *)
Definition session0 : Planned.t :=
  {| Planned.blockDate := JString "2025-02-10";
     Planned.startTime := JString "18:00";
     Planned.durationMinutes := JNumber 45;
     Planned.assignmentIndex := JNumber 0 |}.

(** A session for an assignment that does not exist. *)
Definition sessionOutOfRange : Planned.t :=
  {| Planned.blockDate := JString "2025-02-10";
     Planned.startTime := JString "18:00";
     Planned.durationMinutes := JNumber 45;
     Planned.assignmentIndex := JNumber 7 |}.

(** A session of 500 minutes. *)
Definition sessionLong : Planned.t :=
  {| Planned.blockDate := JString "2025-02-10";
     Planned.startTime := JString "18:00";
     Planned.durationMinutes := JNumber 500;
     Planned.assignmentIndex := JNumber 0 |}.

(** A session whose date is no date. *)
Definition sessionNoDate : Planned.t :=
  {| Planned.blockDate := JString "soon";
     Planned.startTime := JUndefined;
     Planned.durationMinutes := JNumber 45;
     Planned.assignmentIndex := JNumber 0 |}.

Definition meeting1 : ClassMeeting.t :=
  Spec.meetingOn "10:00" 60 20101.

End Examples.

(** ** Numbers that hold integers *)

(** A JavaScript number is a double.  Every integer from -2^53 to 2^53 is a
    double, and a sum or difference of two of them that stays in that range
    is computed without rounding.  Beyond it the result is rounded: outside
    the embedding, [None]. *)
Module Double.

(** 2^53 *)
Definition maxExact : Z := 9007199254740992.

Definition exact (z : Z) : bool := (Z.abs z <=? maxExact)%Z.

(** [a + b] *)
Definition add (a b : Z) : option Z :=
  if exact a && exact b && exact (a + b) then Some (a + b) else None.

(** [a - b] *)
Definition sub (a b : Z) : option Z :=
  if exact a && exact b && exact (a - b) then Some (a - b) else None.

(** [Math.floor(a / 60)] and [a % 60] for an integer [a] of the range.  The
    remainder of doubles is exact.  The quotient is rounded, by at most 2^-6
    since it is below 2^48; when it is no integer it lies at least 1/60 from
    the nearest one, so the rounded quotient has the floor of the exact
    one. *)
Definition floorDiv60 (a : Z) : option Z :=
  if exact a then Some (a / 60) else None.

Definition rem60 (a : Z) : option Z :=
  if exact a then Some (Z.rem a 60) else None.

End Double.

(** ** More of the JavaScript text functions *)

Module JsText.

Import Js.

(** The line feed of the regular expressions. *)
Definition LF : ascii := "010"%char.

(** ToString of a number that is an integer below 10^21 in absolute value:
    its decimal digits, after a minus sign when it is negative.  (From 10^21
    on JavaScript prints an exponent; no caller reaches that range.) *)
Definition toString (z : Z) : string := NilEmpty.string_of_int (Z.to_int z).

(** ToString of the value a template literal interpolates. *)
Definition numToString (n : Num) : string :=
  match n with
  | NaN => "NaN"
  | Int z => toString z
  end.

Fixpoint digitPrefix (s : string) : string :=
  match s with
  | String c r => if isDigit c then String c (digitPrefix r) else EmptyString
  | EmptyString => EmptyString
  end.

Definition startsHex (s : string) : bool :=
  match s with
  | String z (String x _) =>
      Ascii.eqb z "0" && (Ascii.eqb x "x" || Ascii.eqb x "X")
  | _ => false
  end.

(** [parseInt(s)] with no radix: leading white space is skipped, then a
    sign, then the longest run of decimal digits is read and what follows is
    ignored; no digit gives NaN.  A [0x] prefix selects radix 16 and an
    integer beyond [exactBound] is rounded: both are outside the embedding,
    [None]. *)
Definition parseInt (s : string) : option Num :=
  let t := trimStart s in
  let negative :=
    match t with
    | String c _ => Ascii.eqb c "-"
    | EmptyString => false
    end in
  let body :=
    match t with
    | String c r => if isSign c then r else t
    | EmptyString => t
    end in
  if startsHex body then None
  else
    match digitPrefix body with
    | EmptyString => Some NaN
    | ds =>
        let v := digitsValue 0 ds in
        if (v <=? exactBound)%Z
        then Some (Int (if negative then - v else v))
        else None
    end.

Fixpoint repeatChar (n : nat) (c : ascii) : string :=
  match n with
  | O => EmptyString
  | S n' => String c (repeatChar n' c)
  end.

(** [s.padStart(targetLength, fill)] with a fill of one character. *)
Definition padStart (targetLength : nat) (fill : ascii) (s : string) : string :=
  repeatChar (targetLength - String.length s) fill ++ s.

(** [s] has no character [c]. *)
Definition lacks (c : ascii) (s : string) : bool :=
  allChars (fun a => negb (Ascii.eqb a c)) s.

(** The text after [p] when [s] starts with [p]. *)
Fixpoint dropPrefix (p s : string) : option string :=
  match p, s with
  | EmptyString, _ => Some s
  | String a p', String b s' => if Ascii.eqb a b then dropPrefix p' s' else None
  | String _ _, EmptyString => None
  end.

(** The text before the first occurrence of [p] in [s], and the text after
    that occurrence. *)
Fixpoint cut (p s : string) : option (string * string) :=
  match dropPrefix p s with
  | Some rest => Some (EmptyString, rest)
  | None =>
      match s with
      | EmptyString => None
      | String c s' =>
          match cut p s' with
          | Some (before, rest) => Some (String c before, rest)
          | None => None
          end
      end
  end.

(** The text of [s] up to its last [c], that [c] included. *)
Fixpoint throughLast (c : ascii) (s : string) : option string :=
  match s with
  | EmptyString => None
  | String a r =>
      match throughLast c r with
      | Some body => Some (String a body)
      | None => if Ascii.eqb a c then Some (String a EmptyString) else None
      end
  end.

End JsText.

(** ** The planner's answer as JSON.parse returns it *)

Module Json.

Import Js.

(** A parsed value: a primitive, an array, or an object with its members in
    the order of the text.  Numbers are the integers, as for [Value].
    [Prim JUndefined] is no JSON value: it is what reading a missing
    property gives. *)
#[warnings="-register-all"]
Inductive t : Type :=
| Prim (v : Value)
| Array (items : list t)
| Object (members : list (string * t)).

(** The own property [name] of an object; of two members with the same name
    JSON.parse keeps the last. *)
Fixpoint own (name : string) (members : list (string * t)) : option t :=
  match members with
  | [] => None
  | (k, v) :: rest =>
      match own name rest with
      | Some later => Some later
      | None => if (k =? name)%string then Some v else None
      end
  end.

(** [value.name] for a value that is not null or undefined and a name that
    is no property of a string, number, boolean or array nor of
    Object.prototype: the own member of an object, undefined otherwise. *)
Definition held (name : string) (value : t) : t :=
  match value with
  | Object members =>
      match own name members with
      | Some j => j
      | None => Prim JUndefined
      end
  | _ => Prim JUndefined
  end.

(** What evaluating an expression gives: a value, a TypeError, or nothing
    the embedding tells. *)
Inductive Outcome (A : Type) : Type :=
| Returns (a : A)
| Throws
| Unmodelled.

Arguments Returns {A} a.
Arguments Throws {A}.
Arguments Unmodelled {A}.

Definition bind {A B : Type} (o : Outcome A) (f : A -> Outcome B)
    : Outcome B :=
  match o with
  | Returns a => f a
  | Throws => Throws
  | Unmodelled => Unmodelled
  end.

(** ToString of a number that is an integer: decimal below 10^21, with an
    exponent from there on, which is not modelled. *)
Definition numberText (z : Z) : Outcome string :=
  if (Z.abs z <? 1000000000000000000000)%Z
  then Returns (JsText.toString z)
  else Unmodelled.

(** ToString of a primitive. *)
Definition primText (v : Value) : Outcome string :=
  match v with
  | JUndefined => Returns "undefined"
  | JNull => Returns "null"
  | JBool true => Returns "true"
  | JBool false => Returns "false"
  | JNumber z => numberText z
  | JString s => Returns s
  end.

(** An element in Array.prototype.join: undefined and null give the empty
    string. *)
Definition element (text : t -> Outcome string) (x : t) : Outcome string :=
  match x with
  | Prim JUndefined | Prim JNull => Returns ""
  | _ => text x
  end.

(** The elements from left to right, with a comma between two. *)
Fixpoint join (parts : list (Outcome string)) : Outcome string :=
  match parts with
  | [] => Returns ""
  | part :: rest =>
      bind part (fun first =>
        match rest with
        | [] => Returns first
        | _ :: _ =>
            bind (join rest) (fun others =>
              Returns (first ++ "," ++ others))
        end)
  end.

(** ToString.  An array is joined (Array.prototype.toString).  An object
    goes through OrdinaryToPrimitive: a member named toString is no function
    and hides Object.prototype.toString, and valueOf, own or inherited,
    gives no primitive, so the conversion throws a TypeError; without such a
    member Object.prototype.toString answers. *)
Fixpoint toText (j : t) : Outcome string :=
  match j with
  | Prim v => primText v
  | Array items => join (map (element toText) items)
  | Object members =>
      match own "toString" members with
      | Some _ => Throws
      | None => Returns "[object Object]"
      end
  end.

(** ToPropertyKey: a primitive is the key as it is; an object or an array is
    converted to a string. *)
Definition propertyKey (index : t) : Outcome Value :=
  match index with
  | Prim v => Returns v
  | _ => bind (toText index) (fun s => Returns (JString s))
  end.

End Json.

(** ** The merge on the parsed plan (lines 361-386) *)

Module PlanMerge.

Import Js ParseSyllabus Json.

(** A row of [allStudyBlocks] whose last three columns are copied from a
    parsed entry. *)
Record Row : Type := {
  user_id : Value;
  class_id : Value;
  assignment_id : Value;
  block_date : Json.t;
  start_time : Json.t;
  duration_minutes : Json.t
}.

Definition rowOf (r : StudyBlock.t) : Row :=
  {| user_id := StudyBlock.user_id r;
     class_id := StudyBlock.class_id r;
     assignment_id := StudyBlock.assignment_id r;
     block_date := Prim (StudyBlock.block_date r);
     start_time := Prim (StudyBlock.start_time r);
     duration_minutes := Prim (StudyBlock.duration_minutes r) |}.

(** [block.name]: a TypeError when [block] is null or undefined. *)
Definition read (block : Json.t) (name : string) : Outcome Json.t :=
  match block with
  | Prim JUndefined | Prim JNull => Throws
  | _ => Returns (held name block)
  end.

(** The object literal of lines 378-385, its properties in order. *)
Definition entryRow (userId classId : Value)
    (insertedAssignments : list Assignment.t) (block : Json.t)
    : Outcome Row :=
  bind (read block "assignmentIndex") (fun index =>
  bind (propertyKey index) (fun key =>
  bind (read block "blockDate") (fun blockDate =>
  bind (read block "startTime") (fun startTime =>
  bind (read block "durationMinutes") (fun durationMinutes =>
  Returns {| user_id := userId;
             class_id := classId;
             assignment_id :=
               or_else (assignmentIdAt insertedAssignments key) JNull;
             block_date := blockDate;
             start_time := startTime;
             duration_minutes := durationMinutes |}))))).

(** [blocks.map(f)], which ends at the first entry that throws. *)
Fixpoint mapRows (f : Json.t -> Outcome Row) (blocks : list Json.t)
    : Outcome (list Row) :=
  match blocks with
  | [] => Returns []
  | block :: rest =>
      bind (f block) (fun row =>
      bind (mapRows f rest) (fun rows => Returns (row :: rows)))
  end.

Definition allStudyBlocks (userId classId : Value)
    (classMeetingBlocks : list ClassMeeting.t)
    (assignmentStudyBlocks : list Json.t)
    (insertedAssignments : list Assignment.t) : Outcome (list Row) :=
  let all0 : list Row := [] in
  let all1 :=
    if (0 <? List.length classMeetingBlocks)%nat
    then (all0 ++ map rowOf (map (classMeetingRow userId classId)
                               classMeetingBlocks))%list
    else all0 in
  if (0 <? List.length assignmentStudyBlocks)%nat
     && (0 <? List.length insertedAssignments)%nat
  then bind (mapRows (entryRow userId classId insertedAssignments)
               assignmentStudyBlocks)
         (fun rows => Returns (all1 ++ rows)%list)
  else Returns all1.

(** A session of the typed model as the entry JSON.parse gives for it: a
    property that is undefined is absent. *)
Definition member (name : string) (v : Value) : list (string * Json.t) :=
  match v with
  | JUndefined => []
  | _ => [(name, Prim v)]
  end.

Definition ofPlanned (p : Planned.t) : Json.t :=
  Object (member "blockDate" (Planned.blockDate p)
          ++ member "startTime" (Planned.startTime p)
          ++ member "durationMinutes" (Planned.durationMinutes p)
          ++ member "assignmentIndex" (Planned.assignmentIndex p))%list.

(** *** The entries that make the merge throw, said without the merge *)

(** The value is an object with a member named toString, or an array that
    holds one, at any depth of arrays. *)
Fixpoint poisoned (j : Json.t) : bool :=
  match j with
  | Prim _ => false
  | Array items => existsb poisoned items
  | Object members =>
      match own "toString" members with
      | Some _ => true
      | None => false
      end
  end.

(** The entry is null (or undefined), or its assignmentIndex is poisoned. *)
Definition raises (block : Json.t) : bool :=
  match block with
  | Prim JUndefined | Prim JNull => true
  | _ => poisoned (held "assignmentIndex" block)
  end.

(** Every number of the value prints in decimal. *)
Fixpoint printable (j : Json.t) : bool :=
  match j with
  | Prim (JNumber z) => (Z.abs z <? 1000000000000000000000)%Z
  | Prim _ => true
  | Array items => forallb printable items
  | Object _ => true
  end.

(** An index whose key the embedding tells: a primitive, or an array or
    object whose numbers print in decimal. *)
Definition decimal (index : Json.t) : bool :=
  match index with
  | Prim _ => true
  | _ => printable index
  end.

End PlanMerge.

(** ** The rest of the handler *)

(** A topic of the parsed syllabus; a missing property is [JUndefined]. *)
Module Topic.
Record t : Type := {
  title : Js.Value;
  description : Js.Value;
  orderIndex : Js.Value;
  estimatedMinutes : Js.Value
}.
End Topic.

(** An assignment of the parsed syllabus. *)
Module ParsedAssignment.
Record t : Type := {
  title : Js.Value;
  type : Js.Value;
  dueDate : Js.Value;
  estimatedMinutes : Js.Value
}.
End ParsedAssignment.

(** A row for [syllabus_topics]. *)
Module TopicRow.
Record t : Type := {
  class_id : Js.Value;
  title : Js.Value;
  description : Js.Value;
  order_index : Js.Value;
  estimated_minutes : Js.Value
}.
End TopicRow.

(** A row for [syllabus_assignments]. *)
Module AssignmentRow.
Record t : Type := {
  class_id : Js.Value;
  title : Js.Value;
  type : Js.Value;
  due_date : Js.Value;
  estimated_minutes : Js.Value
}.
End AssignmentRow.

(** The body of the response (lines 413-423). *)
Module Response.
Record t : Type := {
  success : bool;
  topicsCount : nat;
  assignmentsCount : nat;
  studyBlocksCount : nat;
  classMeetingBlocksCount : nat;
  assignmentBlocksCount : nat;
  totalMinutes : option Z
}.
End Response.

Module Ingest.

Import Js JsText ParseSyllabus.

(** *** The JSON text of an AI answer (lines 149-152 and 352-354)

    [text.match(/```json\n([\s\S]*?)\n```/)]: the match starts at the first
    opening fence, when a closing fence follows it, and its lazy group ends
    at the first closing fence after the opening one.  If the first opening
    fence has no closing fence after it, no later one has. *)

Definition fenceOpen : string := "```json" ++ String LF "".
Definition fenceClose : string := String LF "```".

(** The result of [match]: element 0, the whole match, and element 1, the
    group, [None] when the expression has no group. *)
Record Match : Type := {
  whole : string;
  group : option string
}.

Definition matchFence (text : string) : option Match :=
  match cut fenceOpen text with
  | Some (_, rest) =>
      match cut fenceClose rest with
      | Some (g, _) =>
          Some {| whole := fenceOpen ++ g ++ fenceClose; group := Some g |}
      | None => None
      end
  | None => None
  end.

(** [text.match(/\{[\s\S]*\}/)], and the same with brackets: greedy, from the
    first opening character to the last closing character after it. *)
Definition matchDelimited (opening closing : ascii) (text : string)
    : option Match :=
  match cut (String opening "") text with
  | Some (_, rest) =>
      match throughLast closing rest with
      | Some body => Some {| whole := String opening body; group := None |}
      | None => None
      end
  | None => None
  end.

(** [jsonMatch ? (jsonMatch[1] || jsonMatch[0]) : text], where [jsonMatch]
    is the first match or else the second. *)
Definition jsonTextOf (opening closing : ascii) (text : string) : string :=
  let jsonMatch :=
    match matchFence text with
    | Some m => Some m
    | None => matchDelimited opening closing text
    end in
  match jsonMatch with
  | Some m =>
      match group m with
      | Some g => if (g =? "")%string then whole m else g
      | None => whole m
      end
  | None => text
  end.

(** Line 152, for the syllabus, and line 354, for the study plan. *)
Definition syllabusJsonText : string -> string := jsonTextOf "{" "}".
Definition planJsonText : string -> string := jsonTextOf "[" "]".

(** *** The bytes of the file as a string (lines 53-59) *)

Definition chunkSize : Z := 8192.

(** [uint8Array.subarray(i, j)], for [0 <= i <= j]. *)
Definition subarray (bytes : list Byte.byte) (i j : Z) : list Byte.byte :=
  firstn (Z.to_nat (j - i)) (skipn (Z.to_nat i) bytes).

(** [String.fromCharCode.apply(null, Array.from(chunk))] *)
Definition fromCharCodes (chunk : list Byte.byte) : string :=
  string_of_list_byte chunk.

(** The loop, with [fuel] bounding its iterations. *)
Fixpoint chunkLoop (fuel : nat) (uint8Array : list Byte.byte) (i : Z)
    (binaryString : string) : string :=
  match fuel with
  | O => binaryString
  | S fuel' =>
      if (i <? Z.of_nat (List.length uint8Array))%Z then
        let chunk := subarray uint8Array i (i + chunkSize) in
        chunkLoop fuel' uint8Array (i + chunkSize)
          (binaryString ++ fromCharCodes chunk)
      else binaryString
  end.

Definition binaryStringOf (uint8Array : list Byte.byte) : string :=
  chunkLoop (List.length uint8Array) uint8Array 0 "".

(** *** The rows of topics and assignments (lines 166-172 and 188-194) *)

Definition topicInserts (classId : Value) (topics : list Topic.t)
    : list TopicRow.t :=
  map (fun t =>
         {| TopicRow.class_id := classId;
            TopicRow.title := Topic.title t;
            TopicRow.description := or_else (Topic.description t) (JString "");
            TopicRow.order_index := or_else (Topic.orderIndex t) (JNumber 0);
            TopicRow.estimated_minutes :=
              or_else (Topic.estimatedMinutes t) (JNumber 60) |}) topics.

Definition assignmentInserts (classId : Value)
    (assignments : list ParsedAssignment.t) : list AssignmentRow.t :=
  map (fun a =>
         {| AssignmentRow.class_id := classId;
            AssignmentRow.title := ParsedAssignment.title a;
            AssignmentRow.type :=
              or_else (ParsedAssignment.type a) (JString "reading");
            AssignmentRow.due_date := or_else (ParsedAssignment.dueDate a) JNull;
            AssignmentRow.estimated_minutes :=
              or_else (ParsedAssignment.estimatedMinutes a) (JNumber 60) |})
      assignments.

(** *** totalMinutes (lines 210-212)

    [sum + v] for a number [sum]: a number, a boolean and null are added as
    numbers, by the addition of doubles; with undefined the sum is NaN and
    with a string it is a concatenation, both outside the embedding, [None],
    as is a sum that leaves the integers doubles add exactly. *)
Definition plus (sum : option Z) (v : Value) : option Z :=
  match sum, v with
  | Some s, JNumber z => Double.add s z
  | Some s, JBool b => Double.add s (if b then 1 else 0)
  | Some s, JNull => Double.add s 0
  | _, _ => None
  end.

(** [list.reduce((sum, x) => sum + (x.estimatedMinutes || 0), 0)] *)
Definition sumEstimates (estimates : list Value) : option Z :=
  fold_left (fun sum v => plus sum (or_else v (JNumber 0))) estimates (Some 0).

Definition totalMinutes (topics : list Topic.t)
    (assignments : list ParsedAssignment.t) : option Z :=
  match sumEstimates (map Topic.estimatedMinutes topics),
        sumEstimates (map ParsedAssignment.estimatedMinutes assignments) with
  | Some a, Some b => Double.add a b
  | _, _ => None
  end.

(** *** The response (lines 413-423) *)

Definition responseOf (topics : list Topic.t)
    (assignments : list ParsedAssignment.t)
    (classMeetingBlocks : list ClassMeeting.t)
    (assignmentStudyBlocks : list Planned.t)
    (allStudyBlocks : list StudyBlock.t) : Response.t :=
  {| Response.success := true;
     Response.topicsCount := List.length topics;
     Response.assignmentsCount := List.length assignments;
     Response.studyBlocksCount := List.length allStudyBlocks;
     Response.classMeetingBlocksCount := List.length classMeetingBlocks;
     Response.assignmentBlocksCount := List.length assignmentStudyBlocks;
     Response.totalMinutes := totalMinutes topics assignments |}.

(** The response of a run whose stages gave these values. *)
Definition respond (userId classId : Value) (topics : list Topic.t)
    (assignments : list ParsedAssignment.t)
    (classMeetingBlocks : list ClassMeeting.t)
    (assignmentStudyBlocks : list Planned.t)
    (insertedAssignments : list Assignment.t) : Response.t :=
  responseOf topics assignments classMeetingBlocks assignmentStudyBlocks
    (allStudyBlocks userId classId classMeetingBlocks assignmentStudyBlocks
       insertedAssignments).

End Ingest.

(** ** The pages that read the stored blocks *)

(** A row of [study_blocks] as the pages declare it (interface StudyBlock);
    the joined [classes] and [assignments] are not read by what follows. *)
Module StoredBlock.
Record t : Type := {
  id : string;
  block_date : string;
  start_time : option string;
  duration_minutes : Z;
  class_id : string
}.
End StoredBlock.

(** Calendar.tsx *)
Module CalendarView.

Import Js JsText ParseSyllabus.

(** The object [groupedBlocks]: its own properties, each an array. *)
Definition Groups : Type := list (string * list StoredBlock.t).

Fixpoint own (date : string) (acc : Groups) : option (list StoredBlock.t) :=
  match acc with
  | [] => None
  | (k, blocks) :: r => if (k =? date)%string then Some blocks else own date r
  end.

(** [acc[date].push(block)] on an own property. *)
Fixpoint push (date : string) (block : StoredBlock.t) (acc : Groups) : Groups :=
  match acc with
  | [] => []
  | (k, blocks) :: r =>
      if (k =? date)%string then (k, (blocks ++ [block])%list) :: r
      else (k, blocks) :: push date block r
  end.

(** The callback of the reduce (lines 69-74).  The accumulator starts as
    [{}]: for a date that names a property of Object.prototype, [acc[date]]
    is that function or object, which is truthy and has no [push], and the
    call throws: [None]. *)
Definition groupStep (acc : option Groups) (block : StoredBlock.t)
    : option Groups :=
  match acc with
  | None => None
  | Some g =>
      let date := StoredBlock.block_date block in
      match own date g with
      | Some _ => Some (push date block g)
      | None =>
          if existsb (String.eqb date) objectPrototypeKeys then None
          else Some (g ++ [(date, [block])])%list
      end
  end.

Definition groupedBlocks (studyBlocks : list StoredBlock.t) : option Groups :=
  fold_left groupStep studyBlocks (Some []).

(** [groupedBlocks[dateStr] || []] (lines 80-82), for a [dateStr] that is the
    text of a date. *)
Definition selectedDateBlocks (g : Groups) (dateStr : string)
    : list StoredBlock.t :=
  match own dateStr g with
  | Some blocks => blocks
  | None => []
  end.

(** [groupedBlocks[dateStr]?.length || 0] (lines 90-93) *)
Definition getBlockCount (g : Groups) (dateStr : string) : nat :=
  match own dateStr g with
  | Some blocks => List.length blocks
  | None => 0
  end.

(** formatTime (lines 107-114; the same function is in ClassesReady.tsx,
    lines 588-595).  [None] when [parseInt] is outside the embedding. *)
Definition formatTime (timeStr : option string) : option string :=
  match nonEmpty timeStr with
  | None => Some "All day"
  | Some t =>
      let parts := split ":" t in
      let hours := nth 0 parts "" in
      let minutes :=
        match nth_error parts 1 with
        | Some m => m
        | None => "undefined"
        end in
      match parseInt hours with
      | None => None
      | Some hour =>
          let ampm :=
            match hour with
            | Int h => if (12 <=? h)%Z then "PM" else "AM"
            | NaN => "AM"
            end in
          let displayHour :=
            match hour with
            | Int h => if (Z.rem h 12 =? 0)%Z then 12 else Z.rem h 12
            | NaN => 12
            end in
          Some (toString displayHour ++ ":" ++ minutes ++ " " ++ ampm)
      end
  end.

End CalendarView.

(** The calendar page with the day and week views *)
Module CalendarPage.

(** getBlocksForDate (lines 100-103), on the text of the date. *)
Definition getBlocksForDate (studyBlocks : list StoredBlock.t)
    (dateStr : string) : list StoredBlock.t :=
  filter (fun block => (StoredBlock.block_date block =? dateStr)%string)
         studyBlocks.

End CalendarPage.

(** TodayStudy of ClassesReady.tsx *)
Module TodayStudy.

(** [a > b] on strings: the order of the code units. *)
Definition gt (a b : string) : bool :=
  match String.compare a b with
  | Gt => true
  | _ => false
  end.

(** Lines 564-565. *)
Definition today_blocks (data : list StoredBlock.t) (today : string)
    : list StoredBlock.t :=
  filter (fun b => (StoredBlock.block_date b =? today)%string) data.

Definition upcoming_blocks (data : list StoredBlock.t) (today : string)
    : list StoredBlock.t :=
  filter (fun b => gt (StoredBlock.block_date b) today) data.

(** [upcoming_blocks.slice(0, 3)] (line 568) *)
Definition shownUpcoming (data : list StoredBlock.t) (today : string)
    : list StoredBlock.t :=
  firstn 3 (upcoming_blocks data today).

End TodayStudy.

(** The lock screen of a study session *)
Module LockMode.

Import JsText.

(** The state the interval works on: the seconds left, whether the interval
    is still set, and how many times the page navigated away. *)
Record State : Type := {
  timeRemaining : Z;
  running : bool;
  navigations : nat
}.

Definition start (seconds : Z) : State :=
  {| timeRemaining := seconds; running := true; navigations := 0 |}.

(** One firing of the interval (lines 27-36): the last second clears the
    interval and navigates; a cleared interval does not fire.  [prev - 1] is
    the subtraction of doubles: [None] where it is rounded. *)
Definition tick (st : State) : option State :=
  if running st then
    if (timeRemaining st <=? 1)%Z
    then Some {| timeRemaining := 0; running := false;
                 navigations := S (navigations st) |}
    else
      match Double.sub (timeRemaining st) 1 with
      | Some rest =>
          Some {| timeRemaining := rest; running := true;
                  navigations := navigations st |}
      | None => None
      end
  else Some st.

Fixpoint ticks (n : nat) (st : State) : option State :=
  match n with
  | O => Some st
  | S n' =>
      match tick st with
      | Some st' => ticks n' st'
      | None => None
      end
  end.

(** formatTime (lines 53-57), for a number of seconds that is an integer
    doubles divide as the integers do; [None] beyond. *)
Definition formatTime (seconds : Z) : option string :=
  match Double.floorDiv60 seconds, Double.rem60 seconds with
  | Some mins, Some secs =>
      Some (toString mins ++ ":" ++ padStart 2 "0" (toString secs))
  | _, _ => None
  end.

End LockMode.

(** GeminiStudyPlan.tsx *)
Module StudyPlan.

Import JsText.

(** formatTime (lines 142-148), for a number of minutes that is an integer
    doubles divide as the integers do; [None] beyond. *)
Definition formatTime (minutes : Z) : option string :=
  match Double.floorDiv60 minutes, Double.rem60 minutes with
  | Some hours, Some mins =>
      Some (if (hours =? 0)%Z then toString mins ++ "m"
            else if (mins =? 0)%Z then toString hours ++ "h"
            else toString hours ++ "h " ++ toString mins ++ "m")
  | _, _ => None
  end.

End StudyPlan.

(** ** Measures used to state the further properties *)

Module Measure.

Import Js EsDate ParseSyllabus.

(** The minutes a value counts for when it is a number. *)
Definition minutesOf (v : Value) : Z :=
  match v with
  | JNumber z => z
  | _ => 0
  end.

Definition sumMinutes (estimates : list Value) : Z :=
  fold_right (fun v acc => minutesOf v + acc) 0 estimates.

(** The sum of the absolute values of the estimates: a bound on every
    partial sum. *)
Definition magnitude (estimates : list Value) : Z :=
  fold_right (fun v acc => Z.abs (minutesOf v) + acc) 0 estimates.

(** An estimate is a number, or is missing or null. *)
Definition numberOrMissing (v : Value) : Prop :=
  (exists z, v = JNumber z) \/ v = JUndefined \/ v = JNull.

(** The estimates that are replaced by a default: the falsy ones. *)
Definition defaulted (estimates : list Value) : Z :=
  Z.of_nat (List.length (filter (fun v => negb (truthy v)) estimates)).

(** The days of the week, Sunday first. *)
Definition weekDays : list Z := [0; 1; 2; 3; 4; 5; 6].

(** How many days of the week the tokens resolve to. *)
Definition resolvedCount (days : list string) : nat :=
  List.length (filter (includes (scheduleDays days)) weekDays).

(** A date as the number its digits spell: year, month and day of the
    month. *)
Definition dateKey (d : Z) : Z :=
  YearFromDay d * 10000 + (MonthFromDay d + 1) * 100 + DateFromDay d.

(** [a < b] on strings, as JavaScript compares them. *)
Definition before (a b : string) : Prop := String.compare a b = Lt.

(** What the groups hold after the blocks [seen]: under each date, the
    blocks of that date, in order; no property for a date without block. *)
Definition groupsOf (g : CalendarView.Groups) (seen : list StoredBlock.t)
    : Prop :=
  forall dateStr,
    CalendarView.own dateStr g
    = match CalendarPage.getBlocksForDate seen dateStr with
      | [] => None
      | blocks => Some blocks
      end.

(** The schedule with other day tokens. *)
Definition withDays (sch : Schedule.t) (days : list string) : Schedule.t :=
  {| Schedule.days := Some days;
     Schedule.startTime := Schedule.startTime sch;
     Schedule.endTime := Schedule.endTime sch;
     Schedule.startDate := Schedule.startDate sch;
     Schedule.endDate := Schedule.endDate sch |}.

(** The schedule with another range. *)
Definition withRange (sch : Schedule.t) (startDate endDate : string)
    : Schedule.t :=
  {| Schedule.days := Schedule.days sch;
     Schedule.startTime := Schedule.startTime sch;
     Schedule.endTime := Schedule.endTime sch;
     Schedule.startDate := Some startDate;
     Schedule.endDate := Some endDate |}.

(** The meetings of the days of a range that fall on the resolved days. *)
Definition meetingsBetween (days : list string) (startTime : string)
    (duration : Z) (startDate endDate : Date) : list ClassMeeting.t :=
  map (Spec.meetingOn startTime duration)
      (Spec.matchingDays days startDate endDate).

End Measure.

(** ** More concrete inputs *)

Module Samples.

Import Js EsDate ParseSyllabus.

(** Mondays and Wednesdays over two whole weeks, 13 to 26 January 2025. *)
Definition twoWeeks : Schedule.t :=
  Measure.withRange Examples.mondayWednesday "2025-01-13" "2025-01-26".

(** Mondays and Wednesdays with no date given. *)
Definition noDates : Schedule.t :=
  {| Schedule.days := Some ["Monday"; "Wednesday"];
     Schedule.startTime := Some "10:00";
     Schedule.endTime := Some "11:00";
     Schedule.startDate := None;
     Schedule.endDate := None |}.

Definition stored (id block_date start_time : string) : StoredBlock.t :=
  {| StoredBlock.id := id;
     StoredBlock.block_date := block_date;
     StoredBlock.start_time := Some start_time;
     StoredBlock.duration_minutes := 60;
     StoredBlock.class_id := "class-1" |}.

(** Three stored blocks, two of them on 13 January 2025. *)
Definition rows : list StoredBlock.t :=
  [ stored "b-1" "2025-01-13" "10:00:00";
    stored "b-2" "2025-01-15" "10:00:00";
    stored "b-3" "2025-01-13" "18:00:00" ].

(** The day a row is dated, read from its text. *)
Definition dayOf (b : StoredBlock.t) : Z :=
  match ofString (StoredBlock.block_date b) with
  | Some (Time d) => d
  | _ => 0
  end.

End Samples.

Import Js EsDate ParseSyllabus.

(** * Tactics *)

(** Breaks a membership in a concrete list into its cases. *)
Ltac in_cases H :=
  repeat (destruct H as [H|H]; [inversion H; subst; clear H|]);
  try contradiction.

(** Succeeds on a term that holds no conditional. *)
Ltac no_test t :=
  lazymatch t with
  | context [if _ then _ else _] => fail
  | _ => idtac
  end.

(** Decides the integer comparisons of the goal, innermost first, keeping
    each outcome as a hypothesis. *)
Ltac case_compare :=
  repeat match goal with
         | |- context [(?a <=? ?b)%Z] =>
             no_test a; no_test b; destruct (Z.leb_spec a b)
         | |- context [(?a <? ?b)%Z] =>
             no_test a; no_test b; destruct (Z.ltb_spec a b)
         | |- context [(?a =? ?b)%Z] =>
             no_test a; no_test b; destruct (Z.eqb_spec a b)
         end.

(** * Properties *)

(** ** Strings *)

Lemma trimStart_white (w s : string) :
  allChars isWhiteSpace w = true -> trimStart (w ++ s) = trimStart s.
Proof.
  induction w as [|c w IH]; simpl; intros H.
  - reflexivity.
  - apply andb_true_iff in H as [Hc Hw]. rewrite Hc. auto.
Qed.

Lemma trimEnd_all_white (w : string) :
  allChars isWhiteSpace w = true -> trimEnd w = "".
Proof.
  induction w as [|c w IH]; simpl; intros H.
  - reflexivity.
  - apply andb_true_iff in H as [Hc Hw]. rewrite (IH Hw), Hc. reflexivity.
Qed.

Lemma trimEnd_white (s w : string) :
  allChars isWhiteSpace w = true -> trimEnd (s ++ w) = trimEnd s.
Proof.
  intros H. induction s as [|c s IH]; simpl.
  - now apply trimEnd_all_white.
  - now rewrite IH.
Qed.

Lemma trimEnd_cons (c : ascii) (s : string) :
  isWhiteSpace c = false -> trimEnd (String c s) = String c (trimEnd s).
Proof.
  intros H. simpl. rewrite H. now destruct (trimEnd s).
Qed.

Lemma trim_white (w1 w2 s : string) :
  allChars isWhiteSpace w1 = true -> allChars isWhiteSpace w2 = true ->
  trim (w1 ++ s ++ w2) = trim s.
Proof.
  intros H1 H2. unfold trim. rewrite (trimStart_white _ _ H1).
  induction s as [|c s IH].
  - simpl. induction w2 as [|c w2 IH]; simpl in *.
    + reflexivity.
    + apply andb_true_iff in H2 as [Hc Hw]. rewrite Hc. auto.
  - cbn [append trimStart]. destruct (isWhiteSpace c).
    + exact IH.
    + change (String c (s ++ w2)) with (String c s ++ w2).
      now apply trimEnd_white.
Qed.

Lemma trim_cons (c : ascii) (s : string) :
  isWhiteSpace c = false -> trim (String c s) = String c (trimEnd s).
Proof.
  intros H. unfold trim. cbn [trimStart]. rewrite H. now apply trimEnd_cons.
Qed.

(** ** Day tokens *)

Lemma assoc_In (key : string) (l : list (string * Z)) (n : Z) :
  assoc key l = Some n -> In (key, n) l.
Proof.
  induction l as [|[k v] l IH]; simpl; [discriminate|].
  destruct (String.eqb_spec k key) as [->|_]; intros H.
  - left. congruence.
  - right. auto.
Qed.

Lemma listedForms_dayMap : Spec.listedForms = dayMapEntries.
Proof. reflexivity. Qed.

Lemma assoc_listed (name : string) (n : Z) :
  In (name, n) dayMapEntries -> assoc name dayMapEntries = Some n.
Proof. intros H. unfold dayMapEntries in H. in_cases H; reflexivity. Qed.

(** The first three characters of a name of the mapping name the same day. *)
Lemma assoc_substring0 (name : string) (n : Z) :
  assoc name dayMapEntries = Some n ->
  assoc (substring0 3 name) dayMapEntries = Some n.
Proof.
  intros H. apply assoc_In in H. unfold dayMapEntries in H.
  in_cases H; reflexivity.
Qed.

(** No name inherited from Object.prototype starts like a day. *)
Lemma inherited_substring0 (name : string) :
  existsb (String.eqb name) objectPrototypeKeys = true ->
  assoc (substring0 3 name) dayMapEntries = None.
Proof.
  intros H. apply existsb_exists in H as [k [Hk E]].
  apply String.eqb_eq in E. subst k. unfold objectPrototypeKeys in Hk.
  repeat (destruct Hk as [Hk|Hk]; [subst name; reflexivity|]).
  contradiction.
Qed.

Lemma resolveDay_number (token : string) (n : Z) :
  resolveDay token = DayNumber n <->
  assoc (trim token) dayMapEntries = Some n
  \/ assoc (substring0 3 (trim token)) dayMapEntries = Some n.
Proof.
  unfold resolveDay, dayMap. set (name := trim token).
  destruct (assoc name dayMapEntries) as [m|] eqn:E.
  - pose proof (assoc_substring0 _ _ E) as E3. cbn [coalesce]. split.
    + intros H. left. congruence.
    + intros [H|H]; congruence.
  - destruct (existsb (String.eqb name) objectPrototypeKeys) eqn:P.
    + rewrite (inherited_substring0 _ P). cbn [coalesce].
      split; [discriminate|intros [H|H]; discriminate].
    + cbn [coalesce]. destruct (assoc (substring0 3 name) dayMapEntries) as [m|] eqn:E3.
      * cbn [coalesce]. split; [intros H; right; congruence|intros [H|H]; congruence].
      * destruct (existsb (String.eqb (substring0 3 name)) objectPrototypeKeys);
          cbn [coalesce];
          (split; [discriminate|intros [H|H]; discriminate]).
Qed.

Lemma resolveDay_prefix (prefix rest : string) (n : Z) :
  In (prefix, n) Spec.abbreviations -> resolveDay (prefix ++ rest) = DayNumber n.
Proof.
  intros H. apply resolveDay_number. right.
  unfold Spec.abbreviations in H.
  in_cases H; cbn [append]; rewrite trim_cons by reflexivity;
    rewrite !trimEnd_cons by reflexivity; reflexivity.
Qed.

(** C10: a day token is matched after its surrounding white space is
    trimmed; it resolves whenever its trimmed form, or the first three
    characters of its trimmed form, is a key of the day mapping, so every
    token that starts with Mon, Tue, Wed, Thu, Fri, Sat or Sun (as
    "Mondays") resolves to that weekday; the match is case-sensitive, so
    "monday" resolves to nothing and is dropped from the day set. *)
Theorem C10_day_token_matching :
  (forall w1 w2 token,
      allChars isWhiteSpace w1 = true -> allChars isWhiteSpace w2 = true ->
      resolveDay (w1 ++ token ++ w2) = resolveDay token)
  /\ (forall token n,
         assoc (trim token) dayMapEntries = Some n
         \/ assoc (substring0 3 (trim token)) dayMapEntries = Some n ->
         resolveDay token = DayNumber n)
  /\ (forall prefix n rest,
         In (prefix, n) Spec.abbreviations ->
         resolveDay (prefix ++ rest) = DayNumber n
         /\ scheduleDays [prefix ++ rest] = [DayNumber n])
  /\ resolveDay "Mondays" = DayNumber 1
  /\ resolveDay "monday" = Nullish
  /\ scheduleDays ["monday"] = [].
Proof.
  repeat split.
  - intros w1 w2 token H1 H2. unfold resolveDay. now rewrite trim_white.
  - intros token n H. now apply resolveDay_number.
  - now apply resolveDay_prefix.
  - unfold scheduleDays. cbn [map filter].
    rewrite (resolveDay_prefix _ rest _ H). reflexivity.
Qed.

Lemma C10_day_token_matching_witness :
  resolveDay (" " ++ "Thu" ++ "  ") = resolveDay "Thu"
  /\ resolveDay "Thursdays" = DayNumber 4
  /\ resolveDay ("Sun" ++ "ny") = DayNumber 0.
Proof.
  destruct C10_day_token_matching as [Htrim [Hkey [Hprefix _]]].
  split; [|split].
  - apply Htrim; reflexivity.
  - apply Hkey. right. reflexivity.
  - apply (Hprefix "Sun" 0 "ny"). simpl. tauto.
Defined.

(** C8, as the handler has it: the full names, the three-letter
    abbreviations and the letters M, T, W, R, F, S resolve to their weekday,
    S to Saturday; a token resolves to a weekday exactly when its trimmed
    form, or the first three characters of its trimmed form, is one of these
    names; every other token yields no weekday. *)
Theorem C8_day_tokens_resolved :
  (forall name n, In (name, n) Spec.listedForms -> resolveDay name = DayNumber n)
  /\ resolveDay "S" = resolveDay "Saturday"
  /\ (forall token n,
         resolveDay token = DayNumber n <->
         In (trim token, n) Spec.listedForms
         \/ In (substring0 3 (trim token), n) Spec.listedForms)
  /\ (forall token,
         ~ In (trim token) (map fst Spec.listedForms) ->
         ~ In (substring0 3 (trim token)) (map fst Spec.listedForms) ->
         forall dayOfWeek, includes (scheduleDays [token]) dayOfWeek = false).
Proof.
  rewrite listedForms_dayMap.
  assert (Hiff : forall token n,
             resolveDay token = DayNumber n <->
             In (trim token, n) dayMapEntries
             \/ In (substring0 3 (trim token), n) dayMapEntries).
  { intros token n. rewrite resolveDay_number.
    split; (intros [H|H]; [left|right]);
      auto using assoc_In, assoc_listed. }
  split; [|split; [reflexivity|split; [exact Hiff|]]].
  - intros name n H. unfold dayMapEntries in H. in_cases H; reflexivity.
  - intros token H1 H2 dayOfWeek. unfold scheduleDays. cbn [map filter].
    destruct (resolveDay token) as [n| |] eqn:E; try reflexivity.
    exfalso. apply Hiff in E as [E|E].
    + apply H1. now apply (in_map fst) in E.
    + apply H2. now apply (in_map fst) in E.
Qed.

Lemma C8_day_tokens_resolved_witness :
  resolveDay "Wed" = DayNumber 3
  /\ includes (scheduleDays ["Funday"]) 5 = false.
Proof.
  destruct C8_day_tokens_resolved as [Hlisted [_ [_ Hother]]].
  split.
  - apply Hlisted. simpl. tauto.
  - apply Hother; simpl; intuition discriminate.
Defined.

(** C8 as stated fails: "Mondays" is none of the listed forms, and it is
    not dropped, it resolves to Monday. *)
Lemma C8_Mondays_is_not_dropped :
  ~ In "Mondays" (map fst Spec.listedForms)
  /\ resolveDay "Mondays" = DayNumber 1
  /\ scheduleDays ["Mondays"] = [DayNumber 1].
Proof.
  split; [|split; reflexivity].
  simpl. intuition discriminate.
Qed.

(** ** Calendar arithmetic *)

Lemma DayFromYear_succ (y : Z) :
  DayFromYear (y + 1) = DayFromYear y + DaysInYear y.
Proof.
  unfold DayFromYear, DaysInYear, InLeapYear.
  destruct (Z.eqb_spec (y mod 4) 0) as [E4|E4];
    destruct (Z.eqb_spec (y mod 100) 0) as [E100|E100];
    destruct (Z.eqb_spec (y mod 400) 0) as [E400|E400]; cbn [andb orb negb].
  all: replace (y + 1 - 1969) with (y - 1969 + 1) by lia.
  all: replace (y + 1 - 1901) with (y - 1901 + 1) by lia.
  all: replace (y + 1 - 1601) with (y - 1601 + 1) by lia.
  all: Z.to_euclidean_division_equations; lia.
Qed.

(** [YearFromDay d] is the year day [d] falls in. *)
Lemma YearFromDay_spec (d : Z) :
  DayFromYear (YearFromDay d) <= d < DayFromYear (YearFromDay d + 1).
Proof.
  unfold YearFromDay.
  set (y := 1970 + 400 * d / 146097).
  assert (Hy : 146097 * (y - 1970) <= 400 * d < 146097 * (y - 1970) + 146097).
  { subst y. Z.to_euclidean_division_equations; lia. }
  clearbody y.
  destruct (Z.ltb_spec d (DayFromYear y)) as [E1|E1].
  - replace (y - 1 + 1) with y by lia.
    split; [|lia]. unfold DayFromYear in *.
    replace (y - 1 - 1969) with (y - 1970) by lia.
    replace (y - 1 - 1901) with (y - 1902) by lia.
    replace (y - 1 - 1601) with (y - 1602) by lia.
    Z.to_euclidean_division_equations; lia.
  - destruct (Z.leb_spec (DayFromYear (y + 1)) d) as [E2|E2]; [|lia].
    split; unfold DayFromYear in *; Z.to_euclidean_division_equations; lia.
Qed.

Lemma DayWithinYear_range (d : Z) :
  0 <= DayWithinYear d < DaysInYear (YearFromDay d).
Proof.
  pose proof (YearFromDay_spec d) as H.
  rewrite DayFromYear_succ in H. unfold DayWithinYear. lia.
Qed.

Lemma DayFromYear_mono (y1 y2 : Z) :
  y1 <= y2 -> DayFromYear y1 <= DayFromYear y2.
Proof.
  intros H. unfold DayFromYear. Z.to_euclidean_division_equations; lia.
Qed.

(** The year of a day is the only year whose span holds the day. *)
Lemma YearFromDay_unique (y d : Z) :
  DayFromYear y <= d < DayFromYear (y + 1) -> YearFromDay d = y.
Proof.
  intros H. pose proof (YearFromDay_spec d) as S.
  destruct (Z.lt_trichotomy (YearFromDay d) y) as [L|[E|G]]; [|exact E|].
  - pose proof (DayFromYear_mono (YearFromDay d + 1) y). lia.
  - pose proof (DayFromYear_mono (y + 1) (YearFromDay d)). lia.
Qed.

Lemma YearFromDay_mono (d1 d2 : Z) :
  d1 <= d2 -> YearFromDay d1 <= YearFromDay d2.
Proof.
  intros H. pose proof (YearFromDay_spec d1) as S1.
  pose proof (YearFromDay_spec d2) as S2.
  destruct (Z.le_gt_cases (YearFromDay d1) (YearFromDay d2)) as [L|G]; [exact L|].
  pose proof (DayFromYear_mono (YearFromDay d2 + 1) (YearFromDay d1)). lia.
Qed.

Lemma MonthFromDay_range (d : Z) : 0 <= MonthFromDay d <= 11.
Proof.
  unfold MonthFromDay.
  repeat match goal with
         | |- context [if ?b then _ else _] => destruct b
         end; lia.
Qed.

Lemma DateFromDay_range (d : Z) :
  1 <= DateFromDay d <= DaysInMonth (YearFromDay d) (MonthFromDay d).
Proof.
  pose proof (DayWithinYear_range d) as H.
  unfold DateFromDay, DaysInMonth, MonthFromDay, DaysInYear in *.
  destruct (InLeapYear (YearFromDay d)); cbn in *; case_compare; cbn; lia.
Qed.

Lemma DaysInMonth_le_31 (y m : Z) : DaysInMonth y m <= 31.
Proof.
  unfold DaysInMonth, monthStart.
  destruct (InLeapYear y); case_compare; lia.
Qed.

Lemma MakeDay_fields (d : Z) :
  MakeDay (YearFromDay d) (MonthFromDay d) (DateFromDay d) = d.
Proof. unfold MakeDay, DateFromDay, DayWithinYear. lia. Qed.

(** ** Printing and reading a date *)

Lemma digitChar_digit (k : Z) :
  0 <= k <= 9 -> isDigit (digitChar k) = true /\ digitValue (digitChar k) = k.
Proof.
  intros H.
  assert (C : k = 0 \/ k = 1 \/ k = 2 \/ k = 3 \/ k = 4 \/ k = 5 \/ k = 6
              \/ k = 7 \/ k = 8 \/ k = 9) by lia.
  repeat (destruct C as [->|C]; [split; reflexivity|]).
  subst k. split; reflexivity.
Qed.

Lemma mod10_digit (n : Z) : 0 <= n mod 10 <= 9.
Proof. pose proof (Z.mod_pos_bound n 10). lia. Qed.

Lemma isoFields_isoDate (d : Z) :
  0 <= YearFromDay d <= 9999 ->
  isoFields (isoDate d)
  = Some (YearFromDay d, MonthFromDay d + 1, DateFromDay d).
Proof.
  intros Hy.
  pose proof (MonthFromDay_range d) as Hm.
  pose proof (DateFromDay_range d) as Hd.
  pose proof (DaysInMonth_le_31 (YearFromDay d) (MonthFromDay d)) as Hd31.
  unfold isoDate, yearString.
  destruct (Z.leb_spec 0 (YearFromDay d)); [|lia].
  destruct (Z.leb_spec (YearFromDay d) 9999); [|lia].
  set (y := YearFromDay d) in *. set (m := MonthFromDay d + 1) in *.
  set (t := DateFromDay d) in *.
  cbn [andb pad padAcc append]. unfold isoFields.
  cbn [list_ascii_of_string forallb].
  repeat match goal with
         | |- context [isDigit (digitChar (?n mod 10))] =>
             rewrite (proj1 (digitChar_digit _ (mod10_digit n)))
         | |- context [digitValue (digitChar (?n mod 10))] =>
             rewrite (proj2 (digitChar_digit _ (mod10_digit n)))
         end.
  cbn [andb Ascii.eqb Bool.eqb].
  f_equal. f_equal; [f_equal|]; Z.to_euclidean_division_equations; lia.
Qed.

(** Reading back the date the generator prints gives the day it stands for. *)
Lemma ofString_isoDate (d : Z) :
  0 <= YearFromDay d <= 9999 -> ofString (isoDate d) = Some (Time d).
Proof.
  intros Hy. unfold ofString. rewrite (isoFields_isoDate d Hy).
  pose proof (MonthFromDay_range d) as Hm.
  pose proof (DateFromDay_range d) as Hd.
  replace (MonthFromDay d + 1 - 1) with (MonthFromDay d) by lia.
  rewrite MakeDay_fields.
  destruct (Z.leb_spec 1 (MonthFromDay d + 1)); [|lia].
  destruct (Z.leb_spec (MonthFromDay d + 1) 12); [|lia].
  destruct (Z.leb_spec 1 (DateFromDay d)); [|lia].
  destruct (Z.leb_spec (DateFromDay d)
              (DaysInMonth (YearFromDay d) (MonthFromDay d))); [|lia].
  reflexivity.
Qed.

Lemma isDigit_value (c : ascii) :
  isDigit c = true -> 0 <= digitValue c <= 9.
Proof.
  unfold isDigit, digitValue. intros H.
  apply andb_true_iff in H as [H1 H2].
  apply N.leb_le in H1, H2. lia.
Qed.

Lemma isoFields_range (s : string) (y m t : Z) :
  isoFields s = Some (y, m, t) -> 0 <= y <= 9999.
Proof.
  unfold isoFields.
  destruct (list_ascii_of_string s) as [|y1 [|y2 [|y3 [|y4 [|h1 [|m1 [|m2
    [|h2 [|d1 [|d2 [|x l]]]]]]]]]]]; try discriminate.
  destruct (forallb isDigit [y1; y2; y3; y4; m1; m2; d1; d2]) eqn:D;
    [|discriminate].
  cbn [forallb] in D.
  repeat (apply andb_true_iff in D as [?H D]).
  destruct (Ascii.eqb h1 "-"), (Ascii.eqb h2 "-"); try discriminate.
  cbn [andb]. intros E.
  replace y with (1000 * digitValue y1 + 100 * digitValue y2
                  + 10 * digitValue y3 + digitValue y4) by congruence.
  repeat match goal with
         | H : isDigit _ = true |- _ => apply isDigit_value in H
         end.
  lia.
Qed.

Lemma MakeDay_year (y m t : Z) :
  0 <= m <= 11 -> 1 <= t <= DaysInMonth y m ->
  YearFromDay (MakeDay y m t) = y.
Proof.
  intros Hm Ht. apply YearFromDay_unique. rewrite DayFromYear_succ.
  revert Ht. unfold MakeDay, DaysInMonth, DaysInYear, monthStart.
  destruct (InLeapYear y); case_compare; lia.
Qed.

(** A date read from [YYYY-MM-DD] lies in the years 0 to 9999. *)
Lemma ofString_year (s : string) (d : Z) :
  ofString s = Some (Time d) -> 0 <= YearFromDay d <= 9999.
Proof.
  unfold ofString.
  destruct (isoFields s) as [[[y m] t]|] eqn:F.
  - pose proof (isoFields_range _ _ _ _ F) as Hy.
    destruct (Z.leb_spec 1 m); [|discriminate].
    destruct (Z.leb_spec m 12); [|discriminate].
    destruct (Z.leb_spec 1 t); [|discriminate].
    destruct (Z.leb_spec t (DaysInMonth y (m - 1))); [|discriminate].
    cbn [andb]. intros E. inversion E; subst; clear E.
    rewrite MakeDay_year by lia. exact Hy.
  - destruct (hasDigit s); discriminate.
Qed.

(** ** The recurrence loop *)

Lemma daysFrom_In (n : nat) (s d : Z) :
  In d (Spec.daysFrom n s) <-> s <= d < s + Z.of_nat n.
Proof.
  revert s. induction n as [|n IH]; intros s; cbn [Spec.daysFrom In].
  - lia.
  - rewrite IH. lia.
Qed.

Lemma daysFrom_sorted (n : nat) (s : Z) :
  StronglySorted Z.lt (Spec.daysFrom n s).
Proof.
  revert s. induction n as [|n IH]; intros s; cbn [Spec.daysFrom].
  - constructor.
  - constructor; [apply IH|].
    apply Forall_forall. intros d H. apply daysFrom_In in H. lia.
Qed.

Lemma filter_sorted {A : Type} (R : A -> A -> Prop) (f : A -> bool)
    (l : list A) :
  StronglySorted R l -> StronglySorted R (filter f l).
Proof.
  induction 1 as [|a l S IH F]; cbn [filter].
  - constructor.
  - destruct (f a); [|exact IH].
    constructor; [exact IH|].
    rewrite Forall_forall in *. intros x Hx.
    apply filter_In in Hx. now apply F.
Qed.

(** The loop, given a unit of fuel per day of the range or more, stops on its
    own test and has pushed the matching days in the order of the calendar. *)
Lemma walk_enough_fuel (fuel : nat) (sd : list DayValue) (startTime : string)
    (duration s e : Z) :
  e - s + 1 <= Z.of_nat fuel ->
  walk fuel sd startTime duration s e
  = map (Spec.meetingOn startTime duration)
        (filter (fun d => includes sd (WeekDay d))
                (Spec.daysFrom (Z.to_nat (e - s + 1)) s)).
Proof.
  revert s. induction fuel as [|fuel IH]; intros s H.
  - replace (Z.to_nat (e - s + 1)) with 0%nat by lia. reflexivity.
  - cbn [walk]. destruct (Z.leb_spec s e) as [L|G].
    + replace (Z.to_nat (e - s + 1)) with (S (Z.to_nat (e - (s + 1) + 1)))
        by lia.
      cbn [Spec.daysFrom filter]. rewrite IH by lia.
      now destruct (includes sd (WeekDay s)).
    + replace (Z.to_nat (e - s + 1)) with 0%nat by lia. reflexivity.
Qed.

Lemma walk_more_fuel (fuel : nat) (sd : list DayValue) (startTime : string)
    (duration s e : Z) :
  (Z.to_nat (e - s + 1) <= fuel)%nat ->
  walk fuel sd startTime duration s e
  = walk (Z.to_nat (e - s + 1)) sd startTime duration s e.
Proof.
  intros H. rewrite !walk_enough_fuel by lia. reflexivity.
Qed.

Lemma occurrences_matchingDays (days : list string) (startTime : string)
    (duration : Z) (startDate endDate : Date) :
  occurrences (scheduleDays days) startTime duration startDate endDate
  = map (Spec.meetingOn startTime duration)
        (Spec.matchingDays days startDate endDate).
Proof.
  unfold occurrences, Spec.matchingDays.
  destruct startDate as [|s], endDate as [|e]; try reflexivity.
  apply walk_enough_fuel. lia.
Qed.

Lemma includes_scheduleDays (days : list string) (w : Z) :
  includes (scheduleDays days) w = true <->
  exists token, In token days /\ resolveDay token = DayNumber w.
Proof.
  unfold includes, scheduleDays. rewrite existsb_exists. split.
  - intros [v [Hv E]]. apply filter_In in Hv as [Hv _].
    apply in_map_iff in Hv as [token [R Ht]].
    exists token. split; [exact Ht|].
    destruct v as [n| |]; try discriminate.
    apply Z.eqb_eq in E. congruence.
  - intros [token [Ht R]]. exists (DayNumber w). split.
    + apply filter_In. split; [|reflexivity].
      apply in_map_iff. now exists token.
    + apply Z.eqb_refl.
Qed.

Lemma matchingDays_In (days : list string) (s e d : Z) :
  In d (Spec.matchingDays days (Time s) (Time e)) <->
  s <= d <= e
  /\ exists token, In token days /\ resolveDay token = DayNumber (WeekDay d).
Proof.
  unfold Spec.matchingDays.
  rewrite filter_In, daysFrom_In, includes_scheduleDays.
  split; intros [H1 H2]; (split; [lia|exact H2]).
Qed.

Lemma matchingDays_sorted (days : list string) (startDate endDate : Date) :
  StronglySorted Z.lt (Spec.matchingDays days startDate endDate).
Proof.
  unfold Spec.matchingDays.
  destruct startDate as [|s], endDate as [|e]; try constructor.
  apply filter_sorted, daysFrom_sorted.
Qed.

Lemma matchingDays_no_day (days : list string) (startDate endDate : Date) :
  (forall token n, In token days -> resolveDay token <> DayNumber n) ->
  Spec.matchingDays days startDate endDate = [].
Proof.
  intros H. unfold Spec.matchingDays.
  destruct startDate as [|s], endDate as [|e]; try reflexivity.
  rewrite (filter_ext _ (fun _ => false)); [apply filter_false|].
  intros d. destruct (includes (scheduleDays days) (WeekDay d)) eqn:E;
    [|reflexivity].
  apply includes_scheduleDays in E as [token [Ht R]].
  now apply H in R.
Qed.

(** ** Duration *)

Lemma durationMinutes_spec (sh sm eh em : Z) :
  durationMinutes sh sm eh em = Spec.duration sh sm eh em.
Proof.
  unfold durationMinutes, Spec.duration, Spec.clamp, MIN_DURATION, MAX_DURATION.
  rewrite Z.gtb_ltb. case_compare; lia.
Qed.

Lemma durationMinutes_range (sh sm eh em : Z) :
  15 <= durationMinutes sh sm eh em <= 240.
Proof.
  rewrite durationMinutes_spec. unfold Spec.duration, Spec.clamp.
  case_compare; lia.
Qed.

Example duration_across_midnight : durationMinutes 23 30 0 30 = 60.
Proof. reflexivity. Qed.

Example duration_raised : durationMinutes 9 0 9 5 = 15.
Proof. reflexivity. Qed.

Example duration_capped : durationMinutes 8 0 14 0 = 240.
Proof. reflexivity. Qed.

(** ** The generator on a schedule whose times are integers *)

Section UsableSchedule.

Variable currentYear : Z.
Variable sch : Schedule.t.
Variable days : list string.
Variables startTime endTime : string.
Variables sh sm eh em : Z.

Hypothesis days_given : Schedule.days sch = Some days.
Hypothesis start_given : nonEmpty (Schedule.startTime sch) = Some startTime.
Hypothesis end_given : nonEmpty (Schedule.endTime sch) = Some endTime.
Hypothesis start_hour : timePart startTime 0 = Some (Int sh).
Hypothesis start_min : timePart startTime 1 = Some (Int sm).
Hypothesis end_hour : timePart endTime 0 = Some (Int eh).
Hypothesis end_min : timePart endTime 1 = Some (Int em).

Lemma classMeetingBlocks_usable (startDate endDate : Date) :
  rangeStart currentYear sch = Some startDate ->
  rangeEnd currentYear sch = Some endDate ->
  classMeetingBlocks currentYear (Some sch)
  = Some (map (Spec.meetingOn startTime (durationMinutes sh sm eh em))
              (Spec.matchingDays days startDate endDate)).
Proof.
  intros Rs Re. unfold classMeetingBlocks.
  rewrite days_given, start_given, end_given, start_hour, start_min,
    end_hour, end_min, Rs, Re.
  cbn [existsb knownNaN orb].
  rewrite <- occurrences_matchingDays.
  destruct (scheduleDays days) as [|v sd] eqn:E; [|reflexivity].
  cbn [List.length Nat.eqb]. unfold occurrences.
  destruct startDate as [|s], endDate as [|e]; try reflexivity.
  rewrite walk_enough_fuel by lia. cbn [includes existsb].
  now rewrite filter_false.
Qed.

(** C4: when both time strings parse, the duration of the class meetings is
    (endHour*60+endMin) - (startHour*60+startMin), plus 1440 when that is
    negative, then raised to 15 when below and capped at 240 when above; the
    generator gives every meeting it emits that duration. *)
Theorem C4_duration_formula (startDate endDate : Date) :
  rangeStart currentYear sch = Some startDate ->
  rangeEnd currentYear sch = Some endDate ->
  let raw := (eh * 60 + em) - (sh * 60 + sm) in
  let rolled := if (raw <? 0)%Z then raw + 1440 else raw in
  durationMinutes sh sm eh em
  = (if (rolled <? 15)%Z then 15 else if (240 <? rolled)%Z then 240 else rolled)
  /\ durationMinutes sh sm eh em = Spec.duration sh sm eh em
  /\ classMeetingBlocks currentYear (Some sch)
     = Some (map (Spec.meetingOn startTime (Spec.duration sh sm eh em))
                 (Spec.matchingDays days startDate endDate)).
Proof.
  intros Rs Re raw rolled.
  split; [|split].
  - subst raw rolled.
    unfold durationMinutes, MIN_DURATION, MAX_DURATION.
    rewrite Z.gtb_ltb. case_compare; lia.
  - apply durationMinutes_spec.
  - rewrite <- durationMinutes_spec.
    now apply classMeetingBlocks_usable.
Qed.

(** C5: for a schedule whose times parse and whose range is from day [s] to
    day [e], the generator emits, in strictly ascending order of date, one
    class meeting for each day of the inclusive range whose day of the week
    is one of the resolved days, and nothing else; each carries the start
    time and the clamped duration, and its date string reads back as its
    day; the sequence depends on the schedule alone, not on the clock, when
    the schedule gives both dates. *)
Theorem C5_recurrence_exact (s e : Z) :
  rangeStart currentYear sch = Some (Time s) ->
  rangeEnd currentYear sch = Some (Time e) ->
  exists dates : list Z,
    classMeetingBlocks currentYear (Some sch)
    = Some (map (Spec.meetingOn startTime (durationMinutes sh sm eh em)) dates)
    /\ StronglySorted Z.lt dates
    /\ (forall d, In d dates <->
                  s <= d <= e
                  /\ exists token,
                      In token days /\ resolveDay token = DayNumber (WeekDay d))
    /\ (0 <= YearFromDay s -> YearFromDay e <= 9999 ->
        forall d, In d dates -> ofString (isoDate d) = Some (Time d))
    /\ (forall otherYear,
           nonEmpty (Schedule.startDate sch) <> None ->
           nonEmpty (Schedule.endDate sch) <> None ->
           classMeetingBlocks otherYear (Some sch)
           = classMeetingBlocks currentYear (Some sch)).
Proof.
  intros Rs Re.
  exists (Spec.matchingDays days (Time s) (Time e)).
  pose proof (classMeetingBlocks_usable (Time s) (Time e) Rs Re) as G.
  split; [exact G|].
  split; [apply matchingDays_sorted|].
  split; [apply matchingDays_In|].
  split.
  - intros Ys Ye d Hin. apply matchingDays_In in Hin as [[L U] _].
    apply ofString_isoDate.
    pose proof (YearFromDay_mono _ _ L). pose proof (YearFromDay_mono _ _ U).
    lia.
  - intros otherYear Ds De. rewrite G.
    assert (Rs' : rangeStart otherYear sch = Some (Time s)).
    { unfold rangeStart in *.
      destruct (nonEmpty (Schedule.startDate sch)); [exact Rs|contradiction]. }
    assert (Re' : rangeEnd otherYear sch = Some (Time e)).
    { unfold rangeEnd in *.
      destruct (nonEmpty (Schedule.endDate sch)); [exact Re|contradiction]. }
    unfold classMeetingBlocks.
    rewrite days_given, start_given, end_given, start_hour, start_min,
      end_hour, end_min, Rs', Re'.
    cbn [existsb knownNaN orb].
    rewrite <- occurrences_matchingDays.
    destruct (scheduleDays days) as [|v sd] eqn:E; [|reflexivity].
    cbn [List.length Nat.eqb]. unfold occurrences.
    rewrite walk_enough_fuel by lia. cbn [includes existsb].
    now rewrite filter_false.
Qed.

End UsableSchedule.

(** From 23:30 to 00:30 on Monday 13 January 2025: one meeting of 60
    minutes. *)
Lemma C4_duration_formula_witness :
  durationMinutes 23 30 0 30 = 60
  /\ classMeetingBlocks 2025 (Some Examples.lateMonday)
     = Some [Spec.meetingOn "23:30" 60 20101].
Proof.
  destruct (C4_duration_formula 2025 Examples.lateMonday ["Monday"]
              "23:30" "00:30" 23 30 0 30
              eq_refl eq_refl eq_refl eq_refl eq_refl eq_refl eq_refl
              (Time 20101) (Time 20101) eq_refl eq_refl) as [H1 [_ H3]].
  split; [exact H1|exact H3].
Defined.

(** Mondays and Wednesdays from 13 to 24 January 2025: Wednesday the 15th
    (day 20103) is among the dates, which are in ascending order. *)
Lemma C5_recurrence_exact_witness :
  exists dates : list Z,
    classMeetingBlocks 2025 (Some Examples.mondayWednesday)
    = Some (map (Spec.meetingOn "10:00" 60) dates)
    /\ StronglySorted Z.lt dates
    /\ (In 20103 dates <->
        20101 <= 20103 <= 20112
        /\ exists token,
            In token ["Monday"; "Wednesday"]
            /\ resolveDay token = DayNumber (WeekDay 20103)).
Proof.
  destruct (C5_recurrence_exact 2025 Examples.mondayWednesday
              ["Monday"; "Wednesday"] "10:00" "11:00" 10 0 11 0
              eq_refl eq_refl eq_refl eq_refl eq_refl eq_refl eq_refl
              20101 20112 eq_refl eq_refl) as [dates [G [S [M _]]]].
  exists dates. split; [exact G|]. split; [exact S|]. exact (M 20103).
Defined.

(** ** Recurrence on the scenario of the specification *)

(** C6: Mondays and Wednesdays, 10:00 to 11:00, from 2025-01-13 to
    2025-01-24: four class meetings, dated 2025-01-13, 2025-01-15,
    2025-01-20 and 2025-01-22, of 60 minutes each. *)
Theorem C6_monday_wednesday_scenario (currentYear : Z) :
  classMeetingBlocks currentYear
    (Some {| Schedule.days := Some ["Monday"; "Wednesday"];
             Schedule.startTime := Some "10:00";
             Schedule.endTime := Some "11:00";
             Schedule.startDate := Some "2025-01-13";
             Schedule.endDate := Some "2025-01-24" |})
  = Some (map (fun date =>
                 {| ClassMeeting.blockDate := date;
                    ClassMeeting.startTime := "10:00";
                    ClassMeeting.durationMinutes := 60;
                    ClassMeeting.isClassMeeting := true |})
              ["2025-01-13"; "2025-01-15"; "2025-01-20"; "2025-01-22"]).
Proof. vm_compute. reflexivity. Qed.

(** ** Unusable schedules *)

Lemma scheduleDays_all_null (days : list string) :
  (forall token, In token days -> resolveDay token = Nullish) ->
  scheduleDays days = [].
Proof.
  unfold scheduleDays. induction days as [|token days IH]; intros H.
  - reflexivity.
  - cbn [map filter]. rewrite (H token) by now left.
    cbn [notNull]. apply IH. intros t Ht. apply H. now right.
Qed.

Lemma knownNaN_In (l : list (option Num)) :
  In (Some NaN) l -> existsb knownNaN l = true.
Proof.
  intros H. apply existsb_exists. exists (Some NaN). now split.
Qed.

(** C7, as the handler has it: the generator returns the empty sequence when
    the schedule is absent; when days, startTime or endTime is missing, or
    one of the two times is the empty string; when one of the first two
    pieces between colons of either time is missing or is not a number; and,
    the times being integers, when no day token resolves to a weekday. *)
Theorem C7_unusable_schedule_gives_nothing (currentYear : Z)
    (schedule : option Schedule.t) :
  Spec.Unusable currentYear schedule ->
  classMeetingBlocks currentYear schedule = Some [].
Proof.
  intros U.
  destruct U as [ | sch Hd | sch Hs | sch He
                | sch startTime endTime Hs He Hnan
                | sch days startTime endTime sh sm eh em Hd Hs He H0 H1 H2 H3 Hn
                | sch days startTime endTime sh sm eh em startDate endDate
                    Hd Hs He H0 H1 H2 H3 Rs Re Hn ].
  - reflexivity.
  - unfold classMeetingBlocks. now rewrite Hd.
  - unfold classMeetingBlocks. rewrite Hs.
    now destruct (Schedule.days sch).
  - unfold classMeetingBlocks. rewrite He.
    now destruct (Schedule.days sch), (nonEmpty (Schedule.startTime sch)).
  - unfold classMeetingBlocks. rewrite Hs, He.
    destruct (Schedule.days sch); [|reflexivity].
    now rewrite (knownNaN_In _ Hnan).
  - unfold classMeetingBlocks. rewrite Hd, Hs, He, H0, H1, H2, H3.
    cbn [existsb knownNaN orb].
    now rewrite (scheduleDays_all_null _ Hn).
  - rewrite (classMeetingBlocks_usable currentYear sch days startTime endTime
               sh sm eh em Hd Hs He H0 H1 H2 H3 startDate endDate Rs Re).
    now rewrite (matchingDays_no_day _ _ _ Hn).
Qed.

(** The scenario of the specification: the only day token is "Funday". *)
Lemma C7_unusable_schedule_gives_nothing_witness :
  classMeetingBlocks 2025 (Some Examples.funday) = Some [].
Proof.
  apply C7_unusable_schedule_gives_nothing.
  apply (Spec.NoValidDay 2025 Examples.funday ["Funday"] "10:00" "11:00"
           10 0 11 0); try reflexivity.
  intros token [<-|[]]. reflexivity.
Defined.

(** C7 as stated fails: the hour of "-1:00" is not a non-negative integer,
    and the generator still emits the Monday of the range, 240 minutes
    long. *)
Lemma C7_negative_hour_still_generates :
  timePart "-1:00" 0 = Some (Int (-1))
  /\ classMeetingBlocks 2025 (Some Examples.negativeHour)
     = Some [Spec.meetingOn "-1:00" 240 20101]
  /\ classMeetingBlocks 2025 (Some Examples.negativeHour) <> Some [].
Proof.
  split; [reflexivity|]. split; [reflexivity|]. discriminate.
Qed.

(** ** The merge *)

Lemma allStudyBlocks_eq (userId classId : Value) (blocks : list ClassMeeting.t)
    (planned : list Planned.t) (inserted : list Assignment.t) :
  allStudyBlocks userId classId blocks planned inserted
  = (map (classMeetingRow userId classId) blocks
     ++ match inserted with
        | [] => []
        | _ :: _ => map (assignmentRow userId classId inserted) planned
        end)%list.
Proof.
  unfold allStudyBlocks.
  destruct blocks as [|b blocks], planned as [|p planned],
    inserted as [|a inserted]; cbn [List.length Nat.ltb Nat.leb andb app map];
    rewrite ?app_nil_r; reflexivity.
Qed.

Lemma assignmentIdAt_out_of_range (inserted : list Assignment.t) (z : Z) :
  z < 0 \/ Z.of_nat (List.length inserted) <= z ->
  assignmentIdAt inserted (JNumber z) = JUndefined.
Proof.
  intros H. unfold assignmentIdAt, arrayIndex.
  destruct (Z.leb_spec 0 z) as [P|N]; [|reflexivity].
  destruct (nth_error inserted (Z.to_nat z)) eqn:E; [|reflexivity].
  assert (Z.to_nat z < List.length inserted)%nat
    by (apply nth_error_Some; congruence).
  lia.
Qed.

(** C1, as the handler has it: when there is at least one resolved
    assignment, a planned session whose assignmentIndex is negative or not
    below their number is emitted at its place after the class meetings,
    with a null assignment link and its other fields as planned, and no
    session is dropped; when there is no resolved assignment, the output is
    the class meetings alone. *)
Theorem C1_unresolvable_index_gives_null_link (userId classId : Value)
    (blocks : list ClassMeeting.t) (planned : list Planned.t)
    (inserted : list Assignment.t) (i : nat) (session : Planned.t) (z : Z) :
  inserted <> [] ->
  nth_error planned i = Some session ->
  Planned.assignmentIndex session = JNumber z ->
  z < 0 \/ Z.of_nat (List.length inserted) <= z ->
  nth_error (allStudyBlocks userId classId blocks planned inserted)
            (List.length blocks + i)
  = Some {| StudyBlock.user_id := userId;
            StudyBlock.class_id := classId;
            StudyBlock.assignment_id := JNull;
            StudyBlock.block_date := Planned.blockDate session;
            StudyBlock.start_time := Planned.startTime session;
            StudyBlock.duration_minutes := Planned.durationMinutes session |}
  /\ List.length (allStudyBlocks userId classId blocks planned inserted)
     = (List.length blocks + List.length planned)%nat
  /\ allStudyBlocks userId classId blocks planned []
     = map (classMeetingRow userId classId) blocks.
Proof.
  intros Hne Hi Hz Hout. rewrite !allStudyBlocks_eq.
  destruct inserted as [|a inserted]; [contradiction|].
  split; [|split].
  - rewrite nth_error_app2 by (rewrite length_map; lia).
    rewrite length_map.
    replace (List.length blocks + i - List.length blocks)%nat with i by lia.
    rewrite nth_error_map, Hi. cbn [option_map]. unfold assignmentRow.
    now rewrite Hz, (assignmentIdAt_out_of_range _ _ Hout).
  - now rewrite length_app, !length_map.
  - apply app_nil_r.
Qed.

(** One class meeting, one assignment, and a session planned for the eighth
    assignment. *)
Lemma C1_unresolvable_index_gives_null_link_witness :
  nth_error (allStudyBlocks Examples.user Examples.class [Examples.meeting1]
               [Examples.sessionOutOfRange] [Examples.assignment1]) 1
  = Some {| StudyBlock.user_id := Examples.user;
            StudyBlock.class_id := Examples.class;
            StudyBlock.assignment_id := JNull;
            StudyBlock.block_date := JString "2025-02-10";
            StudyBlock.start_time := JString "18:00";
            StudyBlock.duration_minutes := JNumber 45 |}.
Proof.
  apply (C1_unresolvable_index_gives_null_link Examples.user Examples.class
           [Examples.meeting1] [Examples.sessionOutOfRange]
           [Examples.assignment1] 0 Examples.sessionOutOfRange 7).
  - discriminate.
  - reflexivity.
  - reflexivity.
  - right. simpl. lia.
Defined.

(** C1 as stated fails: with no resolved assignment, the planned session is
    not emitted at all. *)
Lemma C1_session_dropped_without_assignments :
  (@nil Assignment.t) = []
  /\ allStudyBlocks Examples.user Examples.class [] [Examples.session0] [] = []
  /\ ~ In (assignmentRow Examples.user Examples.class [] Examples.session0)
          (allStudyBlocks Examples.user Examples.class []
             [Examples.session0] []).
Proof.
  split; [reflexivity|]. split; [reflexivity|]. intros [].
Qed.

(** *** The merge on what JSON.parse returns *)

Lemma json_induction (P : Json.t -> Prop) :
  (forall v, P (Json.Prim v)) ->
  (forall items, Forall P items -> P (Json.Array items)) ->
  (forall members, P (Json.Object members)) ->
  forall j, P j.
Proof.
  intros HP HA HO. fix IH 1. intros [v|items|members].
  - apply HP.
  - apply HA. induction items as [|x l IHl]; constructor; [apply IH|exact IHl].
  - apply HO.
Qed.

(** A conversion throws when the value is poisoned and returns when it is
    not. *)
Lemma toText_outcome (j : Json.t) :
  PlanMerge.printable j = true ->
  (Json.toText j = Json.Throws /\ PlanMerge.poisoned j = true)
  \/ ((exists s, Json.toText j = Json.Returns s)
      /\ PlanMerge.poisoned j = false).
Proof.
  induction j as [v|items IH|members] using json_induction; intros Hp.
  - right. split; [|reflexivity].
    destruct v as [| |[|]|z|s]; cbn [Json.toText Json.primText];
      try (eexists; reflexivity).
    cbn [PlanMerge.printable] in Hp. unfold Json.numberText. rewrite Hp.
    eexists; reflexivity.
  - cbn [Json.toText PlanMerge.poisoned]. cbn [PlanMerge.printable] in Hp.
    induction IH as [|x l Hx _ IHl].
    + right. split; [now exists ""|reflexivity].
    + cbn [forallb] in Hp. apply andb_true_iff in Hp as [Px Pl].
      specialize (IHl Pl). cbn [map Json.join existsb].
      assert (E : (Json.element Json.toText x = Json.Throws
                   /\ PlanMerge.poisoned x = true)
                  \/ ((exists s, Json.element Json.toText x = Json.Returns s)
                      /\ PlanMerge.poisoned x = false)).
      { destruct x as [[| |b|z|s]|items|members];
          try (apply Hx; exact Px);
          right; (split; [now exists ""|reflexivity]). }
      destruct E as [[-> ->]|[[sx ->] ->]]; [left; now split|].
      cbn [Json.bind orb]. destruct l as [|y l'].
      * right. split; [now exists sx|reflexivity].
      * destruct IHl as [[-> ->]|[[sl ->] ->]]; [left; now split|].
        right. split; [eexists; reflexivity|reflexivity].
  - cbn [Json.toText PlanMerge.poisoned].
    destruct (Json.own "toString" members); [left; now split|].
    right. split; [eexists; reflexivity|reflexivity].
Qed.

Lemma propertyKey_outcome (index : Json.t) :
  PlanMerge.decimal index = true ->
  (Json.propertyKey index = Json.Throws /\ PlanMerge.poisoned index = true)
  \/ ((exists key, Json.propertyKey index = Json.Returns key)
      /\ PlanMerge.poisoned index = false).
Proof.
  intros Hd. destruct index as [v|items|members].
  - right. split; [now exists v|reflexivity].
  - unfold Json.propertyKey.
    destruct (toText_outcome (Json.Array items) Hd)
      as [[-> ->]|[[s ->] ->]]; [left; now split|].
    right. split; [eexists; reflexivity|reflexivity].
  - unfold Json.propertyKey.
    destruct (toText_outcome (Json.Object members) Hd)
      as [[-> ->]|[[s ->] ->]]; [left; now split|].
    right. split; [eexists; reflexivity|reflexivity].
Qed.

Lemma read_entry (block : Json.t) (name : string) :
  PlanMerge.raises block = false ->
  PlanMerge.read block name = Json.Returns (Json.held name block).
Proof. destruct block as [[| |b|z|s]|items|members]; now intros H. Qed.

Lemma entryRow_returns (userId classId : Value)
    (inserted : list Assignment.t) (block : Json.t) :
  PlanMerge.raises block = false ->
  PlanMerge.decimal (Json.held "assignmentIndex" block) = true ->
  exists row,
    PlanMerge.entryRow userId classId inserted block = Json.Returns row
    /\ PlanMerge.block_date row = Json.held "blockDate" block.
Proof.
  intros Hr Hd. unfold PlanMerge.entryRow.
  rewrite !(read_entry _ _ Hr). cbn [Json.bind].
  assert (Hp : PlanMerge.poisoned (Json.held "assignmentIndex" block) = false)
    by (destruct block as [[| |b|z|s]|items|members];
        try discriminate; try reflexivity; exact Hr).
  destruct (propertyKey_outcome _ Hd) as [[_ T]|[[key ->] _]];
    [congruence|].
  cbn [Json.bind]. eexists. split; reflexivity.
Qed.

Lemma entryRow_throws (userId classId : Value)
    (inserted : list Assignment.t) (block : Json.t) :
  PlanMerge.raises block = true ->
  PlanMerge.decimal (Json.held "assignmentIndex" block) = true ->
  PlanMerge.entryRow userId classId inserted block = Json.Throws.
Proof.
  intros Hr Hd. unfold PlanMerge.entryRow.
  destruct block as [[| |b|z|s]|items|members];
    try reflexivity; try discriminate;
    cbn [PlanMerge.read Json.bind];
    (destruct (propertyKey_outcome _ Hd) as [[-> _]|[_ F]];
     [reflexivity|cbn [PlanMerge.raises] in Hr; congruence]).
Qed.

Lemma mapRows_returns (userId classId : Value)
    (inserted : list Assignment.t) (entries : list Json.t) :
  Forall (fun e =>
            PlanMerge.raises e = false
            /\ PlanMerge.decimal (Json.held "assignmentIndex" e) = true)
         entries ->
  exists rows,
    PlanMerge.mapRows (PlanMerge.entryRow userId classId inserted) entries
    = Json.Returns rows
    /\ List.length rows = List.length entries
    /\ map PlanMerge.block_date rows = map (Json.held "blockDate") entries.
Proof.
  induction 1 as [|e l [Hr Hd] _ [rows [E [L D]]]].
  - exists []. now repeat split.
  - destruct (entryRow_returns userId classId inserted e Hr Hd)
      as [row [Er Dr]].
    exists (row :: rows). cbn [PlanMerge.mapRows]. rewrite Er, E.
    cbn [Json.bind List.length map]. now rewrite L, D, Dr.
Qed.

Lemma own_app (name : string) (a b : list (string * Json.t)) :
  Json.own name (a ++ b)%list
  = match Json.own name b with
    | Some j => Some j
    | None => Json.own name a
    end.
Proof.
  induction a as [|[k v] a IH]; cbn [app Json.own].
  - now destruct (Json.own name b).
  - rewrite IH. now destruct (Json.own name b).
Qed.

Lemma own_member (name k : string) (v : Value) :
  Json.own name (PlanMerge.member k v)
  = if (k =? name)%string
    then match v with
         | JUndefined => None
         | _ => Some (Json.Prim v)
         end
    else None.
Proof.
  destruct v; cbn [PlanMerge.member Json.own];
    now destruct (k =? name)%string.
Qed.

Lemma held_ofPlanned (p : Planned.t) :
  Json.held "blockDate" (PlanMerge.ofPlanned p)
  = Json.Prim (Planned.blockDate p)
  /\ Json.held "startTime" (PlanMerge.ofPlanned p)
     = Json.Prim (Planned.startTime p)
  /\ Json.held "durationMinutes" (PlanMerge.ofPlanned p)
     = Json.Prim (Planned.durationMinutes p)
  /\ Json.held "assignmentIndex" (PlanMerge.ofPlanned p)
     = Json.Prim (Planned.assignmentIndex p).
Proof.
  unfold PlanMerge.ofPlanned, Json.held.
  rewrite !own_app, !own_member.
  change ("assignmentIndex" =? "blockDate")%string with false.
  change ("durationMinutes" =? "blockDate")%string with false.
  change ("startTime" =? "blockDate")%string with false.
  change ("blockDate" =? "blockDate")%string with true.
  change ("assignmentIndex" =? "startTime")%string with false.
  change ("durationMinutes" =? "startTime")%string with false.
  change ("startTime" =? "startTime")%string with true.
  change ("assignmentIndex" =? "durationMinutes")%string with false.
  change ("durationMinutes" =? "durationMinutes")%string with true.
  change ("assignmentIndex" =? "assignmentIndex")%string with true.
  repeat split.
  - now destruct (Planned.blockDate p).
  - now destruct (Planned.startTime p).
  - now destruct (Planned.durationMinutes p).
  - now destruct (Planned.assignmentIndex p).
Qed.

Lemma entryRow_ofPlanned (userId classId : Value)
    (inserted : list Assignment.t) (p : Planned.t) :
  PlanMerge.entryRow userId classId inserted (PlanMerge.ofPlanned p)
  = Json.Returns (PlanMerge.rowOf (assignmentRow userId classId inserted p)).
Proof.
  unfold PlanMerge.entryRow.
  assert (R : forall name,
             PlanMerge.read (PlanMerge.ofPlanned p) name
             = Json.Returns (Json.held name (PlanMerge.ofPlanned p)))
    by reflexivity.
  rewrite !R. destruct (held_ofPlanned p) as [-> [-> [-> ->]]].
  reflexivity.
Qed.

Lemma mapRows_ofPlanned (userId classId : Value)
    (inserted : list Assignment.t) (planned : list Planned.t) :
  PlanMerge.mapRows (PlanMerge.entryRow userId classId inserted)
    (map PlanMerge.ofPlanned planned)
  = Json.Returns
      (map PlanMerge.rowOf (map (assignmentRow userId classId inserted) planned)).
Proof.
  induction planned as [|p l IH]; [reflexivity|].
  cbn [map PlanMerge.mapRows]. now rewrite entryRow_ofPlanned, IH.
Qed.

Lemma planMerge_eq (userId classId : Value) (blocks : list ClassMeeting.t)
    (entries : list Json.t) (inserted : list Assignment.t) :
  PlanMerge.allStudyBlocks userId classId blocks entries inserted
  = match inserted with
    | [] =>
        Json.Returns
          (map PlanMerge.rowOf (map (classMeetingRow userId classId) blocks))
    | _ :: _ =>
        Json.bind
          (PlanMerge.mapRows (PlanMerge.entryRow userId classId inserted)
             entries)
          (fun rows =>
             Json.Returns
               (map PlanMerge.rowOf
                  (map (classMeetingRow userId classId) blocks) ++ rows)%list)
    end.
Proof.
  unfold PlanMerge.allStudyBlocks.
  destruct blocks as [|b blocks], entries as [|e entries],
    inserted as [|a inserted];
    cbn [List.length Nat.ltb Nat.leb andb app map PlanMerge.mapRows Json.bind];
    rewrite ?app_nil_r; reflexivity.
Qed.

(** C3, as the handler has it.  With no resolved assignment the output is the
    rows of the class meetings alone, and no planned entry is read.  With
    one, and entries none of which is null and none of which has an
    assignmentIndex that is an object with a member named toString (or an
    array holding one), the merge does not raise and the output has one row
    for each class meeting and one for each planned entry, whose block_date
    is what the entry holds as blockDate, date or not.  The sessions of the
    typed model are such entries: on them the merge is [allStudyBlocks]. *)
Theorem C3_merged_length (userId classId : Value)
    (blocks : list ClassMeeting.t) (entries : list Json.t)
    (planned : list Planned.t) (inserted : list Assignment.t) :
  (inserted = [] ->
   PlanMerge.allStudyBlocks userId classId blocks entries inserted
   = Json.Returns
       (map PlanMerge.rowOf (map (classMeetingRow userId classId) blocks)))
  /\ (inserted <> [] ->
      Forall (fun e =>
                PlanMerge.raises e = false
                /\ PlanMerge.decimal (Json.held "assignmentIndex" e) = true)
             entries ->
      exists out,
        PlanMerge.allStudyBlocks userId classId blocks entries inserted
        = Json.Returns out
        /\ List.length out = (List.length blocks + List.length entries)%nat
        /\ map PlanMerge.block_date (skipn (List.length blocks) out)
           = map (Json.held "blockDate") entries)
  /\ PlanMerge.allStudyBlocks userId classId blocks
       (map PlanMerge.ofPlanned planned) inserted
     = Json.Returns
         (map PlanMerge.rowOf
            (allStudyBlocks userId classId blocks planned inserted))
  /\ List.length (allStudyBlocks userId classId blocks planned inserted)
     = (List.length blocks
        + match inserted with
          | [] => 0
          | _ :: _ => List.length planned
          end)%nat.
Proof.
  rewrite !planMerge_eq, allStudyBlocks_eq. split; [|split; [|split]].
  - now intros ->.
  - intros Hne Hok. destruct inserted as [|a inserted]; [contradiction|].
    destruct (mapRows_returns userId classId (a :: inserted) entries Hok)
      as [rows [-> [L D]]].
    cbn [Json.bind]. eexists. split; [reflexivity|].
    split.
    + now rewrite length_app, !length_map, L.
    + rewrite skipn_app, !length_map, Nat.sub_diag, skipn_all2
        by (rewrite !length_map; lia).
      cbn [skipn app]. exact D.
  - destruct inserted as [|a inserted].
    + now rewrite app_nil_r.
    + rewrite mapRows_ofPlanned. cbn [Json.bind]. now rewrite map_app.
  - rewrite length_app, length_map. now destruct inserted; rewrite ?length_map.
Qed.

(** A session dated "soon" and the planner's own example, after one class
    meeting: three rows, the dates as the entries hold them. *)
Lemma C3_merged_length_witness :
  exists out,
    PlanMerge.allStudyBlocks Examples.user Examples.class [Examples.meeting1]
      [PlanMerge.ofPlanned Examples.sessionNoDate;
       PlanMerge.ofPlanned Examples.session0]
      [Examples.assignment1]
    = Json.Returns out
    /\ List.length out = 3%nat
    /\ map PlanMerge.block_date (skipn 1 out)
       = [Json.Prim (JString "soon"); Json.Prim (JString "2025-02-10")].
Proof.
  apply (proj1 (proj2 (C3_merged_length Examples.user Examples.class
                         [Examples.meeting1]
                         [PlanMerge.ofPlanned Examples.sessionNoDate;
                          PlanMerge.ofPlanned Examples.session0]
                         [] [Examples.assignment1]))).
  - discriminate.
  - repeat constructor.
Defined.

(** C3 as stated fails twice.  "soon" is no date, and the session that
    carries it is counted in the output, which has one row and not none.
    And the merge raises for a malformed entry: a TypeError for an entry
    that is null, and for one whose assignmentIndex is an object with a
    member named toString. *)
Lemma C3_unparseable_date_is_kept :
  Planned.blockDate Examples.sessionNoDate = JString "soon"
  /\ ofString "soon" = Some Invalid
  /\ List.length (allStudyBlocks Examples.user Examples.class []
                    [Examples.sessionNoDate] [Examples.assignment1])
     = 1%nat
  /\ List.length (allStudyBlocks Examples.user Examples.class []
                    [Examples.sessionNoDate] [Examples.assignment1])
     <> (0 + 1 - 1)%nat
  /\ PlanMerge.allStudyBlocks Examples.user Examples.class []
       [Json.Prim JNull] [Examples.assignment1]
     = Json.Throws
  /\ PlanMerge.allStudyBlocks Examples.user Examples.class []
       [Json.Object
          [("blockDate", Json.Prim (JString "2025-02-10"));
           ("assignmentIndex",
            Json.Object [("toString", Json.Prim (JNumber 1))])]]
       [Examples.assignment1]
     = Json.Throws.
Proof.
  repeat split; try reflexivity. discriminate.
Qed.

(** C9, as the handler has it: the output is the class meetings in their
    order, each with its blockDate, startTime and durationMinutes unchanged,
    the userId, the classId and a null assignment link, followed, when there
    is at least one resolved assignment, by the planned sessions in their
    order; nothing is sorted and nothing is removed.  With no resolved
    assignment the output is the class meetings alone. *)
Theorem C9_output_is_concatenation (userId classId : Value)
    (blocks : list ClassMeeting.t) (planned : list Planned.t)
    (inserted : list Assignment.t) :
  allStudyBlocks userId classId blocks planned inserted
  = (map (fun block =>
            {| StudyBlock.user_id := userId;
               StudyBlock.class_id := classId;
               StudyBlock.assignment_id := JNull;
               StudyBlock.block_date := JString (ClassMeeting.blockDate block);
               StudyBlock.start_time := JString (ClassMeeting.startTime block);
               StudyBlock.duration_minutes :=
                 JNumber (ClassMeeting.durationMinutes block) |}) blocks
     ++ match inserted with
        | [] => []
        | _ :: _ =>
            map (fun session =>
                   {| StudyBlock.user_id := userId;
                      StudyBlock.class_id := classId;
                      StudyBlock.assignment_id :=
                        or_else (assignmentIdAt inserted
                                   (Planned.assignmentIndex session)) JNull;
                      StudyBlock.block_date := Planned.blockDate session;
                      StudyBlock.start_time := Planned.startTime session;
                      StudyBlock.duration_minutes :=
                        Planned.durationMinutes session |}) planned
        end)%list.
Proof. apply allStudyBlocks_eq. Qed.

(** C9 as stated fails: with no resolved assignment the planned session is
    missing from the output, which is not the concatenation of the two
    sequences. *)
Lemma C9_not_concatenation_without_assignments :
  allStudyBlocks Examples.user Examples.class [Examples.meeting1]
    [Examples.session0] []
  <> (map (classMeetingRow Examples.user Examples.class) [Examples.meeting1]
      ++ map (assignmentRow Examples.user Examples.class []) [Examples.session0])%list
  /\ List.length (allStudyBlocks Examples.user Examples.class
                    [Examples.meeting1] [Examples.session0] [])
     = 1%nat.
Proof.
  split; [discriminate|reflexivity].
Qed.

(** ** Durations in the merged output *)

Lemma classMeetingBlocks_durations (currentYear : Z)
    (schedule : option Schedule.t) (blocks : list ClassMeeting.t) :
  classMeetingBlocks currentYear schedule = Some blocks ->
  Forall (fun b => 15 <= ClassMeeting.durationMinutes b <= 240) blocks.
Proof.
  unfold classMeetingBlocks. intros H.
  repeat match type of H with
         | context [match ?x with _ => _ end] => destruct x eqn:?
         end;
    try discriminate;
    try (injection H as <-; constructor).
  injection H as <-.
  rewrite occurrences_matchingDays. apply Forall_forall.
  intros b Hb. apply in_map_iff in Hb as [day [<- _]].
  apply durationMinutes_range.
Qed.

(** C2, as the handler has it: in the merged output every row of a class
    meeting has a durationMinutes that is an integer from 15 to 240; the row
    of a planned session has the durationMinutes the planner gave it,
    unchanged. *)
Theorem C2_class_meeting_durations_in_range (currentYear : Z)
    (userId classId : Value) (schedule : option Schedule.t)
    (planned : list Planned.t) (inserted : list Assignment.t)
    (out : list StudyBlock.t) :
  studyBlocksOf currentYear userId classId schedule planned inserted
  = Some out ->
  exists blocks : list ClassMeeting.t,
    classMeetingBlocks currentYear schedule = Some blocks
    /\ (forall i, (i < List.length blocks)%nat ->
          exists z,
            option_map StudyBlock.duration_minutes (nth_error out i)
            = Some (JNumber z)
            /\ 15 <= z <= 240)
    /\ (inserted <> [] ->
        map StudyBlock.duration_minutes (skipn (List.length blocks) out)
        = map Planned.durationMinutes planned)
    /\ (inserted = [] -> List.length out = List.length blocks).
Proof.
  unfold studyBlocksOf. intros H.
  destruct (classMeetingBlocks currentYear schedule) as [blocks|] eqn:G;
    [|discriminate].
  injection H as <-. exists blocks. split; [reflexivity|].
  pose proof (classMeetingBlocks_durations _ _ _ G) as D.
  rewrite allStudyBlocks_eq. split; [|split].
  - intros i Hi.
    rewrite nth_error_app1 by now rewrite length_map.
    rewrite nth_error_map.
    destruct (nth_error blocks i) as [b|] eqn:E.
    + exists (ClassMeeting.durationMinutes b). split; [reflexivity|].
      rewrite Forall_forall in D. apply D. eapply nth_error_In, E.
    + apply nth_error_None in E. lia.
  - intros Hne. destruct inserted as [|a inserted]; [contradiction|].
    rewrite skipn_app, length_map, Nat.sub_diag, skipn_all2
      by (rewrite length_map; lia).
    cbn [skipn app]. rewrite map_map. reflexivity.
  - intros ->. now rewrite app_nil_r, length_map.
Qed.

(** The scenario of the specification, merged with a session of 500 minutes:
    the four class meetings come first, with a duration in range. *)
Lemma C2_class_meeting_durations_in_range_witness :
  exists z,
    option_map StudyBlock.duration_minutes
      (nth_error
         (allStudyBlocks Examples.user Examples.class
            (map (Spec.meetingOn "10:00" 60) [20101; 20103; 20108; 20110])
            [Examples.sessionLong] [Examples.assignment1]) 3)
    = Some (JNumber z)
    /\ 15 <= z <= 240.
Proof.
  destruct (C2_class_meeting_durations_in_range 2025 Examples.user
              Examples.class (Some Examples.mondayWednesday)
              [Examples.sessionLong] [Examples.assignment1]
              (allStudyBlocks Examples.user Examples.class
                 (map (Spec.meetingOn "10:00" 60) [20101; 20103; 20108; 20110])
                 [Examples.sessionLong] [Examples.assignment1])
              eq_refl) as [blocks [G [Hclass _]]].
  assert (E : blocks = map (Spec.meetingOn "10:00" 60)
                         [20101; 20103; 20108; 20110]).
  { vm_compute in G. injection G as <-. reflexivity. }
  apply Hclass. rewrite E. simpl. lia.
Defined.

(** C2 as stated fails: a session planned for 500 minutes is a row of 500
    minutes in the merged output. *)
Lemma C2_planned_session_of_500_minutes :
  option_map (map StudyBlock.duration_minutes)
    (studyBlocksOf 2025 Examples.user Examples.class
       (Some Examples.mondayWednesday) [Examples.sessionLong]
       [Examples.assignment1])
  = Some [JNumber 60; JNumber 60; JNumber 60; JNumber 60; JNumber 500]
  /\ ~ 15 <= 500 <= 240.
Proof.
  split; [reflexivity|lia].
Qed.

(** * Further properties *)

Import JsText Ingest.

(** ** The JSON text of an AI answer *)

Lemma dropPrefix_app (p s : string) : dropPrefix p (p ++ s) = Some s.
Proof.
  induction p as [|a p IH]; cbn [append dropPrefix].
  - now destruct s.
  - now rewrite Ascii.eqb_refl.
Qed.

Lemma lacks_cons (c a : ascii) (s : string) :
  lacks c (String a s) = true -> Ascii.eqb a c = false /\ lacks c s = true.
Proof.
  unfold lacks. cbn [allChars]. intros H.
  apply andb_true_iff in H as [H1 H2]. apply negb_true_iff in H1. now split.
Qed.

Lemma lacks_app (c : ascii) (s t : string) :
  lacks c (s ++ t) = true <-> lacks c s = true /\ lacks c t = true.
Proof.
  unfold lacks. induction s as [|a s IH]; cbn [append allChars].
  - tauto.
  - rewrite !andb_true_iff, IH. tauto.
Qed.

Lemma cut_prefix (p rest : string) : cut p (p ++ rest) = Some ("", rest).
Proof.
  pose proof (dropPrefix_app p rest) as H.
  destruct (p ++ rest); cbn [cut]; now rewrite H.
Qed.

(** A pattern is first found after a text that lacks its first character. *)
Lemma cut_after_lacking (c : ascii) (p before rest : string) :
  lacks c before = true ->
  cut (String c p) (before ++ String c p ++ rest) = Some (before, rest).
Proof.
  intros H. induction before as [|a before IH].
  - cbn [append]. change (String c (p ++ rest)) with (String c p ++ rest).
    apply cut_prefix.
  - apply lacks_cons in H as [Ha Hb].
    change (String a before ++ String c p ++ rest)
      with (String a (before ++ String c p ++ rest)).
    cbn [cut dropPrefix]. rewrite Ascii.eqb_sym, Ha.
    now rewrite (IH Hb).
Qed.

Lemma cut_lacking (c : ascii) (p s : string) :
  lacks c s = true -> cut (String c p) s = None.
Proof.
  intros H. induction s as [|a s IH]; [reflexivity|].
  apply lacks_cons in H as [Ha Hs].
  cbn [cut dropPrefix]. rewrite Ascii.eqb_sym, Ha. now rewrite (IH Hs).
Qed.

(** The closing fence is first found at the end of a body without
    backtick. *)
Lemma cut_fenceClose (body rest : string) :
  lacks "`" body = true ->
  cut fenceClose (body ++ fenceClose ++ rest) = Some (body, rest).
Proof.
  intros H. induction body as [|a body IH].
  - cbn [append]. apply cut_prefix.
  - apply lacks_cons in H as [Ha Hb].
    change (String a body ++ fenceClose ++ rest)
      with (String a (body ++ fenceClose ++ rest)).
    cbn [cut].
    replace (dropPrefix fenceClose (String a (body ++ fenceClose ++ rest)))
      with (@None string).
    + now rewrite (IH Hb).
    + unfold fenceClose at 1. cbn [dropPrefix].
      destruct (Ascii.eqb LF a); [|reflexivity].
      destruct body as [|b body].
      * reflexivity.
      * apply lacks_cons in Hb as [Hb _]. cbn [append dropPrefix].
        now rewrite Ascii.eqb_sym, Hb.
Qed.

Lemma matchFence_lacking (text : string) :
  lacks "`" text = true -> matchFence text = None.
Proof.
  intros H. unfold matchFence, fenceOpen. cbn [append].
  now rewrite cut_lacking.
Qed.

Lemma throughLast_lacking (c : ascii) (s : string) :
  lacks c s = true -> throughLast c s = None.
Proof.
  intros H. induction s as [|a s IH]; [reflexivity|].
  apply lacks_cons in H as [Ha Hs]. cbn [throughLast].
  now rewrite (IH Hs), Ha.
Qed.

Lemma throughLast_last (c : ascii) (middle rest : string) :
  lacks c rest = true ->
  throughLast c (middle ++ String c rest) = Some (middle ++ String c "").
Proof.
  intros H. induction middle as [|a middle IH]; cbn [append throughLast].
  - now rewrite (throughLast_lacking _ _ H), Ascii.eqb_refl.
  - now rewrite IH.
Qed.

(** X1: an answer that wraps its JSON in a json code fence yields exactly the
    text between the fences, whatever precedes the fence (braces included)
    and whatever follows it. *)
Theorem jsonTextOf_fenced (opening closing : ascii)
    (before body rest : string) :
  lacks "`" before = true ->
  lacks "`" body = true ->
  body <> "" ->
  jsonTextOf opening closing (before ++ fenceOpen ++ body ++ fenceClose ++ rest)
  = body.
Proof.
  intros Hb Hy Hne. unfold jsonTextOf, matchFence.
  unfold fenceOpen at 1 2. cbn [append].
  change (String "`" (String "`" (String "`" (String "j" (String "s"
            (String "o" (String "n" (String LF
               (body ++ fenceClose ++ rest)))))))))
    with (String "`" ("``json" ++ String LF "") ++ (body ++ fenceClose ++ rest)).
  rewrite (cut_after_lacking "`" _ before _ Hb).
  rewrite (cut_fenceClose _ _ Hy). cbn [group whole].
  destruct (String.eqb_spec body ""); [contradiction|reflexivity].
Qed.

Lemma jsonTextOf_fenced_witness :
  syllabusJsonText ("Sure {x}: " ++ fenceOpen ++ "{}" ++ fenceClose ++ " Done.")
  = "{}".
Proof.
  apply (jsonTextOf_fenced "{" "}" "Sure {x}: " "{}" " Done.");
    [reflexivity|reflexivity|discriminate].
Defined.

(** X2: an empty code fence does not yield the empty text: the group is
    falsy, and the text handed to JSON.parse is the fence itself. *)
Theorem jsonTextOf_empty_fence (opening closing : ascii)
    (before rest : string) :
  lacks "`" before = true ->
  jsonTextOf opening closing (before ++ fenceOpen ++ fenceClose ++ rest)
  = fenceOpen ++ fenceClose.
Proof.
  intros Hb.
  pose proof (cut_fenceClose "" rest eq_refl) as Hc. cbn [append] in Hc.
  unfold jsonTextOf, matchFence.
  unfold fenceOpen at 1 2. cbn [append].
  change (String "`" (String "`" (String "`" (String "j" (String "s"
            (String "o" (String "n" (String LF (fenceClose ++ rest)))))))))
    with (String "`" ("``json" ++ String LF "") ++ (fenceClose ++ rest)).
  rewrite (cut_after_lacking "`" _ before _ Hb).
  rewrite Hc. reflexivity.
Qed.

Lemma jsonTextOf_empty_fence_witness :
  planJsonText ("Plan: " ++ fenceOpen ++ fenceClose) = fenceOpen ++ fenceClose.
Proof.
  apply (jsonTextOf_empty_fence "[" "]" "Plan: " ""). reflexivity.
Defined.

(** X3: in an answer without code fence, the JSON text runs from the first
    opening brace (or bracket) to the last closing one. *)
Theorem jsonTextOf_delimited (opening closing : ascii)
    (before middle rest : string) :
  lacks "`" (before ++ String opening (middle ++ String closing rest)) = true ->
  lacks opening before = true ->
  lacks closing rest = true ->
  jsonTextOf opening closing
    (before ++ String opening (middle ++ String closing rest))
  = String opening (middle ++ String closing "").
Proof.
  intros Hf Hb Hr. unfold jsonTextOf.
  rewrite (matchFence_lacking _ Hf). unfold matchDelimited.
  change (String opening (middle ++ String closing rest))
    with (String opening "" ++ (middle ++ String closing rest)).
  rewrite (cut_after_lacking opening "" before _ Hb).
  now rewrite (throughLast_last _ _ _ Hr).
Qed.

Lemma jsonTextOf_delimited_witness :
  planJsonText "Here: [[1],[2]] ok" = "[[1],[2]]".
Proof.
  exact (jsonTextOf_delimited "[" "]" "Here: " "[1],[2]" " ok"
           eq_refl eq_refl eq_refl).
Defined.

(** X4: an answer with no code fence and no brace (or bracket) pair is handed
    to JSON.parse as it is: either it has no opening character, or no
    closing character follows the first opening one. *)
Theorem jsonTextOf_unmatched (opening closing : ascii) (text : string) :
  lacks "`" text = true ->
  lacks opening text = true
  \/ (exists before rest,
         text = before ++ String opening rest
         /\ lacks opening before = true /\ lacks closing rest = true) ->
  jsonTextOf opening closing text = text.
Proof.
  intros Hf H. unfold jsonTextOf.
  rewrite (matchFence_lacking _ Hf). unfold matchDelimited.
  destruct H as [H|[before [rest [-> [Hb Hr]]]]].
  - now rewrite (cut_lacking _ _ _ H).
  - change (String opening rest) with (String opening "" ++ rest).
    rewrite (cut_after_lacking opening "" before _ Hb).
    now rewrite (throughLast_lacking _ _ Hr).
Qed.

Lemma jsonTextOf_unmatched_witness :
  syllabusJsonText "I could not read the file { sorry"
  = "I could not read the file { sorry".
Proof.
  apply (jsonTextOf_unmatched "{" "}"); [reflexivity|].
  right. exists "I could not read the file ", " sorry".
  repeat split.
Defined.

(** ** The bytes of the file *)

Lemma fromCharCodes_app (a b : list Byte.byte) :
  fromCharCodes (a ++ b) = fromCharCodes a ++ fromCharCodes b.
Proof.
  unfold fromCharCodes, string_of_list_byte.
  induction a as [|x a IH]; cbn [app map string_of_list_ascii append].
  - reflexivity.
  - now rewrite IH.
Qed.

Lemma append_assoc (a b c : string) : (a ++ b) ++ c = a ++ (b ++ c).
Proof.
  induction a as [|x a IH]; cbn [append]; [reflexivity|now rewrite IH].
Qed.

Lemma append_empty_r (a : string) : a ++ "" = a.
Proof.
  induction a as [|x a IH]; cbn [append]; [reflexivity|now rewrite IH].
Qed.

(** With a unit of fuel per byte left, the loop appends the bytes from [i]
    on, chunk after chunk. *)
Lemma chunkLoop_rest (fuel : nat) (bytes : list Byte.byte) (i : Z)
    (acc : string) :
  0 <= i ->
  Z.of_nat (List.length bytes) - i <= Z.of_nat fuel ->
  chunkLoop fuel bytes i acc
  = acc ++ fromCharCodes (skipn (Z.to_nat i) bytes).
Proof.
  revert i acc. induction fuel as [|fuel IH]; intros i acc Hi Hf.
  - cbn [chunkLoop]. rewrite skipn_all2 by lia. cbn. now rewrite append_empty_r.
  - cbn [chunkLoop].
    destruct (Z.ltb_spec i (Z.of_nat (List.length bytes))) as [L|G].
    + assert (Hc : 0 < chunkSize) by (unfold chunkSize; lia).
      rewrite IH by lia. unfold subarray.
      replace (i + chunkSize - i) with chunkSize by lia.
      rewrite append_assoc, <- fromCharCodes_app.
      replace (Z.to_nat (i + chunkSize))
        with (Z.to_nat chunkSize + Z.to_nat i)%nat by lia.
      rewrite <- skipn_skipn, firstn_skipn. reflexivity.
    + rewrite skipn_all2 by lia. cbn. now rewrite append_empty_r.
Qed.

Lemma fromCharCodes_length (bytes : list Byte.byte) :
  String.length (fromCharCodes bytes) = List.length bytes.
Proof.
  unfold fromCharCodes, string_of_list_byte.
  induction bytes as [|x bytes IH];
    cbn [map string_of_list_ascii String.length List.length]; auto.
Qed.

(** X5: cutting the file in chunks of 8192 bytes changes nothing: the string
    handed to btoa has one character per byte, in order, each with the code
    of its byte; no chunk handed to String.fromCharCode is longer than 8192;
    and the loop ends on its own test, more fuel giving the same string. *)
Theorem binaryStringOf_bytes (uint8Array : list Byte.byte) :
  binaryStringOf uint8Array = string_of_list_byte uint8Array
  /\ String.length (binaryStringOf uint8Array) = List.length uint8Array
  /\ list_byte_of_string (binaryStringOf uint8Array) = uint8Array
  /\ (forall i, 0 <= i ->
        Z.of_nat (List.length (subarray uint8Array i (i + chunkSize)))
        <= chunkSize)
  /\ (forall fuel, (List.length uint8Array <= fuel)%nat ->
        chunkLoop fuel uint8Array 0 "" = binaryStringOf uint8Array).
Proof.
  assert (E : forall fuel, (List.length uint8Array <= fuel)%nat ->
                chunkLoop fuel uint8Array 0 "" = string_of_list_byte uint8Array).
  { intros fuel H. rewrite chunkLoop_rest by lia. reflexivity. }
  unfold binaryStringOf. rewrite (E _ (le_n _)).
  split; [reflexivity|]. split; [apply fromCharCodes_length|].
  split; [apply list_byte_of_string_of_list_byte|]. split.
  - intros i Hi. unfold subarray. rewrite length_firstn.
    replace (i + chunkSize - i) with chunkSize by lia.
    unfold chunkSize. lia.
  - exact E.
Qed.

(** The two bytes of [Hi]. *)
Lemma binaryStringOf_bytes_witness :
  binaryStringOf [Byte.x48; Byte.x69] = "Hi"
  /\ Z.of_nat (List.length (subarray [Byte.x48; Byte.x69] 0 (0 + chunkSize)))
     <= chunkSize
  /\ chunkLoop 5 [Byte.x48; Byte.x69] 0 "" = binaryStringOf [Byte.x48; Byte.x69].
Proof.
  destruct (binaryStringOf_bytes [Byte.x48; Byte.x69]) as [E [_ [_ [C F]]]].
  split; [exact E|]. split; [apply C; lia|apply F; cbn; lia].
Defined.

(** ** The rows of topics and assignments *)

Lemma or_else_truthy (v d : Value) :
  truthy d = true -> truthy (or_else v d) = true.
Proof. unfold or_else. intros H. now destruct (truthy v) eqn:E. Qed.

(** X6: the rows inserted for topics and assignments are one per parsed
    entry, in order, each with the class id and the title as parsed.  Every
    other column is the parsed value when that value is truthy and its
    default otherwise: the empty string for a description, 0 for an order
    index, 60 for an estimate, reading for a type, null for a due date.  So
    an estimate of 0 is stored as 60, and no row has a falsy
    estimated_minutes or a falsy type. *)
Theorem inserts_have_defaults (classId : Value) (topics : list Topic.t)
    (assignments : list ParsedAssignment.t) :
  Forall2 (fun t row =>
             TopicRow.class_id row = classId
             /\ TopicRow.title row = Topic.title t
             /\ TopicRow.description row
                = (if truthy (Topic.description t)
                   then Topic.description t else JString "")
             /\ TopicRow.order_index row
                = (if truthy (Topic.orderIndex t)
                   then Topic.orderIndex t else JNumber 0)
             /\ TopicRow.estimated_minutes row
                = (if truthy (Topic.estimatedMinutes t)
                   then Topic.estimatedMinutes t else JNumber 60)
             /\ truthy (TopicRow.estimated_minutes row) = true)
          topics (topicInserts classId topics)
  /\ Forall2 (fun a row =>
                AssignmentRow.class_id row = classId
                /\ AssignmentRow.title row = ParsedAssignment.title a
                /\ AssignmentRow.type row
                   = (if truthy (ParsedAssignment.type a)
                      then ParsedAssignment.type a else JString "reading")
                /\ AssignmentRow.due_date row
                   = (if truthy (ParsedAssignment.dueDate a)
                      then ParsedAssignment.dueDate a else JNull)
                /\ AssignmentRow.estimated_minutes row
                   = (if truthy (ParsedAssignment.estimatedMinutes a)
                      then ParsedAssignment.estimatedMinutes a
                      else JNumber 60)
                /\ truthy (AssignmentRow.type row) = true
                /\ truthy (AssignmentRow.estimated_minutes row) = true)
             assignments (assignmentInserts classId assignments)
  /\ (forall t, In t topics -> Topic.estimatedMinutes t = JNumber 0 ->
      exists row,
        In row (topicInserts classId topics)
        /\ TopicRow.title row = Topic.title t
        /\ TopicRow.estimated_minutes row = JNumber 60).
Proof.
  unfold topicInserts, assignmentInserts. split; [|split].
  - induction topics as [|t l IH]; cbn [map]; constructor; [|exact IH].
    cbn [TopicRow.class_id TopicRow.title TopicRow.description
         TopicRow.order_index TopicRow.estimated_minutes].
    repeat split; try reflexivity. now apply or_else_truthy.
  - induction assignments as [|a l IH]; cbn [map]; constructor; [|exact IH].
    cbn [AssignmentRow.class_id AssignmentRow.title AssignmentRow.type
         AssignmentRow.due_date AssignmentRow.estimated_minutes].
    repeat split; try reflexivity; now apply or_else_truthy.
  - intros t Ht E. eexists. split; [apply in_map, Ht|].
    cbn [TopicRow.title TopicRow.estimated_minutes]. rewrite E.
    split; reflexivity.
Qed.

(** A topic estimated at 0 minutes is stored with 60. *)
Lemma inserts_have_defaults_witness :
  exists row,
    In row (topicInserts Examples.class
              [ {| Topic.title := JString "Week 1";
                   Topic.description := JUndefined;
                   Topic.orderIndex := JNumber 0;
                   Topic.estimatedMinutes := JNumber 0 |} ])
    /\ TopicRow.title row = JString "Week 1"
    /\ TopicRow.estimated_minutes row = JNumber 60.
Proof.
  exact (proj2 (proj2 (inserts_have_defaults Examples.class
                         [ {| Topic.title := JString "Week 1";
                              Topic.description := JUndefined;
                              Topic.orderIndex := JNumber 0;
                              Topic.estimatedMinutes := JNumber 0 |} ] []))
           _ (or_introl eq_refl) eq_refl).
Defined.

(** ** The total of the estimates *)

Lemma exact_range (z : Z) :
  Double.exact z = true <-> - Double.maxExact <= z <= Double.maxExact.
Proof. unfold Double.exact. rewrite Z.leb_le. lia. Qed.

Lemma add_exact (a b : Z) :
  Z.abs a + Z.abs b <= Double.maxExact -> Double.add a b = Some (a + b).
Proof.
  intros H. unfold Double.add.
  assert (Ea : Double.exact a = true) by (apply exact_range; lia).
  assert (Eb : Double.exact b = true) by (apply exact_range; lia).
  assert (Es : Double.exact (a + b) = true) by (apply exact_range; lia).
  now rewrite Ea, Eb, Es.
Qed.

Lemma plus_estimate (acc : Z) (v : Value) :
  Measure.numberOrMissing v ->
  Z.abs acc + Z.abs (Measure.minutesOf v) <= Double.maxExact ->
  plus (Some acc) (or_else v (JNumber 0)) = Some (acc + Measure.minutesOf v).
Proof.
  intros [[z ->]|[->| ->]] B; unfold or_else; cbn [truthy].
  - cbn [Measure.minutesOf] in B.
    destruct (Z.eqb_spec z 0) as [->|_]; cbn [negb plus Measure.minutesOf];
      now rewrite add_exact.
  - cbn [plus Measure.minutesOf] in *. now rewrite add_exact.
  - cbn [plus Measure.minutesOf] in *. now rewrite add_exact.
Qed.

Lemma sumMinutes_cons (v : Value) (l : list Value) :
  Measure.sumMinutes (v :: l) = Measure.minutesOf v + Measure.sumMinutes l.
Proof. reflexivity. Qed.

Lemma magnitude_cons (v : Value) (l : list Value) :
  Measure.magnitude (v :: l)
  = Z.abs (Measure.minutesOf v) + Measure.magnitude l.
Proof. reflexivity. Qed.

Lemma magnitude_bounds (l : list Value) :
  Z.abs (Measure.sumMinutes l) <= Measure.magnitude l.
Proof.
  induction l as [|v l IH]; [reflexivity|].
  rewrite sumMinutes_cons, magnitude_cons. lia.
Qed.

Lemma sumEstimates_from (estimates : list Value) (acc : Z) :
  Forall Measure.numberOrMissing estimates ->
  Z.abs acc + Measure.magnitude estimates <= Double.maxExact ->
  fold_left (fun sum v => plus sum (or_else v (JNumber 0))) estimates (Some acc)
  = Some (acc + Measure.sumMinutes estimates).
Proof.
  intros H. revert acc. induction H as [|v l Hv _ IH]; intros acc B.
  - cbn. f_equal. lia.
  - rewrite magnitude_cons in B. pose proof (magnitude_bounds l) as M.
    assert (0 <= Measure.magnitude l) by lia.
    cbn [fold_left]. rewrite (plus_estimate _ _ Hv) by lia.
    rewrite IH by lia. rewrite sumMinutes_cons. f_equal. lia.
Qed.

Lemma default_60 (v : Value) :
  Measure.numberOrMissing v ->
  Measure.minutesOf (or_else v (JNumber 60))
  = Measure.minutesOf v + 60 * (if truthy v then 0 else 1).
Proof.
  intros [[z ->]|[->| ->]]; unfold or_else; cbn [truthy].
  - destruct (Z.eqb_spec z 0) as [->|_]; cbn [negb Measure.minutesOf]; lia.
  - reflexivity.
  - reflexivity.
Qed.

Lemma defaulted_cons (v : Value) (l : list Value) :
  Measure.defaulted (v :: l)
  = (if truthy v then 0 else 1) + Measure.defaulted l.
Proof.
  unfold Measure.defaulted. cbn [filter].
  destruct (truthy v); cbn [negb List.length]; lia.
Qed.

Lemma defaulted_rows (estimates : list Value) :
  Forall Measure.numberOrMissing estimates ->
  Measure.sumMinutes (map (fun v => or_else v (JNumber 60)) estimates)
  = Measure.sumMinutes estimates + 60 * Measure.defaulted estimates.
Proof.
  induction 1 as [|v l Hv _ IH]; [reflexivity|].
  cbn [map]. rewrite !sumMinutes_cons, defaulted_cons, IH, (default_60 _ Hv).
  lia.
Qed.

(** X7: when every estimate is a number or is missing (and their absolute
    values add up to no more than 2^53, where the sums of doubles are exact),
    the total stored on the class is the sum of the parsed estimates, a
    missing one counting for nothing, while the rows stored for the same
    entries add up to 60 minutes more for each estimate that is missing or
    zero. *)
Theorem totalMinutes_and_rows (classId : Value) (topics : list Topic.t)
    (assignments : list ParsedAssignment.t) :
  Forall Measure.numberOrMissing (map Topic.estimatedMinutes topics) ->
  Forall Measure.numberOrMissing
    (map ParsedAssignment.estimatedMinutes assignments) ->
  Measure.magnitude (map Topic.estimatedMinutes topics)
  + Measure.magnitude (map ParsedAssignment.estimatedMinutes assignments)
  <= Double.maxExact ->
  let total :=
    Measure.sumMinutes (map Topic.estimatedMinutes topics)
    + Measure.sumMinutes (map ParsedAssignment.estimatedMinutes assignments) in
  totalMinutes topics assignments = Some total
  /\ Measure.sumMinutes
       (map TopicRow.estimated_minutes (topicInserts classId topics))
     + Measure.sumMinutes
         (map AssignmentRow.estimated_minutes
            (assignmentInserts classId assignments))
     = total
       + 60 * (Measure.defaulted (map Topic.estimatedMinutes topics)
               + Measure.defaulted
                   (map ParsedAssignment.estimatedMinutes assignments)).
Proof.
  intros Ht Ha B total. subst total.
  pose proof (magnitude_bounds (map Topic.estimatedMinutes topics)) as Mt.
  pose proof (magnitude_bounds
                (map ParsedAssignment.estimatedMinutes assignments)) as Ma.
  split.
  - unfold totalMinutes, sumEstimates.
    rewrite (sumEstimates_from _ 0 Ht), (sumEstimates_from _ 0 Ha) by lia.
    cbn [Z.add]. now rewrite add_exact by lia.
  - unfold topicInserts, assignmentInserts. rewrite !map_map.
    cbn [TopicRow.estimated_minutes AssignmentRow.estimated_minutes].
    rewrite <- (map_map Topic.estimatedMinutes
                  (fun v => or_else v (JNumber 60))).
    rewrite <- (map_map ParsedAssignment.estimatedMinutes
                  (fun v => or_else v (JNumber 60))).
    rewrite (defaulted_rows _ Ht), (defaulted_rows _ Ha). lia.
Qed.

(** One topic of 90 minutes and one assignment without estimate: the total
    is 90, the rows add up to 150. *)
Lemma totalMinutes_and_rows_witness :
  totalMinutes
    [ {| Topic.title := JString "Week 1"; Topic.description := JUndefined;
         Topic.orderIndex := JNumber 1; Topic.estimatedMinutes := JNumber 90 |} ]
    [ {| ParsedAssignment.title := JString "Essay";
         ParsedAssignment.type := JUndefined;
         ParsedAssignment.dueDate := JUndefined;
         ParsedAssignment.estimatedMinutes := JUndefined |} ]
  = Some 90.
Proof.
  refine (proj1 (totalMinutes_and_rows JNull _ _ _ _ _)).
  - apply Forall_cons; [left; now exists 90|apply Forall_nil].
  - apply Forall_cons; [right; now left|apply Forall_nil].
  - vm_compute. discriminate.
Defined.

(** ** The counts of the response *)

(** X8: the response counts every planned session as an assignment block,
    stored or not: its studyBlocksCount is the sum of its
    classMeetingBlocksCount and its assignmentBlocksCount exactly when some
    assignment was inserted or nothing was planned, and is the
    classMeetingBlocksCount otherwise. *)
Theorem response_counts (userId classId : Value) (topics : list Topic.t)
    (assignments : list ParsedAssignment.t)
    (classMeetingBlocks : list ClassMeeting.t)
    (assignmentStudyBlocks : list Planned.t)
    (insertedAssignments : list Assignment.t) :
  let r := respond userId classId topics assignments classMeetingBlocks
             assignmentStudyBlocks insertedAssignments in
  (Response.studyBlocksCount r
   = (Response.classMeetingBlocksCount r + Response.assignmentBlocksCount r)%nat
   <-> assignmentStudyBlocks = [] \/ insertedAssignments <> [])
  /\ (insertedAssignments = [] ->
      Response.studyBlocksCount r = Response.classMeetingBlocksCount r)
  /\ Response.assignmentBlocksCount r = List.length assignmentStudyBlocks.
Proof.
  cbn zeta. unfold respond, responseOf.
  cbn [Response.studyBlocksCount Response.classMeetingBlocksCount
       Response.assignmentBlocksCount].
  rewrite allStudyBlocks_eq, length_app, length_map.
  split; [|split; [|reflexivity]].
  - destruct insertedAssignments as [|a l], assignmentStudyBlocks as [|b p];
      cbn [List.length map]; split; intros H;
      try lia; try (now left); try (right; discriminate).
    + destruct H as [H|H]; [discriminate|contradiction].
    + rewrite length_map. cbn [List.length]. lia.
  - intros ->. cbn [List.length]. lia.
Qed.

(** One class meeting and one planned session, no assignment inserted: the
    session is counted but not stored. *)
Lemma response_counts_witness :
  let r := respond Examples.user Examples.class [] [] [Examples.meeting1]
             [Examples.session0] [] in
  Response.studyBlocksCount r = 1%nat
  /\ Response.assignmentBlocksCount r = 1%nat.
Proof.
  destruct (response_counts Examples.user Examples.class [] []
              [Examples.meeting1] [Examples.session0] []) as [_ [H L]].
  split; [exact (H eq_refl)|exact L].
Defined.

(** ** Reading then printing a date *)

Lemma MakeDay_month_date (y m t : Z) :
  0 <= m <= 11 -> 1 <= t <= DaysInMonth y m ->
  MonthFromDay (MakeDay y m t) = m /\ DateFromDay (MakeDay y m t) = t.
Proof.
  intros Hm Ht.
  pose proof (MakeDay_year y m t Hm Ht) as Hy.
  unfold DateFromDay, MonthFromDay, DayWithinYear. rewrite Hy.
  revert Ht. unfold MakeDay, DaysInMonth.
  assert (C : m = 0 \/ m = 1 \/ m = 2 \/ m = 3 \/ m = 4 \/ m = 5 \/ m = 6
              \/ m = 7 \/ m = 8 \/ m = 9 \/ m = 10 \/ m = 11) by lia.
  destruct (InLeapYear y);
    repeat (destruct C as [->|C]; [cbn; intros Ht; case_compare; cbn; lia|]);
    subst m; cbn; intros Ht; case_compare; cbn; lia.
Qed.

Lemma digitChar_digitValue (c : ascii) :
  isDigit c = true -> digitChar (digitValue c) = c.
Proof.
  intros H. pose proof (isDigit_value c H) as R.
  unfold digitChar, digitValue in *.
  replace (48 + Z.to_N (Z.of_N (code c) - 48))%N with (code c) by lia.
  apply ascii_N_embedding.
Qed.

Lemma pad2_digits (a b : ascii) :
  isDigit a = true -> isDigit b = true ->
  pad 2 (10 * digitValue a + digitValue b) = String a (String b "").
Proof.
  intros Ha Hb.
  pose proof (isDigit_value a Ha). pose proof (isDigit_value b Hb).
  unfold pad. cbn [padAcc].
  replace ((10 * digitValue a + digitValue b) mod 10) with (digitValue b)
    by (Z.to_euclidean_division_equations; lia).
  replace ((10 * digitValue a + digitValue b) / 10 mod 10) with (digitValue a)
    by (Z.to_euclidean_division_equations; lia).
  now rewrite !digitChar_digitValue.
Qed.

Lemma pad4_digits (a b c d : ascii) :
  isDigit a = true -> isDigit b = true -> isDigit c = true ->
  isDigit d = true ->
  pad 4 (1000 * digitValue a + 100 * digitValue b + 10 * digitValue c
         + digitValue d)
  = String a (String b (String c (String d ""))).
Proof.
  intros Ha Hb Hc Hd.
  pose proof (isDigit_value a Ha). pose proof (isDigit_value b Hb).
  pose proof (isDigit_value c Hc). pose proof (isDigit_value d Hd).
  unfold pad. cbn [padAcc].
  set (n := 1000 * digitValue a + 100 * digitValue b + 10 * digitValue c
            + digitValue d).
  replace (n mod 10) with (digitValue d)
    by (subst n; Z.to_euclidean_division_equations; lia).
  replace (n / 10 mod 10) with (digitValue c)
    by (subst n; Z.to_euclidean_division_equations; lia).
  replace (n / 10 / 10 mod 10) with (digitValue b)
    by (subst n; Z.to_euclidean_division_equations; lia).
  replace (n / 10 / 10 / 10 mod 10) with (digitValue a)
    by (subst n; Z.to_euclidean_division_equations; lia).
  now rewrite !digitChar_digitValue.
Qed.

Lemma string_of_chars (s : string) (l : list ascii) :
  list_ascii_of_string s = l -> s = string_of_list_ascii l.
Proof. intros <-. symmetry. apply string_of_list_ascii_of_string. Qed.

(** A date text that [new Date] reads is the text [toISOString] prints for
    the day it gives. *)
Lemma isoDate_ofString (s : string) (d : Z) :
  ofString s = Some (Time d) -> isoDate d = s.
Proof.
  unfold ofString. destruct (isoFields s) as [[[y m] t]|] eqn:F;
    [|destruct (hasDigit s); discriminate].
  pose proof (isoFields_range _ _ _ _ F) as Hy.
  destruct (Z.leb_spec 1 m); [|discriminate].
  destruct (Z.leb_spec m 12); [|discriminate].
  destruct (Z.leb_spec 1 t); [|discriminate].
  destruct (Z.leb_spec t (DaysInMonth y (m - 1))); [|discriminate].
  cbn [andb]. intros E.
  assert (Ed : d = MakeDay y (m - 1) t) by congruence. subst d. clear E.
  unfold isoDate, yearString.
  rewrite MakeDay_year by lia.
  destruct (MakeDay_month_date y (m - 1) t) as [-> ->]; [lia|lia|].
  destruct (Z.leb_spec 0 y); [|lia]. destruct (Z.leb_spec y 9999); [|lia].
  cbn [andb]. replace (m - 1 + 1) with m by lia.
  revert F. unfold isoFields.
  destruct (list_ascii_of_string s) as [|y1 [|y2 [|y3 [|y4 [|h1 [|m1 [|m2
    [|h2 [|d1 [|d2 [|x l]]]]]]]]]]] eqn:L; try discriminate.
  destruct (forallb isDigit [y1; y2; y3; y4; m1; m2; d1; d2]) eqn:D;
    [|discriminate].
  cbn [forallb] in D.
  repeat (apply andb_true_iff in D as [?H D]).
  destruct (Ascii.eqb_spec h1 "-") as [->|]; [|discriminate].
  destruct (Ascii.eqb_spec h2 "-") as [->|]; [|discriminate].
  cbn [andb]. intros E.
  replace y with (1000 * digitValue y1 + 100 * digitValue y2
                  + 10 * digitValue y3 + digitValue y4) by congruence.
  replace m with (10 * digitValue m1 + digitValue m2) by congruence.
  replace t with (10 * digitValue d1 + digitValue d2) by congruence.
  rewrite pad4_digits, !pad2_digits by assumption.
  rewrite (string_of_chars _ _ L). reflexivity.
Qed.

(** ** More on the recurrence *)

Lemma daysFrom_app (n m : nat) (s : Z) :
  Spec.daysFrom (n + m) s
  = (Spec.daysFrom n s ++ Spec.daysFrom m (s + Z.of_nat n))%list.
Proof.
  revert s. induction n as [|n IH]; intros s.
  - cbn [Nat.add Spec.daysFrom app]. f_equal. lia.
  - cbn [Nat.add Spec.daysFrom app]. rewrite IH. do 3 f_equal. lia.
Qed.

(** The matching days of a range are those of its first part followed by
    those of the rest. *)
Lemma matchingDays_split (days : list string) (s m e : Z) :
  s <= m + 1 -> m <= e ->
  Spec.matchingDays days (Time s) (Time e)
  = (Spec.matchingDays days (Time s) (Time m)
     ++ Spec.matchingDays days (Time (m + 1)) (Time e))%list.
Proof.
  intros H1 H2. unfold Spec.matchingDays.
  replace (Z.to_nat (e - s + 1))
    with (Z.to_nat (m - s + 1) + Z.to_nat (e - (m + 1) + 1))%nat by lia.
  rewrite daysFrom_app, filter_app.
  do 3 f_equal. lia.
Qed.

Lemma weekDay_cases (d : Z) :
  WeekDay d = 0 \/ WeekDay d = 1 \/ WeekDay d = 2 \/ WeekDay d = 3
  \/ WeekDay d = 4 \/ WeekDay d = 5 \/ WeekDay d = 6.
Proof. unfold WeekDay. pose proof (Z.mod_pos_bound (d + 4) 7). lia. Qed.

Lemma weekDay_shift (d k r : Z) :
  WeekDay d = r -> WeekDay (d + k) = (r + k) mod 7.
Proof.
  unfold WeekDay. intros <-.
  replace (d + k + 4) with (d + 4 + k) by lia.
  now rewrite Zplus_mod_idemp_l.
Qed.

(** Seven days in a row hold each day of the week once. *)
Lemma week_count (p : Z -> bool) (s : Z) :
  List.length (filter (fun d => p (WeekDay d)) (Spec.daysFrom 7 s))
  = List.length (filter p Measure.weekDays).
Proof.
  cbn [Spec.daysFrom filter Measure.weekDays].
  replace (s + 1 + 1) with (s + 2) by lia.
  replace (s + 2 + 1) with (s + 3) by lia.
  replace (s + 3 + 1) with (s + 4) by lia.
  replace (s + 4 + 1) with (s + 5) by lia.
  replace (s + 5 + 1) with (s + 6) by lia.
  destruct (weekDay_cases s) as [E|[E|[E|[E|[E|[E|E]]]]]];
    rewrite (weekDay_shift s 1 _ E), (weekDay_shift s 2 _ E),
      (weekDay_shift s 3 _ E), (weekDay_shift s 4 _ E),
      (weekDay_shift s 5 _ E), (weekDay_shift s 6 _ E), E;
    repeat match goal with
           | |- context [(?a + ?b) mod 7] =>
               let v := eval vm_compute in ((a + b) mod 7) in
               change ((a + b) mod 7) with v
           end;
    destruct (p 0), (p 1), (p 2), (p 3), (p 4), (p 5), (p 6); reflexivity.
Qed.

Lemma whole_weeks_count (p : Z -> bool) (n : nat) (s : Z) :
  List.length (filter (fun d => p (WeekDay d)) (Spec.daysFrom (7 * n) s))
  = (n * List.length (filter p Measure.weekDays))%nat.
Proof.
  revert s. induction n as [|n IH]; intros s.
  - reflexivity.
  - replace (7 * S n)%nat with (7 + 7 * n)%nat by lia.
    rewrite daysFrom_app, filter_app, length_app, week_count, IH. lia.
Qed.

Section UsableScheduleRanges.

Variable currentYear : Z.
Variable sch : Schedule.t.
Variable days : list string.
Variables startTime endTime : string.
Variables sh sm eh em : Z.

Hypothesis days_given : Schedule.days sch = Some days.
Hypothesis start_given : nonEmpty (Schedule.startTime sch) = Some startTime.
Hypothesis end_given : nonEmpty (Schedule.endTime sch) = Some endTime.
Hypothesis start_hour : timePart startTime 0 = Some (Int sh).
Hypothesis start_min : timePart startTime 1 = Some (Int sm).
Hypothesis end_hour : timePart endTime 0 = Some (Int eh).
Hypothesis end_min : timePart endTime 1 = Some (Int em).

(** X9: over a range of whole weeks the generator emits, for each week, one
    meeting for each day of the week the tokens resolve to, however many
    tokens name that day. *)
Theorem whole_weeks (s : Z) (weeks : nat) :
  rangeStart currentYear sch = Some (Time s) ->
  rangeEnd currentYear sch = Some (Time (s + 7 * Z.of_nat weeks - 1)) ->
  exists blocks,
    classMeetingBlocks currentYear (Some sch) = Some blocks
    /\ List.length blocks = (weeks * Measure.resolvedCount days)%nat
    /\ (Measure.resolvedCount days <= 7)%nat.
Proof.
  intros Rs Re.
  exists (Measure.meetingsBetween days startTime (durationMinutes sh sm eh em)
            (Time s) (Time (s + 7 * Z.of_nat weeks - 1))).
  split; [|split].
  - now apply (classMeetingBlocks_usable currentYear sch days startTime
                 endTime sh sm eh em).
  - unfold Measure.meetingsBetween, Spec.matchingDays. rewrite length_map.
    replace (Z.to_nat (s + 7 * Z.of_nat weeks - 1 - s + 1))
      with (7 * weeks)%nat by lia.
    apply (whole_weeks_count (includes (scheduleDays days))).
  - unfold Measure.resolvedCount.
    etransitivity; [apply filter_length_le|]. reflexivity.
Qed.

(** X10: the first date of the range comes out as the text the schedule
    gives: when the day of the week of startDate is one of the resolved
    days, the first class meeting is dated with the very string startDate;
    when it is not, no meeting has that date. *)
Theorem first_meeting_on_startDate (startText : string) (s e : Z) :
  nonEmpty (Schedule.startDate sch) = Some startText ->
  ofString startText = Some (Time s) ->
  rangeEnd currentYear sch = Some (Time e) ->
  s <= e ->
  (includes (scheduleDays days) (WeekDay s) = true ->
   exists rest,
     classMeetingBlocks currentYear (Some sch)
     = Some ({| ClassMeeting.blockDate := startText;
                ClassMeeting.startTime := startTime;
                ClassMeeting.durationMinutes := durationMinutes sh sm eh em;
                ClassMeeting.isClassMeeting := true |} :: rest))
  /\ (includes (scheduleDays days) (WeekDay s) = false ->
      classMeetingBlocks currentYear (Some sch)
      = Some (Measure.meetingsBetween days startTime
                (durationMinutes sh sm eh em) (Time (s + 1)) (Time e))).
Proof.
  intros Hs Ho Re Hle.
  assert (Rs : rangeStart currentYear sch = Some (Time s)).
  { unfold rangeStart. now rewrite Hs. }
  rewrite (classMeetingBlocks_usable currentYear sch days startTime endTime
             sh sm eh em days_given start_given end_given start_hour
             start_min end_hour end_min (Time s) (Time e) Rs Re).
  rewrite (matchingDays_split days s s e) by lia.
  assert (E1 : Spec.matchingDays days (Time s) (Time s)
               = if includes (scheduleDays days) (WeekDay s) then [s] else []).
  { unfold Spec.matchingDays. replace (Z.to_nat (s - s + 1)) with 1%nat by lia.
    reflexivity. }
  rewrite E1. split; intros Hi; rewrite Hi.
  - cbn [app map]. unfold Spec.meetingOn at 1.
    rewrite (isoDate_ofString _ _ Ho). eexists. reflexivity.
  - reflexivity.
Qed.

(** X11: a range generated in two consecutive parts gives the meetings of the
    whole range: those of the first part followed by those of the second. *)
Theorem range_in_two_parts (a b b' c : string) (s m e : Z) :
  ofString a = Some (Time s) ->
  ofString b = Some (Time m) ->
  ofString b' = Some (Time (m + 1)) ->
  ofString c = Some (Time e) ->
  s <= m + 1 -> m <= e ->
  exists first second,
    classMeetingBlocks currentYear (Some (Measure.withRange sch a b))
    = Some first
    /\ classMeetingBlocks currentYear (Some (Measure.withRange sch b' c))
       = Some second
    /\ classMeetingBlocks currentYear (Some (Measure.withRange sch a c))
       = Some (first ++ second)%list.
Proof.
  intros Ha Hb Hb' Hc H1 H2.
  assert (R : forall x y dx dy,
             ofString x = Some (Time dx) -> ofString y = Some (Time dy) ->
             classMeetingBlocks currentYear (Some (Measure.withRange sch x y))
             = Some (Measure.meetingsBetween days startTime
                       (durationMinutes sh sm eh em) (Time dx) (Time dy))).
  { intros x y dx dy Hx Hy.
    assert (Nx : x <> "") by (intros ->; discriminate).
    assert (Ny : y <> "") by (intros ->; discriminate).
    apply (classMeetingBlocks_usable currentYear (Measure.withRange sch x y)
             days startTime endTime sh sm eh em); try assumption.
    - unfold rangeStart, Measure.withRange, nonEmpty. cbn [Schedule.startDate].
      now destruct (String.eqb_spec x "").
    - unfold rangeEnd, Measure.withRange, nonEmpty. cbn [Schedule.endDate].
      now destruct (String.eqb_spec y ""). }
  exists (Measure.meetingsBetween days startTime (durationMinutes sh sm eh em)
            (Time s) (Time m)),
         (Measure.meetingsBetween days startTime (durationMinutes sh sm eh em)
            (Time (m + 1)) (Time e)).
  rewrite (R a b s m Ha Hb), (R b' c (m + 1) e Hb' Hc), (R a c s e Ha Hc).
  split; [reflexivity|]. split; [reflexivity|].
  unfold Measure.meetingsBetween.
  now rewrite (matchingDays_split days s m e), map_app.
Qed.

(** X12: the meetings depend on the day tokens only through the days of the
    week they resolve to: other tokens for the same days, in any order and
    with any repetition, give the same meetings. *)
Theorem same_days_same_meetings (otherDays : list string)
    (startDate endDate : Date) :
  rangeStart currentYear sch = Some startDate ->
  rangeEnd currentYear sch = Some endDate ->
  (forall dayOfWeek,
      includes (scheduleDays otherDays) dayOfWeek
      = includes (scheduleDays days) dayOfWeek) ->
  classMeetingBlocks currentYear (Some (Measure.withDays sch otherDays))
  = classMeetingBlocks currentYear (Some sch).
Proof.
  intros Rs Re Hsame.
  rewrite (classMeetingBlocks_usable currentYear sch days startTime endTime
             sh sm eh em days_given start_given end_given start_hour
             start_min end_hour end_min startDate endDate Rs Re).
  rewrite (classMeetingBlocks_usable currentYear
             (Measure.withDays sch otherDays) otherDays startTime endTime
             sh sm eh em eq_refl start_given end_given start_hour
             start_min end_hour end_min startDate endDate Rs Re).
  do 2 f_equal. unfold Spec.matchingDays.
  destruct startDate as [|s], endDate as [|e]; try reflexivity.
  apply filter_ext. intros d. apply Hsame.
Qed.

End UsableScheduleRanges.

(** Two whole weeks of Mondays and Wednesdays: four meetings. *)
Lemma whole_weeks_witness :
  exists blocks,
    classMeetingBlocks 2025 (Some Samples.twoWeeks) = Some blocks
    /\ List.length blocks = 4%nat.
Proof.
  destruct (whole_weeks 2025 Samples.twoWeeks ["Monday"; "Wednesday"]
              "10:00" "11:00" 10 0 11 0
              eq_refl eq_refl eq_refl eq_refl eq_refl eq_refl eq_refl
              20101 2 eq_refl eq_refl) as [blocks [G [L _]]].
  exists blocks. split; [exact G|exact L].
Defined.

(** 13 January 2025 is a Monday: the first meeting is dated 2025-01-13. *)
Lemma first_meeting_on_startDate_witness :
  exists rest,
    classMeetingBlocks 2025 (Some Examples.mondayWednesday)
    = Some (Spec.meetingOn "10:00" 60 20101 :: rest).
Proof.
  exact (proj1 (first_meeting_on_startDate 2025 Examples.mondayWednesday
                  ["Monday"; "Wednesday"] "10:00" "11:00" 10 0 11 0
                  eq_refl eq_refl eq_refl eq_refl eq_refl eq_refl eq_refl
                  "2025-01-13" 20101 20112 eq_refl eq_refl eq_refl
                  ltac:(lia))
           eq_refl).
Defined.

(** 13 to 17 January, then 18 to 24 January 2025. *)
Lemma range_in_two_parts_witness :
  exists first second,
    classMeetingBlocks 2025
      (Some (Measure.withRange Examples.mondayWednesday
               "2025-01-13" "2025-01-17")) = Some first
    /\ classMeetingBlocks 2025
         (Some (Measure.withRange Examples.mondayWednesday
                  "2025-01-18" "2025-01-24")) = Some second
    /\ classMeetingBlocks 2025
         (Some (Measure.withRange Examples.mondayWednesday
                  "2025-01-13" "2025-01-24")) = Some (first ++ second)%list.
Proof.
  exact (range_in_two_parts 2025 Examples.mondayWednesday
           ["Monday"; "Wednesday"] "10:00" "11:00" 10 0 11 0
           eq_refl eq_refl eq_refl eq_refl eq_refl eq_refl eq_refl
           "2025-01-13" "2025-01-17" "2025-01-18" "2025-01-24"
           20101 20105 20112 eq_refl eq_refl eq_refl eq_refl
           ltac:(lia) ltac:(lia)).
Defined.

(** Wed, Mon, Mon for Monday, Wednesday. *)
Lemma same_days_same_meetings_witness :
  classMeetingBlocks 2025
    (Some (Measure.withDays Examples.mondayWednesday ["Wed"; "Mon"; "Mon"]))
  = classMeetingBlocks 2025 (Some Examples.mondayWednesday).
Proof.
  apply (same_days_same_meetings 2025 Examples.mondayWednesday
           ["Monday"; "Wednesday"] "10:00" "11:00" 10 0 11 0
           eq_refl eq_refl eq_refl eq_refl eq_refl eq_refl eq_refl
           ["Wed"; "Mon"; "Mon"] (Time 20101) (Time 20112) eq_refl eq_refl).
  intros dayOfWeek.
  change (((3 =? dayOfWeek)%Z || ((1 =? dayOfWeek)%Z
           || ((1 =? dayOfWeek)%Z || false)))%bool
          = ((1 =? dayOfWeek)%Z || ((3 =? dayOfWeek)%Z || false))%bool).
  destruct (1 =? dayOfWeek)%Z, (3 =? dayOfWeek)%Z; reflexivity.
Defined.

(** ** The order of the date strings *)

Lemma compare_digitChar (a b : Z) :
  0 <= a <= 9 -> 0 <= b <= 9 ->
  Ascii.compare (digitChar a) (digitChar b) = (a ?= b)%Z.
Proof.
  intros Ha Hb.
  assert (Ca : a = 0 \/ a = 1 \/ a = 2 \/ a = 3 \/ a = 4 \/ a = 5 \/ a = 6
               \/ a = 7 \/ a = 8 \/ a = 9) by lia.
  assert (Cb : b = 0 \/ b = 1 \/ b = 2 \/ b = 3 \/ b = 4 \/ b = 5 \/ b = 6
               \/ b = 7 \/ b = 8 \/ b = 9) by lia.
  repeat (destruct Ca as [->|Ca]);
    repeat (destruct Cb as [->|Cb]); subst; reflexivity.
Qed.

(** Eight digits compare one after the other as the number they spell. *)
Lemma compare_digits (a3 a2 a1 a0 a5 a4 a7 a6 b3 b2 b1 b0 b5 b4 b7 b6 : Z) :
  0 <= a3 <= 9 -> 0 <= a2 <= 9 -> 0 <= a1 <= 9 -> 0 <= a0 <= 9 ->
  0 <= a5 <= 9 -> 0 <= a4 <= 9 -> 0 <= a7 <= 9 -> 0 <= a6 <= 9 ->
  0 <= b3 <= 9 -> 0 <= b2 <= 9 -> 0 <= b1 <= 9 -> 0 <= b0 <= 9 ->
  0 <= b5 <= 9 -> 0 <= b4 <= 9 -> 0 <= b7 <= 9 -> 0 <= b6 <= 9 ->
  match (a3 ?= b3)%Z with
  | Eq =>
      match (a2 ?= b2)%Z with
      | Eq =>
          match (a1 ?= b1)%Z with
          | Eq =>
              match (a0 ?= b0)%Z with
              | Eq =>
                  match (a5 ?= b5)%Z with
                  | Eq =>
                      match (a4 ?= b4)%Z with
                      | Eq =>
                          match (a7 ?= b7)%Z with
                          | Eq => (a6 ?= b6)%Z
                          | c => c
                          end
                      | c => c
                      end
                  | c => c
                  end
              | c => c
              end
          | c => c
          end
      | c => c
      end
  | c => c
  end
  = ((1000 * a3 + 100 * a2 + 10 * a1 + a0) * 10000
       + (10 * a5 + a4) * 100 + (10 * a7 + a6)
     ?= (1000 * b3 + 100 * b2 + 10 * b1 + b0) * 10000
       + (10 * b5 + b4) * 100 + (10 * b7 + b6))%Z.
Proof.
  intros.
  repeat match goal with
         | |- context [match (?x ?= ?y)%Z with _ => _ end] =>
             destruct (Z.compare_spec x y); [subst| |]
         end;
    symmetry;
    try (apply Z.compare_lt_iff; lia);
    try (apply Z.compare_gt_iff; lia).
  destruct (Z.compare_spec a6 b6).
  - subst. apply Z.compare_refl.
  - apply Z.compare_lt_iff. lia.
  - apply Z.compare_gt_iff. lia.
Qed.

Lemma digits4 (n : Z) :
  0 <= n <= 9999 ->
  n = 1000 * (n / 10 / 10 / 10 mod 10) + 100 * (n / 10 / 10 mod 10)
      + 10 * (n / 10 mod 10) + n mod 10.
Proof. intros H. Z.to_euclidean_division_equations. lia. Qed.

Lemma digits2 (n : Z) :
  0 <= n <= 99 -> n = 10 * (n / 10 mod 10) + n mod 10.
Proof. intros H. Z.to_euclidean_division_equations. lia. Qed.

Lemma compare_isoDate_key (a b : Z) :
  0 <= YearFromDay a <= 9999 -> 0 <= YearFromDay b <= 9999 ->
  String.compare (isoDate a) (isoDate b)
  = (Measure.dateKey a ?= Measure.dateKey b)%Z.
Proof.
  intros Ha Hb. unfold Measure.dateKey, isoDate, yearString.
  pose proof (MonthFromDay_range a). pose proof (MonthFromDay_range b).
  pose proof (DateFromDay_range a). pose proof (DateFromDay_range b).
  pose proof (DaysInMonth_le_31 (YearFromDay a) (MonthFromDay a)).
  pose proof (DaysInMonth_le_31 (YearFromDay b) (MonthFromDay b)).
  destruct (Z.leb_spec 0 (YearFromDay a)); [|lia].
  destruct (Z.leb_spec (YearFromDay a) 9999); [|lia].
  destruct (Z.leb_spec 0 (YearFromDay b)); [|lia].
  destruct (Z.leb_spec (YearFromDay b) 9999); [|lia].
  cbn [andb].
  rewrite (digits4 (YearFromDay a)) at 2 by lia.
  rewrite (digits4 (YearFromDay b)) at 2 by lia.
  rewrite (digits2 (MonthFromDay a + 1)) at 2 by lia.
  rewrite (digits2 (MonthFromDay b + 1)) at 2 by lia.
  rewrite (digits2 (DateFromDay a)) at 2 by lia.
  rewrite (digits2 (DateFromDay b)) at 2 by lia.
  rewrite <- compare_digits by apply mod10_digit.
  cbn [pad padAcc append String.compare].
  rewrite !compare_digitChar by apply mod10_digit.
  change (Ascii.compare "-" "-") with Eq. cbv iota.
  repeat match goal with
         | |- context [match (?x ?= ?y)%Z with _ => _ end] =>
             destruct (x ?= y)%Z; try reflexivity
         end.
Qed.

Lemma month_date_mono (leap : bool) (w1 w2 : Z) :
  0 <= w1 < w2 ->
  let month w :=
    if (w <? monthStart leap 1)%Z then 0
    else if (w <? monthStart leap 2)%Z then 1
    else if (w <? monthStart leap 3)%Z then 2
    else if (w <? monthStart leap 4)%Z then 3
    else if (w <? monthStart leap 5)%Z then 4
    else if (w <? monthStart leap 6)%Z then 5
    else if (w <? monthStart leap 7)%Z then 6
    else if (w <? monthStart leap 8)%Z then 7
    else if (w <? monthStart leap 9)%Z then 8
    else if (w <? monthStart leap 10)%Z then 9
    else if (w <? monthStart leap 11)%Z then 10
    else 11 in
  w2 - monthStart leap (month w2) + 1 <= 31 ->
  (month w1 + 1) * 100 + (w1 - monthStart leap (month w1) + 1)
  < (month w2 + 1) * 100 + (w2 - monthStart leap (month w2) + 1).
Proof.
  intros H month. subst month. cbv beta.
  destruct leap; cbn; case_compare;
    cbn [monthStart Z.leb Z.eqb Z.compare Pos.compare Pos.compare_cont Pos.eqb];
    lia.
Qed.

(** A later day spells a larger number. *)
Lemma dateKey_mono (a b : Z) : a < b -> Measure.dateKey a < Measure.dateKey b.
Proof.
  intros H. unfold Measure.dateKey.
  pose proof (YearFromDay_mono a b ltac:(lia)) as Hy.
  pose proof (MonthFromDay_range a). pose proof (MonthFromDay_range b).
  pose proof (DateFromDay_range a). pose proof (DateFromDay_range b).
  pose proof (DaysInMonth_le_31 (YearFromDay a) (MonthFromDay a)).
  pose proof (DaysInMonth_le_31 (YearFromDay b) (MonthFromDay b)).
  destruct (Z.eq_dec (YearFromDay a) (YearFromDay b)) as [E|N]; [|lia].
  pose proof (DayWithinYear_range a) as Wa.
  assert (W : DayWithinYear a < DayWithinYear b)
    by (unfold DayWithinYear; rewrite E; lia).
  assert (D : DateFromDay b <= 31) by lia.
  revert D. unfold DateFromDay, MonthFromDay. rewrite E. intros D.
  pose proof (month_date_mono (InLeapYear (YearFromDay b))
                (DayWithinYear a) (DayWithinYear b) ltac:(lia) D) as M.
  cbv beta zeta in M. lia.
Qed.

Lemma compare_isoDate (a b : Z) :
  0 <= YearFromDay a <= 9999 -> 0 <= YearFromDay b <= 9999 ->
  String.compare (isoDate a) (isoDate b) = (a ?= b)%Z.
Proof.
  intros Ha Hb. rewrite (compare_isoDate_key a b Ha Hb).
  destruct (Z.compare_spec a b) as [->|L|G].
  - apply Z.compare_refl.
  - apply Z.compare_lt_iff. now apply dateKey_mono.
  - apply Z.compare_gt_iff. now apply dateKey_mono.
Qed.

Lemma sorted_isoDate (l : list Z) :
  StronglySorted Z.lt l ->
  Forall (fun d => 0 <= YearFromDay d <= 9999) l ->
  StronglySorted Measure.before (map isoDate l).
Proof.
  induction 1 as [|d l S IH F]; intros Y; cbn [map].
  - constructor.
  - apply Forall_cons_iff in Y as [Yd Yl].
    constructor; [now apply IH|].
    apply Forall_forall. intros x Hx.
    apply in_map_iff in Hx as [d' [<- Hd']].
    rewrite Forall_forall in F, Yl. unfold Measure.before.
    rewrite compare_isoDate by auto.
    apply Z.compare_lt_iff. now apply F.
Qed.

Section UsableScheduleDates.

Variable currentYear : Z.
Variable sch : Schedule.t.
Variable days : list string.
Variables startTime endTime : string.
Variables sh sm eh em : Z.

Hypothesis days_given : Schedule.days sch = Some days.
Hypothesis start_given : nonEmpty (Schedule.startTime sch) = Some startTime.
Hypothesis end_given : nonEmpty (Schedule.endTime sch) = Some endTime.
Hypothesis start_hour : timePart startTime 0 = Some (Int sh).
Hypothesis start_min : timePart startTime 1 = Some (Int sm).
Hypothesis end_hour : timePart endTime 0 = Some (Int eh).
Hypothesis end_min : timePart endTime 1 = Some (Int em).

(** X13: the dates of the class meetings ascend strictly as strings too: a
    reader that compares blockDate with [<] or sorts it as text gets the
    order of the calendar. *)
Theorem meeting_dates_ascend_as_strings (startText endText : string) :
  nonEmpty (Schedule.startDate sch) = Some startText ->
  nonEmpty (Schedule.endDate sch) = Some endText ->
  ofString startText <> None ->
  ofString endText <> None ->
  exists blocks,
    classMeetingBlocks currentYear (Some sch) = Some blocks
    /\ StronglySorted Measure.before (map ClassMeeting.blockDate blocks).
Proof.
  intros Hs He Ps Pe.
  destruct (ofString startText) as [startDate|] eqn:Os; [|contradiction].
  destruct (ofString endText) as [endDate|] eqn:Oe; [|contradiction].
  assert (Rs : rangeStart currentYear sch = Some startDate)
    by (unfold rangeStart; now rewrite Hs).
  assert (Re : rangeEnd currentYear sch = Some endDate)
    by (unfold rangeEnd; now rewrite He).
  exists (map (Spec.meetingOn startTime (durationMinutes sh sm eh em))
               (Spec.matchingDays days startDate endDate)).
  split.
  - now apply (classMeetingBlocks_usable currentYear sch days startTime
                 endTime sh sm eh em).
  - rewrite map_map. cbn [Spec.meetingOn ClassMeeting.blockDate].
    destruct startDate as [|s], endDate as [|e];
      try (cbn [Spec.matchingDays map]; constructor).
    apply sorted_isoDate; [apply matchingDays_sorted|].
    pose proof (ofString_year _ _ Os) as Ys.
    pose proof (ofString_year _ _ Oe) as Ye.
    apply Forall_forall. intros d Hd.
    apply matchingDays_In in Hd as [[L U] _].
    pose proof (YearFromDay_mono _ _ L). pose proof (YearFromDay_mono _ _ U).
    lia.
Qed.

(** X14: a schedule without dates is walked from 15 January to 15 May of the
    current year, both included: 121 days, 122 in a leap year. *)
Theorem default_range :
  nonEmpty (Schedule.startDate sch) = None ->
  nonEmpty (Schedule.endDate sch) = None ->
  100 <= currentYear <= 9999 ->
  exists s e,
    rangeStart currentYear sch = Some (Time s)
    /\ rangeEnd currentYear sch = Some (Time e)
    /\ isoDate s = pad 4 currentYear ++ "-01-15"
    /\ isoDate e = pad 4 currentYear ++ "-05-15"
    /\ e - s + 1 = (if InLeapYear currentYear then 122 else 121)
    /\ classMeetingBlocks currentYear (Some sch)
       = Some (map (Spec.meetingOn startTime (durationMinutes sh sm eh em))
                   (Spec.matchingDays days (Time s) (Time e))).
Proof.
  intros Hs He Hy.
  exists (MakeDay currentYear 0 15), (MakeDay currentYear 4 15).
  assert (B : forall m, 0 <= m <= 11 ->
                Z.abs (MakeDay currentYear m 15) <= 10 ^ 8).
  { intros m Hm. unfold MakeDay, DayFromYear, monthStart.
    change (10 ^ 8) with 100000000.
    destruct (InLeapYear currentYear); case_compare;
      Z.to_euclidean_division_equations; lia. }
  assert (F : forall m, 0 <= m <= 11 ->
                ofFields currentYear m 15 = Time (MakeDay currentYear m 15)).
  { intros m Hm. unfold ofFields, TimeClip.
    destruct (Z.leb_spec 0 currentYear); [|lia].
    destruct (Z.leb_spec currentYear 99); [lia|]. cbn [andb].
    destruct (Z.leb_spec (Z.abs (MakeDay currentYear m 15)) (10 ^ 8));
      [reflexivity|].
    pose proof (B m Hm). lia. }
  assert (Rs : rangeStart currentYear sch
               = Some (Time (MakeDay currentYear 0 15)))
    by (unfold rangeStart; rewrite Hs, F by lia; reflexivity).
  assert (Re : rangeEnd currentYear sch
               = Some (Time (MakeDay currentYear 4 15)))
    by (unfold rangeEnd; rewrite He, F by lia; reflexivity).
  assert (D : forall m, 0 <= m <= 11 -> 1 <= 15 <= DaysInMonth currentYear m).
  { intros m Hm. unfold DaysInMonth, monthStart.
    destruct (InLeapYear currentYear); case_compare; lia. }
  assert (I : forall m, 0 <= m <= 11 ->
                isoDate (MakeDay currentYear m 15)
                = pad 4 currentYear ++ "-" ++ pad 2 (m + 1) ++ "-" ++ pad 2 15).
  { intros m Hm. unfold isoDate, yearString.
    rewrite MakeDay_year by auto.
    destruct (MakeDay_month_date currentYear m 15 Hm (D m Hm)) as [-> ->].
    destruct (Z.leb_spec 0 currentYear); [|lia].
    destruct (Z.leb_spec currentYear 9999); [|lia]. reflexivity. }
  split; [exact Rs|]. split; [exact Re|].
  split; [now rewrite I by lia|]. split; [now rewrite I by lia|].
  split.
  - unfold MakeDay. destruct (InLeapYear currentYear); cbn; lia.
  - now apply (classMeetingBlocks_usable currentYear sch days startTime
                 endTime sh sm eh em).
Qed.

End UsableScheduleDates.

Lemma meeting_dates_ascend_as_strings_witness :
  exists blocks,
    classMeetingBlocks 2025 (Some Examples.mondayWednesday) = Some blocks
    /\ StronglySorted Measure.before (map ClassMeeting.blockDate blocks).
Proof.
  apply (meeting_dates_ascend_as_strings 2025 Examples.mondayWednesday
           ["Monday"; "Wednesday"] "10:00" "11:00" 10 0 11 0
           eq_refl eq_refl eq_refl eq_refl eq_refl eq_refl eq_refl
           "2025-01-13" "2025-01-24" eq_refl eq_refl);
    vm_compute; discriminate.
Defined.

(** In 2025, no leap year: 121 days from day 20103, 15 January. *)
Lemma default_range_witness :
  exists s e,
    rangeStart 2025 Samples.noDates = Some (Time s)
    /\ isoDate s = "2025-01-15"
    /\ isoDate e = "2025-05-15"
    /\ e - s + 1 = 121.
Proof.
  destruct (default_range 2025 Samples.noDates
              ["Monday"; "Wednesday"] "10:00" "11:00" 10 0 11 0
              eq_refl eq_refl eq_refl eq_refl eq_refl eq_refl eq_refl
              eq_refl eq_refl ltac:(lia))
    as [s [e [Rs [_ [Is [Ie [L _]]]]]]].
  exists s, e. split; [exact Rs|]. split; [exact Is|].
  split; [exact Ie|exact L].
Defined.

(** ** The blocks of today and the upcoming ones *)

Lemma eqb_isoDate (a b : Z) :
  0 <= YearFromDay a <= 9999 -> 0 <= YearFromDay b <= 9999 ->
  (isoDate a =? isoDate b)%string = (a =? b)%Z.
Proof.
  intros Ha Hb.
  destruct (String.eqb_spec (isoDate a) (isoDate b)) as [E|N];
    destruct (Z.eqb_spec a b) as [E'|N']; try reflexivity.
  - exfalso. apply N'. apply Z.compare_eq.
    rewrite <- (compare_isoDate a b Ha Hb), E.
    rewrite (compare_isoDate b b Hb Hb). apply Z.compare_refl.
  - subst. contradiction.
Qed.

(** X15: on rows whose block_date is the text of a date, as the handler and
    the database write it, the comparisons of the page, made on strings,
    select by date: the blocks of today are those dated today, the upcoming
    ones those dated after today, and at most three are shown. *)
Theorem today_and_upcoming (data : list StoredBlock.t)
    (dayOf : StoredBlock.t -> Z) (today : Z) :
  (forall b, In b data ->
     StoredBlock.block_date b = isoDate (dayOf b)
     /\ 0 <= YearFromDay (dayOf b) <= 9999) ->
  0 <= YearFromDay today <= 9999 ->
  TodayStudy.today_blocks data (isoDate today)
  = filter (fun b => (dayOf b =? today)%Z) data
  /\ TodayStudy.upcoming_blocks data (isoDate today)
     = filter (fun b => (today <? dayOf b)%Z) data
  /\ (List.length (TodayStudy.shownUpcoming data (isoDate today)) <= 3)%nat.
Proof.
  intros Hd Ht. split; [|split].
  - apply filter_ext_in. intros b Hb. destruct (Hd b Hb) as [-> Y].
    now apply eqb_isoDate.
  - apply filter_ext_in. intros b Hb. destruct (Hd b Hb) as [-> Y].
    unfold TodayStudy.gt. rewrite compare_isoDate by assumption.
    rewrite Z.ltb_antisym, Z.leb_compare.
    now destruct (dayOf b ?= today)%Z.
  - unfold TodayStudy.shownUpcoming. apply firstn_le_length.
Qed.

(** On 13 January 2025 (day 20101): two blocks today, one upcoming. *)
Lemma today_and_upcoming_witness :
  TodayStudy.today_blocks Samples.rows "2025-01-13"
  = [ Samples.stored "b-1" "2025-01-13" "10:00:00";
      Samples.stored "b-3" "2025-01-13" "18:00:00" ]
  /\ TodayStudy.upcoming_blocks Samples.rows "2025-01-13"
     = [ Samples.stored "b-2" "2025-01-15" "10:00:00" ].
Proof.
  destruct (today_and_upcoming Samples.rows Samples.dayOf 20101)
    as [T [U _]].
  - intros b [<-|[<-|[<-|[]]]];
      (split; [vm_compute; reflexivity|]);
      split; vm_compute; discriminate.
  - split; vm_compute; discriminate.
  - split; [exact T|exact U].
Defined.

(** ** The blocks of a date, in the two calendar pages *)

Lemma own_push_same (date : string) (block : StoredBlock.t)
    (g : CalendarView.Groups) (blocks : list StoredBlock.t) :
  CalendarView.own date g = Some blocks ->
  CalendarView.own date (CalendarView.push date block g)
  = Some (blocks ++ [block])%list.
Proof.
  induction g as [|[k l] g IH]; cbn [CalendarView.own CalendarView.push];
    [discriminate|].
  destruct (String.eqb_spec k date) as [->|N]; cbn [CalendarView.own].
  - rewrite String.eqb_refl. congruence.
  - destruct (String.eqb_spec k date); [contradiction|]. exact IH.
Qed.

Lemma own_push_other (date other : string) (block : StoredBlock.t)
    (g : CalendarView.Groups) :
  other <> date ->
  CalendarView.own other (CalendarView.push date block g)
  = CalendarView.own other g.
Proof.
  intros N. induction g as [|[k l] g IH];
    cbn [CalendarView.own CalendarView.push]; [reflexivity|].
  destruct (String.eqb_spec k date) as [->|Nk]; cbn [CalendarView.own].
  - destruct (String.eqb_spec date other); [congruence|reflexivity].
  - now rewrite IH.
Qed.

Lemma own_new (date other : string) (block : StoredBlock.t)
    (g : CalendarView.Groups) :
  CalendarView.own other (g ++ [(date, [block])])%list
  = match CalendarView.own other g with
    | Some blocks => Some blocks
    | None => if (date =? other)%string then Some [block] else None
    end.
Proof.
  induction g as [|[k l] g IH]; cbn [app CalendarView.own]; [reflexivity|].
  now destruct (k =? other)%string.
Qed.

Lemma groupStep_keeps (g : CalendarView.Groups) (seen : list StoredBlock.t)
    (block : StoredBlock.t) :
  Measure.groupsOf g seen ->
  existsb (String.eqb (StoredBlock.block_date block)) objectPrototypeKeys
  = false ->
  exists g',
    CalendarView.groupStep (Some g) block = Some g'
    /\ Measure.groupsOf g' (seen ++ [block]).
Proof.
  intros Hg Hk. unfold CalendarView.groupStep.
  set (date := StoredBlock.block_date block) in *.
  assert (F : forall dateStr,
             CalendarPage.getBlocksForDate (seen ++ [block]) dateStr
             = (CalendarPage.getBlocksForDate seen dateStr
                ++ if (date =? dateStr)%string then [block] else [])%list).
  { intros dateStr. unfold CalendarPage.getBlocksForDate.
    rewrite filter_app. cbn [filter]. fold date.
    now destruct (date =? dateStr)%string. }
  destruct (CalendarView.own date g) as [blocks|] eqn:O.
  - eexists. split; [reflexivity|]. intros dateStr. rewrite F.
    destruct (String.eqb_spec date dateStr) as [<-|N].
    + rewrite (own_push_same _ _ _ _ O). rewrite Hg in O.
      destruct (CalendarPage.getBlocksForDate seen date) as [|b l];
        [discriminate|].
      injection O as <-. reflexivity.
    + rewrite own_push_other by congruence. rewrite Hg, app_nil_r.
      reflexivity.
  - rewrite Hk. eexists. split; [reflexivity|]. intros dateStr.
    rewrite own_new, F, Hg.
    destruct (String.eqb_spec date dateStr) as [<-|N].
    + rewrite Hg in O.
      destruct (CalendarPage.getBlocksForDate seen date); [|discriminate].
      reflexivity.
    + rewrite app_nil_r.
      now destruct (CalendarPage.getBlocksForDate seen dateStr).
Qed.

Lemma groupedBlocks_from (rest seen : list StoredBlock.t)
    (g : CalendarView.Groups) :
  Measure.groupsOf g seen ->
  (forall b, In b rest ->
     existsb (String.eqb (StoredBlock.block_date b)) objectPrototypeKeys
     = false) ->
  exists g',
    fold_left CalendarView.groupStep rest (Some g) = Some g'
    /\ Measure.groupsOf g' (seen ++ rest).
Proof.
  revert seen g. induction rest as [|b rest IH]; intros seen g Hg Hk.
  - exists g. rewrite app_nil_r. now split.
  - destruct (groupStep_keeps g seen b Hg (Hk b (or_introl eq_refl)))
      as [g1 [E1 H1]].
    destruct (IH (seen ++ [b])%list g1 H1
                (fun x Hx => Hk x (or_intror Hx))) as [g' [E' H']].
    exists g'. cbn [fold_left]. rewrite E1, E'.
    split; [reflexivity|]. now rewrite <- app_assoc in H'.
Qed.

(** X16: the blocks the month view files under each date are the blocks the
    day view filters for it: for blocks dated with date texts, the grouping
    does not throw, the blocks selected for a date are those whose
    block_date is that date, in their order, and the count shown on the date
    is their number. *)
Theorem groupedBlocks_by_date (studyBlocks : list StoredBlock.t) :
  (forall b, In b studyBlocks ->
     existsb (String.eqb (StoredBlock.block_date b)) objectPrototypeKeys
     = false) ->
  exists g,
    CalendarView.groupedBlocks studyBlocks = Some g
    /\ forall dateStr,
         CalendarView.selectedDateBlocks g dateStr
         = CalendarPage.getBlocksForDate studyBlocks dateStr
         /\ CalendarView.getBlockCount g dateStr
            = List.length (CalendarPage.getBlocksForDate studyBlocks dateStr).
Proof.
  intros Hk.
  destruct (groupedBlocks_from studyBlocks [] [] (fun _ => eq_refl) Hk)
    as [g [E H]].
  exists g. split; [exact E|]. intros dateStr.
  unfold CalendarView.selectedDateBlocks, CalendarView.getBlockCount.
  cbn [app] in H. rewrite H.
  now destruct (CalendarPage.getBlocksForDate studyBlocks dateStr).
Qed.

Lemma groupedBlocks_by_date_witness :
  exists g,
    CalendarView.groupedBlocks Samples.rows = Some g
    /\ CalendarView.getBlockCount g "2025-01-13" = 2%nat.
Proof.
  destruct (groupedBlocks_by_date Samples.rows) as [g [E H]].
  - intros b [<-|[<-|[<-|[]]]]; reflexivity.
  - exists g. split; [exact E|]. exact (proj2 (H "2025-01-13")).
Defined.

(** ** Numbers as text *)

Lemma toString_inj (a b : Z) : toString a = toString b -> a = b.
Proof.
  unfold toString. intros H. apply to_int_inj.
  pose proof (NilEmpty.isi (Z.to_int a)) as Ia.
  pose proof (NilEmpty.isi (Z.to_int b)) as Ib.
  rewrite H in Ia. congruence.
Qed.

Lemma string_of_uint_digits (u : Decimal.uint) :
  allChars isDigit (NilEmpty.string_of_uint u) = true.
Proof. induction u; cbn [NilEmpty.string_of_uint allChars]; auto. Qed.

Lemma toString_digits (z : Z) : 0 <= z -> allChars isDigit (toString z) = true.
Proof.
  intros H. unfold toString. destruct z as [|p|p]; [reflexivity| |lia].
  apply string_of_uint_digits.
Qed.

(** Two texts that start with digits and go on with something else are equal
    only when the digits and what follows are. *)
Lemma digits_then (a b : string) (c c' : ascii) (r r' : string) :
  allChars isDigit a = true -> allChars isDigit b = true ->
  isDigit c = false -> isDigit c' = false ->
  a ++ String c r = b ++ String c' r' ->
  a = b /\ c = c' /\ r = r'.
Proof.
  revert b. induction a as [|x a IH]; intros [|y b] Ha Hb Hc Hc' E;
    cbn [append allChars] in *.
  - injection E as -> ->. auto.
  - injection E as -> _. apply andb_true_iff in Hb as [Hy _]. congruence.
  - injection E as -> _. apply andb_true_iff in Ha as [Hx _]. congruence.
  - injection E as -> E.
    apply andb_true_iff in Ha as [_ Ha]. apply andb_true_iff in Hb as [_ Hb].
    destruct (IH b Ha Hb Hc Hc' E) as [-> [-> ->]]. auto.
Qed.

Lemma range_cases (n : nat) (P : Z -> Prop) :
  (forall k, (k < n)%nat -> P (Z.of_nat k)) ->
  forall z, 0 <= z < Z.of_nat n -> P z.
Proof.
  intros H z Hz. rewrite <- (Z2Nat.id z) by lia. apply H. lia.
Qed.

Lemma below_cases (n : nat) (p : Z -> bool) :
  forallb p (map Z.of_nat (seq 0 n)) = true ->
  forall z, 0 <= z < Z.of_nat n -> p z = true.
Proof.
  intros H. apply range_cases. intros k Hk.
  rewrite forallb_forall in H. apply H.
  apply in_map. apply in_seq. lia.
Qed.

(** A number of at most two digits, padded to two characters. *)
Lemma padStart_two (k : Z) :
  0 <= k < 100 -> padStart 2 "0" (toString k) = pad 2 k.
Proof.
  intros H. apply String.eqb_eq.
  apply (below_cases 100
           (fun k => (padStart 2 "0" (toString k) =? pad 2 k)%string));
    [vm_compute; reflexivity|exact H].
Qed.

Lemma pad2_inj (a b : Z) :
  0 <= a < 100 -> 0 <= b < 100 -> pad 2 a = pad 2 b -> a = b.
Proof.
  intros Ha Hb. unfold pad. cbn [padAcc]. intros E.
  injection E as E1 E0.
  apply (f_equal digitValue) in E1. apply (f_equal digitValue) in E0.
  rewrite !(proj2 (digitChar_digit _ (mod10_digit _))) in E1.
  rewrite !(proj2 (digitChar_digit _ (mod10_digit _))) in E0.
  rewrite (digits2 a), (digits2 b) by lia. lia.
Qed.

Lemma pad2_digits_only (k : Z) : allChars isDigit (pad 2 k) = true.
Proof.
  unfold pad. cbn [padAcc allChars].
  now rewrite !(proj1 (digitChar_digit _ (mod10_digit _))).
Qed.

(** ** The countdown of the lock screen *)

Lemma sub_one (t : Z) :
  1 <= t <= Double.maxExact -> Double.sub t 1 = Some (t - 1).
Proof.
  intros H. unfold Double.sub.
  assert (Ea : Double.exact t = true) by (apply exact_range; lia).
  assert (Eb : Double.exact 1 = true) by reflexivity.
  assert (Es : Double.exact (t - 1) = true) by (apply exact_range; lia).
  now rewrite Ea, Eb, Es.
Qed.

Lemma ticks_stopped (n : nat) (st : LockMode.State) :
  LockMode.running st = false -> LockMode.ticks n st = Some st.
Proof.
  intros H. induction n as [|n IH]; [reflexivity|].
  cbn [LockMode.ticks]. unfold LockMode.tick. now rewrite H.
Qed.

Lemma ticks_running (n : nat) (t : Z) (k : nat) :
  1 <= t <= Double.maxExact ->
  LockMode.ticks n
    {| LockMode.timeRemaining := t; LockMode.running := true;
       LockMode.navigations := k |}
  = Some (if (Z.of_nat n <? t)%Z
          then {| LockMode.timeRemaining := t - Z.of_nat n;
                  LockMode.running := true; LockMode.navigations := k |}
          else {| LockMode.timeRemaining := 0; LockMode.running := false;
                  LockMode.navigations := S k |}).
Proof.
  revert t. induction n as [|n IH]; intros t Ht.
  - cbn [LockMode.ticks]. destruct (Z.ltb_spec (Z.of_nat 0) t); [|lia].
    do 2 f_equal. lia.
  - cbn [LockMode.ticks]. unfold LockMode.tick at 1.
    cbn [LockMode.running LockMode.timeRemaining LockMode.navigations].
    destruct (Z.leb_spec t 1) as [L|G].
    + destruct (Z.ltb_spec (Z.of_nat (S n)) t); [lia|].
      now apply ticks_stopped.
    + rewrite sub_one by lia. rewrite IH by lia.
      destruct (Z.ltb_spec (Z.of_nat n) (t - 1)),
        (Z.ltb_spec (Z.of_nat (S n)) t); try lia; [|reflexivity].
      do 2 f_equal. lia.
Qed.

(** X17: started with a positive number of seconds (up to 2^53, where
    doubles count down exactly), the countdown shows that number less one
    for each second gone, stops at zero and never goes below; it leaves for
    the completion page once, at the second that reaches zero, and no later
    firing of the interval does it again. *)
Theorem countdown (seconds : Z) (n : nat) :
  1 <= seconds <= Double.maxExact ->
  exists st,
    LockMode.ticks n (LockMode.start seconds) = Some st
    /\ LockMode.timeRemaining st = Z.max 0 (seconds - Z.of_nat n)
    /\ LockMode.running st = (Z.of_nat n <? seconds)%Z
    /\ LockMode.navigations st
       = (if (Z.of_nat n <? seconds)%Z then 0 else 1)%nat.
Proof.
  intros H. unfold LockMode.start. rewrite ticks_running by exact H.
  eexists. split; [reflexivity|].
  destruct (Z.ltb_spec (Z.of_nat n) seconds);
    cbn [LockMode.timeRemaining LockMode.running LockMode.navigations];
    repeat split; lia.
Qed.

(** 45 minutes: 2600 seconds are left after 100, and after 3000 the page has
    navigated once. *)
Lemma countdown_witness :
  (exists st,
      LockMode.ticks 100 (LockMode.start 2700) = Some st
      /\ LockMode.timeRemaining st = 2600)
  /\ (exists st,
         LockMode.ticks 3000 (LockMode.start 2700) = Some st
         /\ LockMode.navigations st = 1%nat).
Proof.
  split.
  - destruct (countdown 2700 100) as [st [E [T _]]];
      [unfold Double.maxExact; lia|].
    exists st. split; [exact E|exact T].
  - destruct (countdown 2700 3000) as [st [E [_ [_ N]]]];
      [unfold Double.maxExact; lia|].
    exists st. split; [exact E|exact N].
Defined.

(** ** The remaining time as text *)

Lemma divides_exactly (a : Z) :
  0 <= a <= Double.maxExact ->
  Double.floorDiv60 a = Some (a / 60) /\ Double.rem60 a = Some (a mod 60).
Proof.
  intros H. unfold Double.floorDiv60, Double.rem60.
  assert (E : Double.exact a = true) by (apply exact_range; lia).
  rewrite E, Z.rem_mod_nonneg by lia. now split.
Qed.

(** X18: for a number of seconds that is not negative (up to 2^53), the lock
    screen shows the whole minutes, a colon and the seconds of the minute on
    two digits; two different numbers of seconds never show the same
    text. *)
Theorem lockMode_formatTime (seconds : Z) :
  0 <= seconds <= Double.maxExact ->
  LockMode.formatTime seconds
  = Some (toString (seconds / 60) ++ ":" ++ pad 2 (seconds mod 60))
  /\ forall other,
       0 <= other <= Double.maxExact ->
       LockMode.formatTime other = LockMode.formatTime seconds ->
       other = seconds.
Proof.
  assert (F : forall s, 0 <= s <= Double.maxExact ->
                LockMode.formatTime s
                = Some (toString (s / 60) ++ ":" ++ pad 2 (s mod 60))).
  { intros s Hs. unfold LockMode.formatTime.
    destruct (divides_exactly s Hs) as [-> ->].
    rewrite padStart_two by (pose proof (Z.mod_pos_bound s 60); lia).
    reflexivity. }
  intros H. split; [now apply F|].
  intros other Ho E. rewrite !F in E by assumption.
  assert (E' : toString (other / 60) ++ ":" ++ pad 2 (other mod 60)
               = toString (seconds / 60) ++ ":" ++ pad 2 (seconds mod 60))
    by congruence.
  clear E. cbn [append] in E'.
  apply digits_then in E' as [Em [_ Es]];
    try reflexivity;
    try (apply toString_digits; apply Z.div_pos; lia).
  apply toString_inj in Em.
  apply pad2_inj in Es;
    try (pose proof (Z.mod_pos_bound other 60);
         pose proof (Z.mod_pos_bound seconds 60); lia).
  rewrite (Z.div_mod other 60), (Z.div_mod seconds 60) by lia. lia.
Qed.

Lemma lockMode_formatTime_witness :
  LockMode.formatTime 65 = Some "1:05".
Proof.
  exact (proj1 (lockMode_formatTime 65
                  ltac:(unfold Double.maxExact; lia))).
Defined.

(** ** A duration as text *)

Lemma studyPlan_shape (minutes : Z) :
  0 <= minutes <= Double.maxExact ->
  exists (n : Z) (c : ascii) (r : string),
    StudyPlan.formatTime minutes = Some (toString n ++ String c r)
    /\ 0 <= n
    /\ ((minutes < 60 /\ n = minutes /\ c = "m"%char /\ r = "")
        \/ (60 <= minutes /\ minutes mod 60 = 0 /\ n = minutes / 60
            /\ c = "h"%char /\ r = "")
        \/ (60 <= minutes /\ 0 < minutes mod 60 /\ n = minutes / 60
            /\ c = "h"%char
            /\ r = " " ++ toString (minutes mod 60) ++ "m")).
Proof.
  intros H. unfold StudyPlan.formatTime.
  destruct (divides_exactly minutes H) as [-> ->].
  pose proof (Z.mod_pos_bound minutes 60 ltac:(lia)) as B.
  pose proof (Z.div_mod minutes 60 ltac:(lia)) as D.
  destruct (Z.eqb_spec (minutes / 60) 0) as [E|N].
  - exists (minutes mod 60), "m"%char, "".
    split; [reflexivity|]. split; [lia|]. left. repeat split; lia.
  - assert (1 <= minutes / 60)
      by (pose proof (Z.div_pos minutes 60); lia).
    destruct (Z.eqb_spec (minutes mod 60) 0) as [E0|N0].
    + exists (minutes / 60), "h"%char, "".
      split; [reflexivity|]. split; [lia|]. right. left. repeat split; lia.
    + exists (minutes / 60), "h"%char, (" " ++ toString (minutes mod 60) ++ "m").
      split; [reflexivity|]. split; [lia|]. right. right. repeat split; lia.
Qed.

(** X19: a duration that is not negative (up to 2^53) is shown as its
    minutes below an hour, as its whole hours, or as hours and minutes,
    never with a part that is zero beside another; two different durations
    never show the same text. *)
Theorem studyPlan_formatTime (minutes : Z) :
  0 <= minutes <= Double.maxExact ->
  (minutes < 60 ->
   StudyPlan.formatTime minutes = Some (toString minutes ++ "m"))
  /\ (60 <= minutes -> minutes mod 60 = 0 ->
      StudyPlan.formatTime minutes = Some (toString (minutes / 60) ++ "h"))
  /\ (60 <= minutes -> 0 < minutes mod 60 ->
      StudyPlan.formatTime minutes
      = Some (toString (minutes / 60) ++ "h "
              ++ toString (minutes mod 60) ++ "m"))
  /\ forall other,
       0 <= other <= Double.maxExact ->
       StudyPlan.formatTime other = StudyPlan.formatTime minutes ->
       other = minutes.
Proof.
  intros H.
  destruct (studyPlan_shape minutes H) as [n [c [r [F [Hn S]]]]].
  split; [|split; [|split]].
  - intros L. rewrite F. destruct S as [[_ [-> [-> ->]]]|[S|S]];
      [reflexivity|lia|lia].
  - intros L M. rewrite F. destruct S as [S|[[_ [_ [-> [-> ->]]]]|S]];
      [lia|reflexivity|lia].
  - intros L M. rewrite F. destruct S as [S|[S|[_ [_ [-> [-> ->]]]]]];
      [lia|lia|reflexivity].
  - intros other Ho E.
    destruct (studyPlan_shape other Ho) as [n' [c' [r' [F' [Hn' S']]]]].
    rewrite F, F' in E.
    assert (E' : toString n' ++ String c' r' = toString n ++ String c r)
      by congruence.
    clear E.
    assert (Dc : forall x, x = "m"%char \/ x = "h"%char -> isDigit x = false)
      by (intros x [->| ->]; reflexivity).
    assert (Cc : c = "m"%char \/ c = "h"%char)
      by (destruct S as [S|[S|S]]; tauto).
    assert (Cc' : c' = "m"%char \/ c' = "h"%char)
      by (destruct S' as [S'|[S'|S']]; tauto).
    apply digits_then in E' as [En [Ec Er]];
      auto using toString_digits.
    apply toString_inj in En.
    pose proof (Z.div_mod minutes 60 ltac:(lia)).
    pose proof (Z.div_mod other 60 ltac:(lia)).
    destruct S as [[L [-> [-> ->]]]|[[L [M [-> [-> ->]]]]|[L [M [-> [-> ->]]]]]];
      destruct S' as [[L' [-> [Ec' Er']]]|[[L' [M' [-> [Ec' Er']]]]
                      |[L' [M' [-> [Ec' Er']]]]]];
      subst; try discriminate; try lia.
    cbn [append] in Er. injection Er as Er.
    apply (digits_then _ _ "m" "m" "" "") in Er as [Em _];
      try reflexivity;
      try (apply toString_digits; lia).
    apply toString_inj in Em. lia.
Qed.

Lemma studyPlan_formatTime_witness :
  StudyPlan.formatTime 135 = Some "2h 15m".
Proof.
  exact (proj1 (proj2 (proj2 (studyPlan_formatTime 135
                                ltac:(unfold Double.maxExact; lia))))
           ltac:(lia) ltac:(reflexivity)).
Defined.

(** ** The time of a block on a twelve-hour clock *)

Lemma rev_string_acc (acc s : string) :
  rev_string acc s = rev_string "" s ++ acc.
Proof.
  revert acc. induction s as [|c s IH]; intros acc; cbn [rev_string].
  - reflexivity.
  - rewrite IH, (IH (String c "")), append_assoc. reflexivity.
Qed.

Lemma splitAcc_piece (sep : ascii) (a rest cur : string) :
  lacks sep a = true ->
  splitAcc sep (a ++ String sep rest) cur
  = (rev_string "" cur ++ a) :: splitAcc sep rest "".
Proof.
  revert cur. induction a as [|c a IH]; intros cur H.
  - cbn [append splitAcc]. rewrite Ascii.eqb_refl.
    now rewrite append_empty_r.
  - apply lacks_cons in H as [Hc Ha].
    cbn [append splitAcc]. rewrite Hc, (IH _ Ha).
    cbn [rev_string]. rewrite (rev_string_acc (String c "")), append_assoc.
    reflexivity.
Qed.

Lemma splitAcc_last (sep : ascii) (a cur : string) :
  lacks sep a = true ->
  splitAcc sep a cur = [rev_string "" cur ++ a].
Proof.
  revert cur. induction a as [|c a IH]; intros cur H.
  - cbn [splitAcc]. now rewrite append_empty_r.
  - apply lacks_cons in H as [Hc Ha].
    cbn [splitAcc]. rewrite Hc, (IH _ Ha).
    cbn [rev_string]. rewrite (rev_string_acc (String c "")), append_assoc.
    reflexivity.
Qed.

(** The first two pieces of a time that starts with [a:b]. *)
Lemma split_two (a b tail : string) :
  lacks ":" a = true -> lacks ":" b = true ->
  tail = "" \/ (exists x, tail = String ":" x) ->
  exists more, split ":" (a ++ ":" ++ b ++ tail) = a :: b :: more.
Proof.
  intros Ha Hb Ht. unfold split. cbn [append].
  rewrite (splitAcc_piece ":" a _ "" Ha). cbn [rev_string append].
  destruct Ht as [->|[x ->]].
  - rewrite append_empty_r, (splitAcc_last ":" b "" Hb). now exists [].
  - rewrite (splitAcc_piece ":" b x "" Hb). now eexists.
Qed.

Lemma parseInt_pad2 (h : Z) :
  0 <= h < 100 -> parseInt (pad 2 h) = Some (Int h).
Proof.
  intros H.
  assert (B : match parseInt (pad 2 h) with
              | Some (Int v) => (v =? h)%Z
              | _ => false
              end = true).
  { apply (below_cases 100
             (fun h => match parseInt (pad 2 h) with
                       | Some (Int v) => (v =? h)%Z
                       | _ => false
                       end)); [vm_compute; reflexivity|exact H]. }
  destruct (parseInt (pad 2 h)) as [[|v]|]; try discriminate.
  apply Z.eqb_eq in B. now subst.
Qed.

Lemma digits_lack_colon (s : string) :
  allChars isDigit s = true -> lacks ":" s = true.
Proof.
  unfold lacks. induction s as [|c s IH]; cbn [allChars]; [reflexivity|].
  intros H. apply andb_true_iff in H as [Hc Hs]. rewrite (IH Hs).
  destruct (Ascii.eqb_spec c ":") as [->|]; [discriminate|reflexivity].
Qed.

(** X20: a time of day written as two digits of hours, a colon and the
    minutes (seconds may follow) is shown on a twelve-hour clock: the hour
    from 1 to 12, the minutes as they are written, AM before noon and PM
    from noon on; the hour shown and the half of the day give back the hour
    of the day. *)
Theorem calendar_formatTime (h : Z) (minutes tail : string) :
  0 <= h <= 23 ->
  lacks ":" minutes = true ->
  tail = "" \/ (exists x, tail = String ":" x) ->
  let shown := if (h mod 12 =? 0)%Z then 12 else h mod 12 in
  CalendarView.formatTime (Some (pad 2 h ++ ":" ++ minutes ++ tail))
  = Some (toString shown ++ ":" ++ minutes ++ " "
          ++ (if (h <? 12)%Z then "AM" else "PM"))
  /\ 1 <= shown <= 12
  /\ h = shown mod 12 + (if (h <? 12)%Z then 0 else 12).
Proof.
  intros Hh Hm Ht shown.
  assert (Hs : 1 <= shown <= 12 /\ h mod 12 = shown mod 12).
  { subst shown. pose proof (Z.mod_pos_bound h 12 ltac:(lia)).
    destruct (Z.eqb_spec (h mod 12) 0) as [E|N].
    - rewrite E. split; [lia|reflexivity].
    - split; [lia|]. now rewrite Z.mod_mod. }
  split; [|split; [tauto|]].
  - unfold CalendarView.formatTime.
    destruct (split_two (pad 2 h) minutes tail
                (digits_lack_colon _ (pad2_digits_only h)) Hm Ht)
      as [more Sp].
    assert (Ne : nonEmpty (Some (pad 2 h ++ ":" ++ minutes ++ tail))
                 = Some (pad 2 h ++ ":" ++ minutes ++ tail))
      by reflexivity.
    rewrite Ne, Sp. cbn [nth nth_error].
    rewrite parseInt_pad2 by lia.
    rewrite Z.rem_mod_nonneg by lia. fold shown.
    rewrite Z.leb_antisym. now destruct (h <? 12)%Z.
  - destruct Hs as [_ <-].
    destruct (Z.ltb_spec h 12).
    + rewrite Z.mod_small; lia.
    + replace h with (h - 12 + 1 * 12) at 2 by lia.
      rewrite Z.mod_add, Z.mod_small; lia.
Qed.

Lemma calendar_formatTime_witness :
  CalendarView.formatTime (Some "18:00:00") = Some "6:00 PM".
Proof.
  exact (proj1 (calendar_formatTime 18 "00" ":00" ltac:(lia) eq_refl
                  (or_intror (ex_intro _ "00" eq_refl)))).
Defined.

(** ** When the merge raises *)

Lemma mapRows_throws (userId classId : Value) (inserted : list Assignment.t)
    (entries : list Json.t) :
  Forall (fun e => PlanMerge.decimal (Json.held "assignmentIndex" e) = true)
         entries ->
  (PlanMerge.mapRows (PlanMerge.entryRow userId classId inserted) entries
   = Json.Throws /\ existsb PlanMerge.raises entries = true)
  \/ ((exists rows,
          PlanMerge.mapRows (PlanMerge.entryRow userId classId inserted)
            entries = Json.Returns rows)
      /\ existsb PlanMerge.raises entries = false).
Proof.
  induction 1 as [|e l Hd _ IH].
  - right. split; [now exists []|reflexivity].
  - cbn [PlanMerge.mapRows existsb].
    destruct (PlanMerge.raises e) eqn:Hr.
    + rewrite (entryRow_throws userId classId inserted e Hr Hd).
      left. now split.
    + destruct (entryRow_returns userId classId inserted e Hr Hd)
        as [row [-> _]].
      cbn [Json.bind orb].
      destruct IH as [[-> ->]|[[rows ->] ->]]; [left; now split|].
      right. split; [eexists; reflexivity|reflexivity].
Qed.

(** X21: with at least one inserted assignment, the merge raises a TypeError
    exactly when some entry of the plan is null, or has an assignmentIndex
    that is an object with a member named toString or an array holding such
    an object; with no inserted assignment it never raises, the entries not
    being read. *)
Theorem planMerge_raises (userId classId : Value)
    (blocks : list ClassMeeting.t) (entries : list Json.t)
    (inserted : list Assignment.t) :
  Forall (fun e => PlanMerge.decimal (Json.held "assignmentIndex" e) = true)
         entries ->
  (PlanMerge.allStudyBlocks userId classId blocks entries inserted
   = Json.Throws
   <-> inserted <> [] /\ existsb PlanMerge.raises entries = true)
  /\ (PlanMerge.allStudyBlocks userId classId blocks entries inserted
      <> Json.Throws ->
      exists out,
        PlanMerge.allStudyBlocks userId classId blocks entries inserted
        = Json.Returns out).
Proof.
  intros Hd. rewrite planMerge_eq.
  destruct inserted as [|a inserted].
  - split.
    + split; [discriminate|]. now intros [H _].
    + intros _. eexists. reflexivity.
  - destruct (mapRows_throws userId classId (a :: inserted) entries Hd)
      as [[-> ->]|[[rows ->] ->]]; cbn [Json.bind].
    + split; [|intros H; now contradiction H].
      split; [|reflexivity]. intros _. split; [discriminate|reflexivity].
    + split.
      * split; [discriminate|]. intros [_ H]. discriminate.
      * intros _. eexists. reflexivity.
Qed.

(** The planner's example followed by null: the merge raises. *)
Lemma planMerge_raises_witness :
  PlanMerge.allStudyBlocks Examples.user Examples.class [Examples.meeting1]
    [PlanMerge.ofPlanned Examples.session0; Json.Prim JNull]
    [Examples.assignment1]
  = Json.Throws.
Proof.
  apply (proj1 (planMerge_raises Examples.user Examples.class
                  [Examples.meeting1]
                  [PlanMerge.ofPlanned Examples.session0; Json.Prim JNull]
                  [Examples.assignment1]
                  ltac:(repeat constructor))).
  split; [discriminate|reflexivity].
Defined.
